(** * abstract-search-server.js: the MCP abstract search server

    A shallow embedding of [src/abstract-search-server.js]: the text
    normalizer [cleanAbstract], the two abstract providers and the selector
    [getBestAbstract], the tool handlers of [MCPServer] and the line handler
    registered in [main]. *)

From Stdlib Require Import String Ascii List ZArith NArith Bool Lia Arith.
From Stdlib Require Import DecimalString.
Import ListNotations.

Local Open Scope N_scope.
Set Warnings "-register-all,-abstract-large-number".

(** ** JavaScript strings

    A JavaScript string is a sequence of UTF-16 code units; [length],
    [substring], the regular expressions of [cleanAbstract] and [trim] all work
    on code units. *)

Definition code_unit := N.
Definition jsstring := list code_unit.

(** String literals of the source are written as Rocq literals (UTF-8 bytes)
    and decoded to code units. *)
Definition cont (b : N) : N := N.land b 63.

Definition units_of_code_point (cp : N) : jsstring :=
  if cp <? 65536 then [cp]
  else [55296 + N.shiftr (cp - 65536) 10; 56320 + N.land (cp - 65536) 1023].

Fixpoint utf16_of_bytes (bs : list N) : jsstring :=
  match bs with
  | [] => []
  | b0 :: t0 =>
    if b0 <? 128 then b0 :: utf16_of_bytes t0
    else match t0 with
    | [] => [b0]
    | b1 :: t1 =>
      if b0 <? 224 then
        (N.shiftl (N.land b0 31) 6 + cont b1) :: utf16_of_bytes t1
      else match t1 with
      | [] => [b0; b1]
      | b2 :: t2 =>
        if b0 <? 240 then
          (N.shiftl (N.land b0 15) 12 + N.shiftl (cont b1) 6 + cont b2)
            :: utf16_of_bytes t2
        else match t2 with
        | [] => [b0; b1; b2]
        | b3 :: t3 =>
          units_of_code_point
            (N.shiftl (N.land b0 7) 18 + N.shiftl (cont b1) 12
             + N.shiftl (cont b2) 6 + cont b3) ++ utf16_of_bytes t3
        end
      end
    end
  end.

Definition utf16 (s : string) : jsstring :=
  utf16_of_bytes (map N_of_ascii (list_ascii_of_string s)).

Fixpoint str_eqb (a b : jsstring) : bool :=
  match a, b with
  | [], [] => true
  | x :: a', y :: b' => (x =? y) && str_eqb a' b'
  | _, _ => false
  end.

(** The characters the normalizer looks at. *)
Definition LT : code_unit := 60.   (* '<' *)
Definition GT : code_unit := 62.   (* '>' *)
Definition SPACE : code_unit := 32.

(** [\s] of a JavaScript regular expression, which is also the set that
    [String.prototype.trim] strips: WhiteSpace and LineTerminator. *)
Definition is_space (c : code_unit) : bool :=
  ((9 <=? c) && (c <=? 13)) || (c =? 32) || (c =? 160) || (c =? 5760)
  || ((8192 <=? c) && (c <=? 8202)) || (c =? 8232) || (c =? 8233)
  || (c =? 8239) || (c =? 8287) || (c =? 12288) || (c =? 65279).

(** ** Regular-expression replacement

    [s.replace(/re/g, repl)]: scan from the left; where the expression matches,
    emit [repl] and go on after the match, otherwise copy one code unit.  A
    matcher returns the input left after the match at the head of its
    argument.  Every expression of the source consumes at least one unit. *)
Definition matcher := jsstring -> option jsstring.

Fixpoint replace_fuel (fuel : nat) (m : matcher) (repl s : jsstring) : jsstring :=
  match fuel with
  | O => s
  | S fuel' =>
    match s with
    | [] => []
    | c :: r =>
      match m s with
      | Some rest => repl ++ replace_fuel fuel' m repl rest
      | None => c :: replace_fuel fuel' m repl r
      end
    end
  end.

Definition replace_all (m : matcher) (repl s : jsstring) : jsstring :=
  replace_fuel (length s) m repl s.

(** [[^>]+] is greedy: it takes every unit up to the next '>' or the end. *)
Fixpoint span_not_gt (s : jsstring) : jsstring * jsstring :=
  match s with
  | [] => ([], [])
  | c :: r =>
    if c =? GT then ([], s)
    else let (body, rest) := span_not_gt r in (c :: body, rest)
  end.

(** [[^>]+>] : at least one unit other than '>', then '>'.  When the greedy
    run reaches the end of the input no shorter run helps, because the unit
    after a shorter run is not '>' either. *)
Definition match_body_gt (s : jsstring) : option jsstring :=
  match span_not_gt s with
  | (_ :: _, _ :: rest) => Some rest
  | _ => None
  end.

Fixpoint match_literal (lit s : jsstring) : option jsstring :=
  match lit with
  | [] => Some s
  | x :: lit' =>
    match s with
    | [] => None
    | c :: r => if c =? x then match_literal lit' r else None
    end
  end.

Definition match_seq (lit : jsstring) (s : jsstring) : option jsstring :=
  match match_literal lit s with
  | Some r => match_body_gt r
  | None => None
  end.

(** [/<[^>]+>/], [/<jats:[^>]+>/] and [/<\/jats:[^>]+>/]. *)
Definition re_tag : matcher := match_seq [LT].
Definition re_jats_open : matcher := match_seq (utf16 "<jats:").
Definition re_jats_close : matcher := match_seq (utf16 "</jats:").

Fixpoint drop_space (s : jsstring) : jsstring :=
  match s with
  | [] => []
  | c :: r => if is_space c then drop_space r else s
  end.

(** [/\s+/] *)
Definition re_spaces : matcher := fun s =>
  match s with
  | c :: r => if is_space c then Some (drop_space r) else None
  | [] => None
  end.

Definition trim (s : jsstring) : jsstring :=
  rev (drop_space (rev (drop_space s))).

Definition NA : jsstring := utf16 "N/A".
Definition ELLIPSIS : jsstring := utf16 "...".

(** [cleanAbstract] on a string that passed the guard of its first line. *)
Definition clean_text (abstract : jsstring) : jsstring :=
  let cleanText := replace_all re_tag [] abstract in
  let cleanText := replace_all re_jats_open [] cleanText in
  let cleanText := replace_all re_jats_close [] cleanText in
  let cleanText := trim (replace_all re_spaces [SPACE] cleanText) in
  if (500 <? length cleanText)%nat then firstn 500 cleanText ++ ELLIPSIS
  else cleanText.

(** [s.length] *)
Definition str_length (s : jsstring) : nat := List.length s.

Definition is_empty (s : jsstring) : bool :=
  match s with [] => true | _ => false end.

(** ** JavaScript values

    What [JSON.parse], axios and xml2js hand to the program, and what the
    program builds from it.  [Obj] lists the own enumerable properties in the
    order [for...in] visits them.  Numbers are the integers (ids, counts,
    status codes). *)
Inductive value : Type :=
| Undefined
| Null
| Bool (b : bool)
| Num (n : Z)
| Str (s : jsstring)
| Arr (elems : list value)
| Obj (props : list (jsstring * value)).

Inductive error_kind := TypeError | ReferenceError | SyntaxError | AxiosError.

Record js_error := mkError { kind : error_kind; message : jsstring }.

Inductive outcome (A : Type) : Type :=
| Ok (a : A)
| Throw (e : js_error).
Arguments Ok {A} a.
Arguments Throw {A} e.

Definition obind {A B} (o : outcome A) (f : A -> outcome B) : outcome B :=
  match o with
  | Ok a => f a
  | Throw e => Throw e
  end.

(** [ToBoolean] *)
Definition truthy (v : value) : bool :=
  match v with
  | Undefined | Null => false
  | Bool b => b
  | Num n => negb (n =? 0)%Z
  | Str s => negb (is_empty s)
  | Arr _ | Obj _ => true
  end.

(** [a || b] *)
Definition or_else (a b : value) : value := if truthy a then a else b.

(** [v === "literal"] *)
Definition is_str (v : value) (lit : jsstring) : bool :=
  match v with
  | Str s => str_eqb s lit
  | _ => false
  end.

Fixpoint assoc (key : jsstring) (props : list (jsstring * value)) : value :=
  match props with
  | [] => Undefined
  | (k, v) :: props' => if str_eqb k key then v else assoc key props'
  end.

Fixpoint has_key (key : jsstring) (props : list (jsstring * value)) : bool :=
  match props with
  | [] => false
  | (k, _) :: props' => str_eqb k key || has_key key props'
  end.

(** [Number.prototype.toString] on an integer (below 10^21 in size, where
    JavaScript prints every digit). *)
Definition Number_toString (n : Z) : jsstring :=
  utf16 (NilZero.string_of_int (Z.to_int n)).

Definition null_deref (what key : jsstring) : js_error :=
  mkError TypeError
    (utf16 "Cannot read properties of " ++ what ++ utf16 " (reading '"
     ++ key ++ utf16 "')").

(** [v.key] and [v['key']] for the property names the source reads; none of
    them is a property of a prototype. *)
Definition get_prop (v : value) (key : jsstring) : outcome value :=
  match v with
  | Undefined => Throw (null_deref (utf16 "undefined") key)
  | Null => Throw (null_deref (utf16 "null") key)
  | Obj props => Ok (assoc key props)
  | Arr elems =>
    if str_eqb key (utf16 "length") then Ok (Num (Z.of_nat (List.length elems)))
    else Ok Undefined
  | Str s =>
    if str_eqb key (utf16 "length") then Ok (Num (Z.of_nat (str_length s)))
    else Ok Undefined
  | Bool _ | Num _ => Ok Undefined
  end.

(** [v[i]] for a literal index. *)
Definition get_index (v : value) (i : nat) : outcome value :=
  match v with
  | Arr elems => Ok (nth i elems Undefined)
  | Str s => Ok (match nth_error s i with Some c => Str [c] | None => Undefined end)
  | _ => get_prop v (Number_toString (Z.of_nat i))
  end.

Definition cannot_convert : js_error :=
  mkError TypeError (utf16 "Cannot convert object to primitive value").

(** [ToString], as a template literal applies it.  An object parsed from
    JSON converts through [Object.prototype.toString] unless it has an own
    property [toString]: that one is not callable, [valueOf] gives back the
    object, and the conversion throws.  An array converts through [join]. *)
Fixpoint ToString (v : value) : outcome jsstring :=
  match v with
  | Undefined => Ok (utf16 "undefined")
  | Null => Ok (utf16 "null")
  | Bool b => Ok (if b then utf16 "true" else utf16 "false")
  | Num n => Ok (Number_toString n)
  | Str s => Ok s
  | Arr elems =>
    (fix join (es : list value) : outcome jsstring :=
       match es with
       | [] => Ok []
       | e :: es' =>
         obind (match e with
                | Undefined | Null => Ok []
                | _ => ToString e
                end) (fun first =>
         match es' with
         | [] => Ok first
         | _ :: _ => obind (join es') (fun others => Ok (first ++ utf16 "," ++ others))
         end)
       end) elems
  | Obj props =>
    if has_key (utf16 "toString") props then Throw cannot_convert
    else Ok (utf16 "[object Object]")
  end.

(** [typeof v === 'object'] *)
Definition typeof_object (v : value) : bool :=
  match v with
  | Null | Arr _ | Obj _ => true
  | _ => false
  end.

Definition not_a_function (what : jsstring) : js_error :=
  mkError TypeError (what ++ utf16 " is not a function").

(** ** cleanAbstract (lines 103-122)

    The guard of line 104 returns the sentinel for a falsy argument and for
    ['N/A']; any other argument gets its [replace] method called, which only a
    string has. *)
Definition cleanAbstract (abstract_ : value) : outcome jsstring :=
  if negb (truthy abstract_) || is_str abstract_ NA then Ok NA
  else match abstract_ with
  | Str s => Ok (clean_text s)
  | _ => Throw (not_a_function (utf16 "abstract.replace"))
  end.

(** ** The world outside the program

    Built-ins and libraries the program calls but does not define.
    [axios_respond n req] is what the network does with the request [req]
    when [n] requests were sent before it; [string_is_positive s] is the
    truth of [ToNumber(s) > 0]. *)
Record http_request := mkRequest {
  url : jsstring;
  params : value;
  headers : value;
  timeout : option Z
}.

Inductive http_outcome :=
| Response (status : Z) (data : value)
| NetworkError (e : js_error).

Record runtime := mkRuntime {
  JSON_parse : jsstring -> outcome value;
  axios_respond : nat -> http_request -> http_outcome;
  xml2js_parse : value -> outcome value;
  string_is_positive : jsstring -> bool;
  scopusApiKey : jsstring
}.

(** ** Effects

    A computation starts in a state, ends with a value or a thrown error,
    and emits events on the way: lines on the protocol stream
    ([console.log(JSON.stringify v)] is [Stdout v]), lines on the diagnostic
    stream, HTTP requests and pauses.  [Call f args] marks the entry into the
    function [f] of the source with its arguments; it is a mark in the trace,
    not an output of the program. *)
Record state := mkState { http_calls : nat; initialized : bool }.

Inductive event :=
| Stdout (line : value)
| Stderr (text : jsstring)
| HttpGet (req : http_request)
| Sleep (ms : Z)
| Call (fn : string) (args : list value).

Record run (A : Type) := mkRun {
  result : outcome A;
  final : state;
  trace : list event
}.
Arguments mkRun {A} _ _ _.
Arguments result {A} _.
Arguments final {A} _.
Arguments trace {A} _.

Definition M (A : Type) : Type := state -> run A.

Definition ret {A} (a : A) : M A := fun s => mkRun (Ok a) s [].

Definition bind {A B} (m : M A) (f : A -> M B) : M B := fun s =>
  let r := m s in
  match result r with
  | Ok a => let r' := f a (final r) in
            mkRun (result r') (final r') (trace r ++ trace r')
  | Throw e => mkRun (Throw e) (final r) (trace r)
  end.

Definition lift {A} (o : outcome A) : M A := fun s => mkRun o s [].

(** [try { body } catch (error) { handler }] *)
Definition try_catch {A} (body : M A) (handler : js_error -> M A) : M A :=
  fun s =>
  let r := body s in
  match result r with
  | Ok a => r
  | Throw e => let r' := handler e (final r) in
               mkRun (result r') (final r') (trace r ++ trace r')
  end.

Declare Scope js_scope.
Delimit Scope js_scope with js.
Notation "x <- m ;; k" := (bind m (fun x => k))
  (at level 61, m at next level, right associativity) : js_scope.
Notation "m ;; k" := (bind m (fun _ => k))
  (at level 61, right associativity) : js_scope.
Local Open Scope js_scope.

Definition emit (e : event) : M unit := fun s => mkRun (Ok tt) s [e].

Definition console_error (text : jsstring) : M unit := emit (Stderr text).

(** [console.log(JSON.stringify(v))]: one line on the protocol stream.  The
    event records the value; [JSON.stringify] leaves a property whose value is
    [undefined] out of the line. *)
Definition console_log_json (v : value) : M unit := emit (Stdout v).

(** [await new Promise(resolve => setTimeout(resolve, ms))] *)
Definition sleep (ms : Z) : M unit := emit (Sleep ms).

Definition axios_get (rt : runtime) (req : http_request) : M (Z * value) :=
  fun s =>
  let s' := mkState (S (http_calls s)) (initialized s) in
  match axios_respond rt (http_calls s) req with
  | Response status data => mkRun (Ok (status, data)) s' [HttpGet req]
  | NetworkError e => mkRun (Throw e) s' [HttpGet req]
  end.

(** [for (const x of xs) { ... }] around the variables the body updates. *)
Fixpoint for_of {A B} (xs : list A) (acc : B) (body : B -> A -> M B) : M B :=
  match xs with
  | [] => ret acc
  | x :: xs' => acc' <- body acc x ;; for_of xs' acc' body
  end.

(** The protocol lines of a trace. *)
Fixpoint stdout_lines (tr : list event) : list value :=
  match tr with
  | [] => []
  | Stdout v :: tr' => v :: stdout_lines tr'
  | _ :: tr' => stdout_lines tr'
  end.

Fixpoint http_requests (tr : list event) : list http_request :=
  match tr with
  | [] => []
  | HttpGet req :: tr' => req :: http_requests tr'
  | _ :: tr' => http_requests tr'
  end.

Fixpoint pauses (tr : list event) : list Z :=
  match tr with
  | [] => []
  | Sleep ms :: tr' => ms :: pauses tr'
  | _ :: tr' => pauses tr'
  end.

Fixpoint calls (tr : list event) : list string :=
  match tr with
  | [] => []
  | Call fn _ :: tr' => fn :: calls tr'
  | _ :: tr' => calls tr'
  end.

(** ** The abstract providers (lines 158-293) *)
Record AbstractResult := mkResult {
  source : jsstring;
  abstract_ : jsstring;
  success : bool;
  title : value;
  quality_score : option Z
}.

(** [{ source: src, abstract: 'N/A', success: false }] *)
Definition failure (src : jsstring) : AbstractResult :=
  mkResult src NA false Undefined None.

Definition crossref : jsstring := utf16 "crossref".
Definition pubmed : jsstring := utf16 "pubmed".
Definition sources_crossref : jsstring := utf16 "https://api.crossref.org/works".
Definition sources_pubmed : jsstring :=
  utf16 "https://eutils.ncbi.nlm.nih.gov/entrez/eutils".
Definition scopusUrl : jsstring :=
  utf16 "https://api.elsevier.com/content/search/scopus".

(** [getAbstractFromCrossref] (lines 158-198).  The URL is built before the
    [try]. *)
Definition getAbstractFromCrossref (rt : runtime) (doi : value) : M AbstractResult :=
  if negb (truthy doi) || is_str doi NA then ret (failure crossref)
  else
    doi_text <- lift (ToString doi) ;;
    let url := sources_crossref ++ utf16 "/" ++ doi_text in
    try_catch
      (response <- axios_get rt (mkRequest url Undefined Undefined (Some 10000%Z)) ;;
       let (status, data) := response in
       if (status =? 200)%Z then
         message <- lift (get_prop data (utf16 "message")) ;;
         if truthy message then
           message_abstract <- lift (get_prop message (utf16 "abstract")) ;;
           let abstract_ := or_else message_abstract (Str NA) in
           if truthy abstract_ && negb (is_str abstract_ NA) then
             cleaned <- lift (cleanAbstract abstract_) ;;
             message_title <- lift (get_prop message (utf16 "title")) ;;
             title <- (if truthy message_title then lift (get_index message_title 0)
                       else ret (Str NA)) ;;
             ret (mkResult crossref cleaned true title (Some 9%Z))
           else ret (failure crossref)
         else ret (failure crossref)
       else ret (failure crossref))
      (fun error =>
         console_error (utf16 "Crossref API 오류: " ++ message error) ;;
         ret (failure crossref)).

(** [findElement] (lines 280-293): depth-first search for the first property
    named [tagName]. *)
Fixpoint findElement (obj : value) (tagName : jsstring) : value :=
  match obj with
  | Obj props =>
    (fix scan (ps : list (jsstring * value)) : value :=
       match ps with
       | [] => Null
       | (key, child) :: ps' =>
         if str_eqb key tagName then child
         else if typeof_object child then
           let found := findElement child tagName in
           if truthy found then found else scan ps'
         else scan ps'
       end) props
  | Arr elems =>
    (fix scan (i : nat) (es : list value) : value :=
       match es with
       | [] => Null
       | child :: es' =>
         if str_eqb (Number_toString (Z.of_nat i)) tagName then child
         else if typeof_object child then
           let found := findElement child tagName in
           if truthy found then found else scan (S i) es'
         else scan (S i) es'
       end) O elems
  | _ => Null
  end.

(** [v > 0] *)
Definition gt_zero (rt : runtime) (v : value) : outcome bool :=
  match v with
  | Undefined | Null => Ok false
  | Bool b => Ok b
  | Num n => Ok (0 <? n)%Z
  | Str s => Ok (string_is_positive rt s)
  | Arr _ | Obj _ => obind (ToString v) (fun s => Ok (string_is_positive rt s))
  end.

(** [getAbstractFromPubMed] (lines 203-275).  The search parameters are
    built before the [try]. *)
Definition getAbstractFromPubMed (rt : runtime) (doi : value) : M AbstractResult :=
  if negb (truthy doi) || is_str doi NA then ret (failure pubmed)
  else
    let searchUrl := sources_pubmed ++ utf16 "/esearch.fcgi" in
    doi_text <- lift (ToString doi) ;;
    let searchParams :=
      Obj [(utf16 "db", Str pubmed);
           (utf16 "term", Str (doi_text ++ utf16 "[doi]"));
           (utf16 "retmode", Str (utf16 "json"))] in
    try_catch
      (response <- axios_get rt (mkRequest searchUrl searchParams Undefined (Some 10000%Z)) ;;
       let (status, data) := response in
       if (status =? 200)%Z then
         esearchresult <- lift (get_prop data (utf16 "esearchresult")) ;;
         if truthy esearchresult then
           pmidList <- lift (get_prop esearchresult (utf16 "idlist")) ;;
           if truthy pmidList then
             pmidList_length <- lift (get_prop pmidList (utf16 "length")) ;;
             nonempty <- lift (gt_zero rt pmidList_length) ;;
             if (nonempty : bool) then
               pmid <- lift (get_index pmidList 0) ;;
               let fetchUrl := sources_pubmed ++ utf16 "/efetch.fcgi" in
               let fetchParams :=
                 Obj [(utf16 "db", Str pubmed);
                      (utf16 "id", pmid);
                      (utf16 "retmode", Str (utf16 "xml"))] in
               fetchResponse <-
                 axios_get rt (mkRequest fetchUrl fetchParams Undefined (Some 10000%Z)) ;;
               let (fetchStatus, fetchData) := fetchResponse in
               if (fetchStatus =? 200)%Z then
                 parsed <- lift (xml2js_parse rt fetchData) ;;
                 let abstractElement := findElement parsed (utf16 "AbstractText") in
                 abstractElement0 <-
                   (if truthy abstractElement then lift (get_index abstractElement 0)
                    else ret abstractElement) ;;
                 if truthy abstractElement0 then
                   let titleElement := findElement parsed (utf16 "ArticleTitle") in
                   titleElement0 <-
                     (if truthy titleElement then lift (get_index titleElement 0)
                      else ret titleElement) ;;
                   let titleText :=
                     if truthy titleElement0 then titleElement0 else Str NA in
                   cleaned <- lift (cleanAbstract abstractElement0) ;;
                   ret (mkResult pubmed cleaned true titleText (Some 8%Z))
                 else ret (failure pubmed)
               else ret (failure pubmed)
             else ret (failure pubmed)
           else ret (failure pubmed)
         else ret (failure pubmed)
       else ret (failure pubmed))
      (fun error =>
         console_error (utf16 "PubMed API 오류: " ++ message error) ;;
         ret (failure pubmed)).

(** ** getBestAbstract (lines 298-322) *)

(** [r.quality_score || 0] *)
Definition score (r : AbstractResult) : Z :=
  match quality_score r with
  | Some n => if (n =? 0)%Z then 0%Z else n
  | None => 0%Z
  end.

(** [results.reduce((best, current) => ... ? current : best)] on a non-empty
    array: the first element starts as [best]. *)
Definition reduce_best (first : AbstractResult) (others : list AbstractResult)
  : AbstractResult :=
  fold_left (fun best current => if (score current >? score best)%Z then current else best)
            others first.

Definition none_marker : AbstractResult := failure (utf16 "none").

Definition sources (rt : runtime) : list (jsstring * (value -> M AbstractResult)) :=
  [(crossref, getAbstractFromCrossref rt); (pubmed, getAbstractFromPubMed rt)].

(** The body of the loop over the sources. *)
Definition ask_source (doi : value) (results : list AbstractResult)
           (entry : jsstring * (value -> M AbstractResult)) : M (list AbstractResult) :=
  let (sourceName, sourceFunc) := entry in
  result <- sourceFunc doi ;;
  let results := if success result then results ++ [result] else results in
  sleep 300 ;;
  ret results.

Definition getBestAbstract (rt : runtime) (doi : value) : M AbstractResult :=
  emit (Call "getBestAbstract" [doi]) ;;
  results <- for_of (sources rt) [] (ask_source doi) ;;
  match results with
  | first :: others => ret (reduce_best first others)
  | [] => ret none_marker
  end.

(** ** searchScopus (lines 127-153) *)

(** A parameter declared [count = 10]. *)
Definition default_count (count : value) : value :=
  match count with
  | Undefined => Num 10
  | _ => count
  end.

Definition scopus_request (rt : runtime) (query count : value) : http_request :=
  mkRequest scopusUrl
    (Obj [(utf16 "query", query);
          (utf16 "count", count);
          (utf16 "start", Num 0);
          (utf16 "apiKey", Str (scopusApiKey rt))])
    (Obj [(utf16 "Accept", Str (utf16 "application/json"));
          (utf16 "X-ELS-APIKey", Str (scopusApiKey rt))])
    None.

(** Every failure of the request ends in the empty object. *)
Definition searchScopus (rt : runtime) (query count : value) : M value :=
  emit (Call "searchScopus" [query; count]) ;;
  let count := default_count count in
  try_catch
    (response <- axios_get rt (scopus_request rt query count) ;;
     let (status, data) := response in
     if (status =? 200)%Z then ret data else ret (Obj []))
    (fun error =>
       console_error (utf16 "Scopus API 오류: " ++ message error) ;;
       ret (Obj [])).

(** ** searchPapersWithAbstracts (lines 327-366) *)
Record Paper := mkPaper {
  paper_title : value;
  authors : value;
  publication_name : value;
  publication_date : value;
  paper_doi : value;
  cited_by_count : value;
  scopus_id : jsstring;
  scopus_url : jsstring;
  paper_abstract : jsstring;
  abstract_source : jsstring
}.

Definition is_high_surrogate (c : code_unit) : bool := (55296 <=? c) && (c <=? 56319).
Definition is_low_surrogate (c : code_unit) : bool := (56320 <=? c) && (c <=? 57343).

(** The string iterator yields code points. *)
Fixpoint code_points (s : jsstring) : list jsstring :=
  match s with
  | [] => []
  | c :: r =>
    match r with
    | d :: r' =>
      if is_high_surrogate c && is_low_surrogate d then [c; d] :: code_points r'
      else [c] :: code_points r
    | [] => [[c]]
    end
  end.

(** What [for (const x of v)] iterates over. *)
Definition iterate (v : value) (what : jsstring) : outcome (list value) :=
  match v with
  | Arr elems => Ok elems
  | Str s => Ok (map Str (code_points s))
  | _ => Throw (mkError TypeError (what ++ utf16 " is not iterable"))
  end.

(** [s.replace(pattern, repl)] with a string pattern: the first occurrence. *)
Fixpoint replace_first (pattern repl s : jsstring) : jsstring :=
  match match_literal pattern s with
  | Some rest => repl ++ rest
  | None =>
    match s with
    | [] => []
    | c :: r => c :: replace_first pattern repl r
    end
  end.

Definition String_replace (v : value) (what pattern repl : jsstring) : outcome jsstring :=
  match v with
  | Str s => Ok (replace_first pattern repl s)
  | _ => Throw (not_a_function what)
  end.

(** The body of the loop over the entries (lines 336-359). *)
Definition assemble (rt : runtime) (papers : list Paper) (entry : value) : M (list Paper) :=
  entry_doi <- lift (get_prop entry (utf16 "prism:doi")) ;;
  let doi := or_else entry_doi (Str NA) in
  looked_up <-
    (if negb (is_str doi NA) then
       abstractResult <- getBestAbstract rt doi ;;
       ret (if success abstractResult then abstract_ abstractResult else NA,
            source abstractResult)
     else ret (NA, NA)) ;;
  let (abstract_, abstractResult_source) := (looked_up : jsstring * jsstring) in
  dc_title <- lift (get_prop entry (utf16 "dc:title")) ;;
  dc_creator <- lift (get_prop entry (utf16 "dc:creator")) ;;
  publicationName <- lift (get_prop entry (utf16 "prism:publicationName")) ;;
  coverDate <- lift (get_prop entry (utf16 "prism:coverDate")) ;;
  citedby <- lift (get_prop entry (utf16 "citedby-count")) ;;
  identifier <- lift (get_prop entry (utf16 "dc:identifier")) ;;
  scopus_id <- lift (String_replace (or_else identifier (Str []))
                       (utf16 "(intermediate value).replace") (utf16 "SCOPUS_ID:") []) ;;
  eid <- lift (get_prop entry (utf16 "eid")) ;;
  eid_text <- lift (ToString (or_else eid (Str []))) ;;
  let paper :=
    mkPaper (or_else dc_title (Str NA))
            (or_else dc_creator (Str NA))
            (or_else publicationName (Str NA))
            (or_else coverDate (Str NA))
            doi
            (or_else citedby (Num 0))
            scopus_id
            (utf16 "https://www.scopus.com/inward/record.uri?eid=" ++ eid_text)
            abstract_
            (if is_empty abstractResult_source then NA else abstractResult_source) in
  ret (papers ++ [paper]).

(** The [totalResults] of line 331 is read and never used; reading it has no
    effect and cannot throw, and it is left out. *)
Definition searchPapersWithAbstracts (rt : runtime) (query count : value)
  : M (list Paper) :=
  let count := default_count count in
  results <- searchScopus rt query count ;;
  if truthy results then
    search_results <- lift (get_prop results (utf16 "search-results")) ;;
    if truthy search_results then
      entry <- lift (get_prop search_results (utf16 "entry")) ;;
      entries <- lift (iterate (or_else entry (Arr [])) (utf16 "entries")) ;;
      for_of entries [] (assemble rt)
    else ret []
  else ret [].

(** ** MCPServer (lines 370-537) *)
Definition text_block (text : jsstring) : value :=
  Obj [(utf16 "type", Str (utf16 "text")); (utf16 "text", Str text)].

Definition NL : jsstring := [10].
Definition QUOTE : jsstring := [34].

Definition rpc_result (id result : value) : value :=
  Obj [(utf16 "jsonrpc", Str (utf16 "2.0"));
       (utf16 "id", id);
       (utf16 "result", result)].

Definition rpc_error (id : value) (code : Z) (text : jsstring) : value :=
  Obj [(utf16 "jsonrpc", Str (utf16 "2.0"));
       (utf16 "id", id);
       (utf16 "error", Obj [(utf16 "code", Num code); (utf16 "message", Str text)])].

Definition set_initialized : M unit := fun s =>
  mkRun (Ok tt) (mkState (http_calls s) true) [].

(** [handleInitialize] (lines 376-395) *)
Definition handleInitialize (request : value) : M value :=
  console_error (utf16 "🔧 MCP 서버 초기화 중...") ;;
  set_initialized ;;
  id <- lift (get_prop request (utf16 "id")) ;;
  ret (rpc_result id
         (Obj [(utf16 "protocolVersion", Str (utf16 "2024-11-05"));
               (utf16 "capabilities", Obj [(utf16 "tools", Obj [])]);
               (utf16 "serverInfo",
                Obj [(utf16 "name", Str (utf16 "abstract-search"));
                     (utf16 "version", Str (utf16 "1.0.0"))])])).

Definition string_property (description : string) : value :=
  Obj [(utf16 "type", Str (utf16 "string"));
       (utf16 "description", Str (utf16 description))].

Definition tools : value :=
  Arr [Obj [(utf16 "name", Str (utf16 "search_papers"));
            (utf16 "description",
             Str (utf16 "키워드로 논문을 검색하고 초록을 가져옵니다."));
            (utf16 "inputSchema",
             Obj [(utf16 "type", Str (utf16 "object"));
                  (utf16 "properties",
                   Obj [(utf16 "query", string_property "검색할 키워드");
                        (utf16 "count",
                         Obj [(utf16 "type", Str (utf16 "integer"));
                              (utf16 "description",
                               Str (utf16 "검색할 논문 수 (기본값: 10, 최대: 50)"));
                              (utf16 "default", Num 10)])]);
                  (utf16 "required", Arr [Str (utf16 "query")])])];
       Obj [(utf16 "name", Str (utf16 "get_abstract_by_doi"));
            (utf16 "description",
             Str (utf16 "DOI로 특정 논문의 초록을 가져옵니다."));
            (utf16 "inputSchema",
             Obj [(utf16 "type", Str (utf16 "object"));
                  (utf16 "properties",
                   Obj [(utf16 "doi", string_property "논문의 DOI")]);
                  (utf16 "required", Arr [Str (utf16 "doi")])])]].

(** [handleListTools] (lines 397-443) *)
Definition handleListTools (request : value) : M value :=
  console_error (utf16 "📋 도구 목록 요청...") ;;
  id <- lift (get_prop request (utf16 "id")) ;;
  ret (rpc_result id (Obj [(utf16 "tools", tools)])).

(** The loop of lines 494-511 over the papers, appending to [resultText]. *)
Fixpoint format_papers (i : nat) (papers : list Paper) (resultText : jsstring)
  : outcome jsstring :=
  match papers with
  | [] => Ok resultText
  | paper :: papers' =>
    obind (ToString (paper_title paper)) (fun title_text =>
    obind (ToString (authors paper)) (fun authors_text =>
    obind (ToString (publication_name paper)) (fun name_text =>
    obind (ToString (publication_date paper)) (fun date_text =>
    obind (ToString (cited_by_count paper)) (fun cited_text =>
    obind (ToString (paper_doi paper)) (fun doi_text =>
    let resultText :=
      resultText
      ++ utf16 "[" ++ Number_toString (Z.of_nat (i + 1)) ++ utf16 "] " ++ title_text ++ NL
      ++ utf16 "저자: " ++ authors_text ++ NL
      ++ utf16 "저널: " ++ name_text ++ NL
      ++ utf16 "발행일: " ++ date_text ++ NL
      ++ utf16 "인용: " ++ cited_text ++ NL
      ++ utf16 "DOI: " ++ doi_text ++ NL
      ++ (if negb (str_eqb (paper_abstract paper) NA) then
            utf16 "초록 (" ++ abstract_source paper ++ utf16 "): "
            ++ paper_abstract paper ++ NL
          else utf16 "초록: 없음" ++ NL)
      ++ utf16 "Scopus URL: " ++ scopus_url paper ++ NL
      ++ repeat 45 50 ++ NL in
    format_papers (S i) papers' resultText))))))
  end.

Definition ask_for_keyword : jsstring := utf16 "검색할 키워드를 입력해주세요.".

(** [searchPapersTool] (lines 475-514) *)
Definition searchPapersTool (rt : runtime) (arguments_ : value) : M value :=
  arguments_query <- lift (get_prop arguments_ (utf16 "query")) ;;
  let query := or_else arguments_query (Str []) in
  arguments_count <- lift (get_prop arguments_ (utf16 "count")) ;;
  let count := or_else arguments_count (Num 10) in
  if negb (truthy query) then ret (Arr [text_block ask_for_keyword])
  else
    query_text <- lift (ToString query) ;;
    count_text <- lift (ToString count) ;;
    console_error (utf16 "🔍 논문 검색: " ++ QUOTE ++ query_text ++ QUOTE
                   ++ utf16 " (" ++ count_text ++ utf16 "개)") ;;
    papers <- searchPapersWithAbstracts rt query count ;;
    if (List.length papers =? 0)%nat then
      ret (Arr [text_block (utf16 "'" ++ query_text
                            ++ utf16 "' 키워드로 검색된 논문이 없습니다.")])
    else
      resultText <- lift (format_papers 0 papers
                            (utf16 "'" ++ query_text ++ utf16 "' 키워드로 "
                             ++ Number_toString (Z.of_nat (List.length papers))
                             ++ utf16 "개 논문을 찾았습니다:" ++ NL ++ NL)) ;;
      ret (Arr [text_block resultText]).

(** [getAbstractByDoiTool] (lines 516-536) *)
Definition getAbstractByDoiTool (rt : runtime) (arguments_ : value) : M value :=
  arguments_doi <- lift (get_prop arguments_ (utf16 "doi")) ;;
  let doi := or_else arguments_doi (Str []) in
  if negb (truthy doi) then ret (Arr [text_block (utf16 "DOI를 입력해주세요.")])
  else
    doi_text <- lift (ToString doi) ;;
    console_error (utf16 "📄 DOI 초록 가져오기: " ++ QUOTE ++ doi_text ++ QUOTE) ;;
    abstractResult <- getBestAbstract rt doi ;;
    if success abstractResult then
      title_text <- lift (ToString (or_else (title abstractResult) (Str NA))) ;;
      ret (Arr [text_block
                  (utf16 "DOI: " ++ doi_text ++ NL
                   ++ utf16 "제목: " ++ title_text ++ NL
                   ++ utf16 "초록 소스: " ++ source abstractResult ++ NL
                   ++ utf16 "초록: " ++ abstract_ abstractResult ++ NL)])
    else
      ret (Arr [text_block (utf16 "DOI '" ++ doi_text
                            ++ utf16 "'에 대한 초록을 찾을 수 없습니다.")]).

Definition unknown_tool : jsstring := utf16 "알 수 없는 도구: ".

(** [handleCallTool] (lines 445-473).  The tool name is logged on line 450,
    before the [try] of line 453. *)
Definition handleCallTool (rt : runtime) (request : value) : M value :=
  request_params <- lift (get_prop request (utf16 "params")) ;;
  let params := or_else request_params (Obj []) in
  name <- lift (get_prop params (utf16 "name")) ;;
  params_arguments <- lift (get_prop params (utf16 "arguments")) ;;
  let arguments_ := or_else params_arguments (Obj []) in
  name_text <- lift (ToString name) ;;
  console_error (utf16 "🛠️ 도구 호출: " ++ name_text) ;;
  result <-
    try_catch
      (if is_str name (utf16 "search_papers") then searchPapersTool rt arguments_
       else if is_str name (utf16 "get_abstract_by_doi") then
         getAbstractByDoiTool rt arguments_
       else ret (Arr [text_block (unknown_tool ++ name_text)]))
      (fun error =>
         console_error (utf16 "❌ 도구 실행 오류: " ++ message error) ;;
         ret (Arr [text_block (utf16 "도구 실행 중 오류가 발생했습니다: "
                               ++ message error)])) ;;
  id <- lift (get_prop request (utf16 "id")) ;;
  ret (rpc_result id (Obj [(utf16 "content", result)])).

(** ** The line handler of main (lines 573-626) *)

(** The variables a [catch] block of the line handler can name that hold
    values of the program: the catch parameter and the handler's parameter.
    The other bindings around it are [server] and [rl] in [main], and the
    module's [axios], [xml2js], [readline], [MCPAbstractSearchTool],
    [MCPServer], [main], [require], [module], [exports], [__filename] and
    [__dirname].  The [const request] of line 581 is local to the block of the
    [try]; the global object of Node.js has no property of that name. *)
Definition catch_scope (error : js_error) (line : jsstring) : list (string * value) :=
  [("error"%string, Obj [(utf16 "message", Str (message error))]);
   ("line"%string, Str line)].

Fixpoint resolve_identifier (scope : list (string * value)) (name : string)
  : outcome value :=
  match scope with
  | [] => Throw (mkError ReferenceError (utf16 name ++ utf16 " is not defined"))
  | (x, v) :: scope' => if String.eqb x name then Ok v else resolve_identifier scope' name
  end.

(** The routing by method name (lines 586-607); the notification has the
    response [null]. *)
Definition dispatch (rt : runtime) (request method : value) : M value :=
  if is_str method (utf16 "initialize") then handleInitialize request
  else if is_str method (utf16 "tools/list") then handleListTools request
  else if is_str method (utf16 "tools/call") then handleCallTool rt request
  else if is_str method (utf16 "notifications/initialized") then
    console_error (utf16 "✅ 초기화 완료 알림 수신") ;;
    ret Null
  else
    method_text <- lift (ToString method) ;;
    console_error (utf16 "❌ 알 수 없는 메서드: " ++ method_text) ;;
    id <- lift (get_prop request (utf16 "id")) ;;
    ret (rpc_error id (-32601) (utf16 "Method not found: " ++ method_text)).

Definition is_null (v : value) : bool :=
  match v with Null => true | _ => false end.

(** The block of the [try] (lines 575-613). *)
Definition on_line_try (rt : runtime) (line : jsstring) : M unit :=
  if is_empty (trim line) then console_error (utf16 "📭 빈 라인 무시")
  else
    console_error (utf16 "📨 원시 라인 수신: " ++ trim line) ;;
    request <- lift (JSON_parse rt (trim line)) ;;
    method <- lift (get_prop request (utf16 "method")) ;;
    method_text <- lift (ToString method) ;;
    request_id <- lift (get_prop request (utf16 "id")) ;;
    id_text <- lift (ToString request_id) ;;
    console_error (utf16 "📨 요청 수신: " ++ method_text
                   ++ utf16 " (ID: " ++ id_text ++ utf16 ")") ;;
    response <- dispatch rt request method ;;
    if negb (is_null response) then
      response_jsonrpc <- lift (get_prop response (utf16 "jsonrpc")) ;;
      console_error (utf16 "📤 응답 전송: "
                     ++ (if truthy response_jsonrpc then utf16 "success"
                         else utf16 "error")) ;;
      console_log_json response
    else ret tt.

(** The block of the [catch] (lines 615-624). *)
Definition on_line_catch (line : jsstring) (error : js_error) : M unit :=
  console_error (utf16 "❌ 요청 처리 오류: " ++ message error) ;;
  request <- lift (resolve_identifier (catch_scope error line) "request") ;;
  id <- (if truthy request then lift (get_prop request (utf16 "id"))
         else ret Null) ;;
  console_log_json
    (rpc_error id (-32603) (utf16 "Internal error: " ++ message error)).

Definition on_line (rt : runtime) (line : jsstring) : M unit :=
  try_catch (on_line_try rt line) (on_line_catch line).

(** ** Predicates on strings used in the statements

    [tagfree s]: every '<' of [s] is directly followed by '>' or has no '>'
    after it, which is to say that [/<[^>]+>/] matches nowhere in [s]
    ([tagfree_never] below). *)
Definition starts_gt (s : jsstring) : bool :=
  match s with
  | c :: _ => c =? GT
  | [] => false
  end.

Definition no_gt (s : jsstring) : bool := forallb (fun c => negb (c =? GT)) s.

Fixpoint tagfree (s : jsstring) : bool :=
  match s with
  | [] => true
  | c :: r => (negb (c =? LT) || starts_gt r || no_gt r) && tagfree r
  end.

Definition no_lead (s : jsstring) : bool :=
  match s with
  | c :: _ => negb (is_space c)
  | [] => true
  end.

(** [single_spaced s]: the only white space in [s] is U+0020, and a space is
    followed by a unit that is not white space (or by nothing). *)
Fixpoint single_spaced (s : jsstring) : bool :=
  match s with
  | [] => true
  | c :: r => (negb (is_space c) || ((c =? SPACE) && no_lead r)) && single_spaced r
  end.

(** A string with no white space to collapse and none to trim. *)
Definition whitespace_stable (s : jsstring) : bool :=
  single_spaced s && no_lead s && no_lead (rev s).

(** A matcher that matches at no position of [s]. *)
Definition never (m : matcher) (s : jsstring) : Prop :=
  forall a u, s = a ++ u -> m u = None.

Definition consuming (m : matcher) : Prop :=
  forall s r, m s = Some r -> (List.length r < List.length s)%nat.

(** ** Vocabulary of the statements and sample environments *)

Definition normal (s : jsstring) : bool := tagfree s && whitespace_stable s.

(** The text of [cleanAbstract] before the length limit. *)
Definition normalized (s : jsstring) : jsstring :=
  trim (replace_all re_spaces [SPACE] (replace_all re_tag [] s)).

Definition truncate (t : jsstring) : jsstring :=
  if (500 <? List.length t)%nat then firstn 500 t ++ ELLIPSIS else t.

(** [returns m P]: every value [m] returns satisfies [P]. *)
Definition returns {A} (m : M A) (P : A -> Prop) : Prop :=
  forall s a, result (m s) = Ok a -> P a.

(** What a provider reports as a success carries its own score. *)
Definition scored (src : jsstring) (n : Z) (r : AbstractResult) : Prop :=
  success r = true -> source r = src /\ quality_score r = Some n.

(** 10,000 code units with angle brackets that form no tag and single
    spaces: 2,000 times [x<> y]. *)
Definition long_text : jsstring := concat (repeat (utf16 "x<> y") 2000).

(** A request line as the client sends it; the literal is written with
    apostrophes where the line has double quotes. *)
Definition json_text (s : string) : jsstring :=
  map (fun c => if c =? 39 then 34 else c) (utf16 s).

Definition sample_doi : jsstring := utf16 "10.1016/S0014-5793(01)03313-0".

Definition line_notification : jsstring :=
  json_text "{'jsonrpc':'2.0','method':'notifications/initialized'}".

Definition line_malformed : jsstring := json_text "{'jsonrpc':'2.0','id':3,".

Definition line_unknown_tool : jsstring :=
  json_text "{'jsonrpc':'2.0','id':7,'method':'tools/call','params':{'name':'summarize'}}".

Definition line_odd_name : jsstring :=
  json_text
    "{'jsonrpc':'2.0','id':1,'method':'tools/call','params':{'name':{'toString':1}}}".

Definition line_search (count : string) : jsstring :=
  json_text "{'jsonrpc':'2.0','id':2,'method':'tools/call','params':{'name':'search_papers','arguments':{'query':'graphene','count':"
  ++ utf16 count ++ utf16 "}}}".

Definition line_no_query : jsstring :=
  json_text "{'jsonrpc':'2.0','id':4,'method':'tools/call','params':{'name':'search_papers','arguments':{}}}".

Definition request_of (id : Z) (method : string) (params : list (jsstring * value)) : value :=
  Obj [(utf16 "jsonrpc", Str (utf16 "2.0"));
       (utf16 "id", Num id);
       (utf16 "method", Str (utf16 method));
       (utf16 "params", Obj params)].

Definition search_arguments (count : value) : value :=
  Obj [(utf16 "query", Str (utf16 "graphene")); (utf16 "count", count)].

(** What [JSON.parse] gives for the sample lines. *)
Definition sample_parse (text : jsstring) : outcome value :=
  if str_eqb text line_notification then
    Ok (Obj [(utf16 "jsonrpc", Str (utf16 "2.0"));
             (utf16 "method", Str (utf16 "notifications/initialized"))])
  else if str_eqb text line_unknown_tool then
    Ok (request_of 7 "tools/call" [(utf16 "name", Str (utf16 "summarize"))])
  else if str_eqb text line_odd_name then
    Ok (request_of 1 "tools/call"
          [(utf16 "name", Obj [(utf16 "toString", Num 1)])])
  else if str_eqb text (line_search "0") then
    Ok (request_of 2 "tools/call"
          [(utf16 "name", Str (utf16 "search_papers"));
           (utf16 "arguments", search_arguments (Num 0))])
  else if str_eqb text line_no_query then
    Ok (request_of 4 "tools/call"
          [(utf16 "name", Str (utf16 "search_papers"));
           (utf16 "arguments", Obj [])])
  else if str_eqb text (utf16 "null") then Ok Null
  else Throw (mkError SyntaxError (utf16 "Unexpected end of JSON input")).

(** [<tag>children</tag>] as xml2js parses it: an array under the tag name. *)
Definition element (tag : string) (children : value) : jsstring * value :=
  (utf16 tag, Arr [children]).

Definition sample_article : value :=
  Obj [(utf16 "PubmedArticleSet",
        Obj [element "PubmedArticle"
               (Obj [element "MedlineCitation"
                       (Obj [element "Article"
                               (Obj [element "ArticleTitle" (Str (utf16 "Example title"));
                                     element "Abstract"
                                       (Obj [element "AbstractText"
                                               (Str (utf16 "Abstract of the registry."))])])])])])].

(** A network on which both providers know the sample DOI and the primary
    registry finds no paper. *)
Definition sample_network (n : nat) (req : http_request) : http_outcome :=
  if str_eqb (url req) (sources_crossref ++ utf16 "/" ++ sample_doi) then
    Response 200
      (Obj [(utf16 "message",
             Obj [(utf16 "title", Arr [Str (utf16 "Example title")]);
                  (utf16 "abstract", Str (utf16 "<p>Example abstract.</p>"))])])
  else if str_eqb (url req) (sources_pubmed ++ utf16 "/esearch.fcgi") then
    Response 200
      (Obj [(utf16 "esearchresult", Obj [(utf16 "idlist", Arr [Str (utf16 "11741591")])])])
  else if str_eqb (url req) (sources_pubmed ++ utf16 "/efetch.fcgi") then
    Response 200 (Str (utf16 "<PubmedArticleSet/>"))
  else if str_eqb (url req) scopusUrl then
    Response 200 (Obj [(utf16 "search-results", Obj [(utf16 "entry", Arr [])])])
  else NetworkError (mkError AxiosError (utf16 "Request failed with status code 404")).

Definition sample_runtime : runtime :=
  mkRuntime sample_parse sample_network (fun _ => Ok sample_article)
            (fun _ => false) (utf16 "key").

(** The sample network without the first provider. *)
Definition crossref_down_runtime : runtime :=
  mkRuntime sample_parse
            (fun n req =>
               if str_eqb (url req) (sources_crossref ++ utf16 "/" ++ sample_doi) then
                 NetworkError (mkError AxiosError (utf16 "timeout of 10000ms exceeded"))
               else sample_network n req)
            (fun _ => Ok sample_article) (fun _ => false) (utf16 "key").

(** A machine without network. *)
Definition offline_runtime : runtime :=
  mkRuntime sample_parse
            (fun _ _ => NetworkError (mkError AxiosError (utf16 "getaddrinfo ENOTFOUND")))
            (fun _ => Ok sample_article) (fun _ => false) (utf16 "key").

Definition start : state := mkState 0 false.

(** What the two providers answer for the sample DOI on the sample network. *)
Definition crossref_answer : AbstractResult :=
  mkResult crossref (utf16 "Example abstract.") true (Str (utf16 "Example title"))
           (Some 9%Z).

Definition pubmed_answer : AbstractResult :=
  mkResult pubmed (utf16 "Abstract of the registry.") true (Str (utf16 "Example title"))
           (Some 8%Z).

Definition request_not_defined : js_error :=
  mkError ReferenceError (utf16 "request is not defined").

Definition notifications_initialized : jsstring := utf16 "notifications/initialized".

(** A request, well formed as JSON-RPC, whose tool name is an object with an
    own property [toString]. *)
Definition odd_name_request : value :=
  request_of 1 "tools/call" [(utf16 "name", Obj [(utf16 "toString", Num 1)])].

(** The diagnostic line of [searchPapersTool]. *)
Definition search_log (query_text count_text : jsstring) : jsstring :=
  utf16 "🔍 논문 검색: " ++ QUOTE ++ query_text ++ QUOTE
  ++ utf16 " (" ++ count_text ++ utf16 "개)".

(** [emits m P]: every event [m] emits satisfies [P]. *)
Definition emits {A} (m : M A) (P : event -> Prop) : Prop :=
  forall s, Forall P (trace (m s)).

(** An event that is not a line on the protocol stream. *)
Definition silent (ev : event) : Prop :=
  match ev with
  | Stdout _ => False
  | _ => True
  end.

(** ** Vocabulary of the further properties *)

(** [stored tag r v]: the value [r] sits in [v], at any depth, under the
    property name [tag] (for an array, at the index that prints as [tag]). *)
Inductive stored (tag : jsstring) (r : value) : value -> Prop :=
| stored_property (props : list (jsstring * value)) :
    In (tag, r) props -> stored tag r (Obj props)
| stored_index (elems : list value) (i : nat) :
    nth_error elems i = Some r -> Number_toString (Z.of_nat i) = tag ->
    stored tag r (Arr elems)
| stored_below_property (props : list (jsstring * value)) (key : jsstring) (child : value) :
    In (key, child) props -> stored tag r child -> stored tag r (Obj props)
| stored_below_index (elems : list value) (child : value) :
    In child elems -> stored tag r child -> stored tag r (Arr elems).

(** The requests the providers send (lines 163-171, 208-222, 232-245). *)
Definition crossref_request (doi_text : jsstring) : http_request :=
  mkRequest (sources_crossref ++ utf16 "/" ++ doi_text) Undefined Undefined
            (Some 10000%Z).

Definition esearch_request (doi_text : jsstring) : http_request :=
  mkRequest (sources_pubmed ++ utf16 "/esearch.fcgi")
            (Obj [(utf16 "db", Str pubmed);
                  (utf16 "term", Str (doi_text ++ utf16 "[doi]"));
                  (utf16 "retmode", Str (utf16 "json"))])
            Undefined (Some 10000%Z).

Definition efetch_request (pmid : value) : http_request :=
  mkRequest (sources_pubmed ++ utf16 "/efetch.fcgi")
            (Obj [(utf16 "db", Str pubmed);
                  (utf16 "id", pmid);
                  (utf16 "retmode", Str (utf16 "xml"))])
            Undefined (Some 10000%Z).

(** The state after one more request. *)
Definition sent (s : state) : state := mkState (S (http_calls s)) (initialized s).

(** A response that is not a 200: a transport error (axios throws on a status
    outside 2xx) or another status. *)
Definition not_ok (o : http_outcome) : Prop :=
  match o with
  | NetworkError _ => True
  | Response status _ => status <> 200%Z
  end.

(** [x && x[0]] (lines 252, 254): the first element when [x] is truthy. *)
Definition first_of (x : value) : value :=
  if truthy x then
    match get_index x 0 with
    | Ok x0 => x0
    | Throw _ => Undefined
    end
  else x.

(** [message.title ? message.title[0] : 'N/A'] (line 186) *)
Definition crossref_title (message_title : value) : value :=
  if truthy message_title then first_of message_title else Str NA.

(** [titleText] of line 254. *)
Definition article_title (parsed : value) : value :=
  let titleElement0 := first_of (findElement parsed (utf16 "ArticleTitle")) in
  if truthy titleElement0 then titleElement0 else Str NA.

(** What the second provider returns once it has the parsed record
    (lines 251-264), with the state and the events of its two requests. *)
Definition pubmed_outcome (s : state) (doi_text : jsstring) (pmid parsed : value)
  : run AbstractResult :=
  let abstractElement0 := first_of (findElement parsed (utf16 "AbstractText")) in
  let requests := [HttpGet (esearch_request doi_text); HttpGet (efetch_request pmid)] in
  if truthy abstractElement0 then
    match cleanAbstract abstractElement0 with
    | Ok cleaned =>
      mkRun (Ok (mkResult pubmed cleaned true (article_title parsed) (Some 8%Z)))
            (sent (sent s)) requests
    | Throw e =>
      mkRun (Ok (failure pubmed)) (sent (sent s))
            (requests ++ [Stderr (utf16 "PubMed API 오류: " ++ message e)])
    end
  else mkRun (Ok (failure pubmed)) (sent (sent s)) requests.

(** A parsed record whose first abstract element carries attributes: xml2js
    gives an object for it, with the text under [_]. *)
Definition labelled_article : value :=
  Obj [element "PubmedArticle"
         (Obj [element "ArticleTitle" (Str (utf16 "Example title"));
               element "AbstractText"
                 (Obj [(utf16 "_", Str (utf16 "Background text."));
                       (utf16 "$", Obj [(utf16 "Label", Str (utf16 "BACKGROUND"))])])])].

Definition labelled_runtime : runtime :=
  mkRuntime sample_parse sample_network (fun _ => Ok labelled_article)
            (fun _ => false) (utf16 "key").

(** A network on which the second registry does not know the DOI. *)
Definition unknown_doi_runtime : runtime :=
  mkRuntime sample_parse
            (fun n req =>
               if str_eqb (url req) (sources_pubmed ++ utf16 "/esearch.fcgi") then
                 Response 200
                   (Obj [(utf16 "esearchresult", Obj [(utf16 "idlist", Arr [])])])
               else sample_network n req)
            (fun _ => Ok sample_article) (fun _ => false) (utf16 "key").

(** A line on the diagnostic stream. *)
Definition diagnostic (ev : event) : Prop :=
  match ev with
  | Stderr _ => True
  | _ => False
  end.

(** An event that is not a pause. *)
Definition no_pause (ev : event) : Prop :=
  match ev with
  | Sleep _ => False
  | _ => True
  end.

(** An event that is not a request. *)
Definition no_request (ev : event) : Prop :=
  match ev with
  | HttpGet _ => False
  | _ => True
  end.

(** [sends m n]: a run of [m] sends at most [n] requests. *)
Definition sends {A} (m : M A) (n : nat) : Prop :=
  forall s, (List.length (http_requests (trace (m s))) <= n)%nat.

(** What the selector makes of the two providers' results. *)
Definition best_of (rA rB : AbstractResult) : AbstractResult :=
  match (if success rA then [rA] else []) ++ (if success rB then [rB] else []) with
  | first :: others => reduce_best first others
  | [] => none_marker
  end.

(** The DOI of an entry as line 336 reads it. *)
Definition entry_doi (entry : value) : value :=
  match get_prop entry (utf16 "prism:doi") with
  | Ok doi => or_else doi (Str NA)
  | Throw _ => Str NA
  end.

Definition has_doi (entry : value) : bool := negb (is_str (entry_doi entry) NA).

Definition string_or_absent (v : value) : bool :=
  match v with
  | Undefined | Str _ => true
  | _ => false
  end.

(** An entry as far as the loop converts it: an object whose DOI,
    identifier and [eid], where it has them, are strings. *)
Definition plain_entry (entry : value) : bool :=
  match entry with
  | Obj props =>
    string_or_absent (assoc (utf16 "prism:doi") props)
    && string_or_absent (assoc (utf16 "dc:identifier") props)
    && string_or_absent (assoc (utf16 "eid") props)
  | _ => false
  end.

(** A value that a template literal can print. *)
Definition printable (v : value) : bool :=
  match ToString v with
  | Ok _ => true
  | Throw _ => false
  end.

(** The properties of an entry that the list of the papers prints. *)
Definition read_keys : list jsstring :=
  [utf16 "dc:title"; utf16 "dc:creator"; utf16 "prism:publicationName";
   utf16 "prism:coverDate"; utf16 "prism:doi"; utf16 "citedby-count"].

Definition printable_entry (entry : value) : bool :=
  forallb (fun key => match get_prop entry key with
                      | Ok v => printable v
                      | Throw _ => false
                      end) read_keys.

Definition printable_paper (p : Paper) : bool :=
  printable (paper_title p) && printable (authors p) && printable (publication_name p)
  && printable (publication_date p) && printable (cited_by_count p)
  && printable (paper_doi p).

(** A registry that finds two papers, the second one without a DOI. *)
Definition first_entry : value :=
  Obj [(utf16 "dc:title", Str (utf16 "First paper"));
       (utf16 "dc:creator", Str (utf16 "Kim T."));
       (utf16 "prism:doi", Str sample_doi);
       (utf16 "dc:identifier", Str (utf16 "SCOPUS_ID:85000000001"));
       (utf16 "eid", Str (utf16 "2-s2.0-85000000001"));
       (utf16 "citedby-count", Str (utf16 "12"))].

Definition second_entry : value :=
  Obj [(utf16 "dc:title", Str (utf16 "Second paper"));
       (utf16 "dc:identifier", Str (utf16 "SCOPUS_ID:85000000002"));
       (utf16 "eid", Str (utf16 "2-s2.0-85000000002"))].

Definition library_answer : value :=
  Obj [(utf16 "search-results",
        Obj [(utf16 "opensearch:totalResults", Str (utf16 "2"));
             (utf16 "entry", Arr [first_entry; second_entry])])].

Definition library_runtime : runtime :=
  mkRuntime sample_parse
            (fun n req =>
               if str_eqb (url req) scopusUrl then Response 200 library_answer
               else sample_network n req)
            (fun _ => Ok sample_article) (fun _ => false) (utf16 "key").

(** The tool a call names (lines 454-461). *)
Definition chosen_tool (rt : runtime) (name arguments_ : value) (name_text : jsstring)
  : M value :=
  if is_str name (utf16 "search_papers") then searchPapersTool rt arguments_
  else if is_str name (utf16 "get_abstract_by_doi") then getAbstractByDoiTool rt arguments_
  else ret (Arr [text_block (unknown_tool ++ name_text)]).

(** The text of [getAbstractByDoiTool] for the selector's answer. *)
Definition found_text (doi_text title_text : jsstring) (r : AbstractResult) : jsstring :=
  utf16 "DOI: " ++ doi_text ++ NL
  ++ utf16 "제목: " ++ title_text ++ NL
  ++ utf16 "초록 소스: " ++ source r ++ NL
  ++ utf16 "초록: " ++ abstract_ r ++ NL.

Definition not_found_text (doi_text : jsstring) : jsstring :=
  utf16 "DOI '" ++ doi_text ++ utf16 "'에 대한 초록을 찾을 수 없습니다.".

(** A registry whose answer has an object where the array of entries is
    expected. *)
Definition odd_answer_runtime : runtime :=
  mkRuntime sample_parse
            (fun n req =>
               if str_eqb (url req) scopusUrl then
                 Response 200
                   (Obj [(utf16 "search-results",
                          Obj [(utf16 "entry",
                                Obj [(utf16 "error", Str (utf16 "Result set was empty"))])])])
               else sample_network n req)
            (fun _ => Ok sample_article) (fun _ => false) (utf16 "key").

(** [writes m n]: a run of [m] writes at most [n] lines on the protocol
    stream. *)
Definition writes {A} (m : M A) (n : nat) : Prop :=
  forall s, (List.length (stdout_lines (trace (m s))) <= n)%nat.

(** [blind m]: what [m] returns and emits, and the number of requests it
    leaves behind, do not depend on the flag [initialized]. *)
Definition blind {A} (m : M A) : Prop :=
  forall (n : nat) (b b' : bool),
    result (m (mkState n b)) = result (m (mkState n b'))
    /\ trace (m (mkState n b)) = trace (m (mkState n b'))
    /\ http_calls (final (m (mkState n b))) = http_calls (final (m (mkState n b'))).

(** A request with a method the server does not know. *)
Definition line_ping : jsstring := json_text "{'jsonrpc':'2.0','id':9,'method':'ping'}".

Definition ping_request : value :=
  Obj [(utf16 "jsonrpc", Str (utf16 "2.0"));
       (utf16 "id", Num 9);
       (utf16 "method", Str (utf16 "ping"))].

Definition ping_runtime : runtime :=
  mkRuntime (fun text => if str_eqb text line_ping then Ok ping_request
                         else sample_parse text)
            sample_network (fun _ => Ok sample_article) (fun _ => false) (utf16 "key").

(** ** Start-up: the API key (lines 14-98) and [main] (lines 540-640)

    What the program reads from the machine it starts on: the environment
    variable, the working directory and the directory of the script,
    [path.join], and the two functions of [fs] with [JSON.parse].  A value of
    [process.env] is a string; [fs.existsSync] does not throw;
    [fs.readFileSync] gives the text of the file or throws, and of what it
    throws the program reads the message only. *)
Record host := mkHost {
  env_SCOPUS_API_KEY : option jsstring;
  process_cwd : jsstring;
  dirname : jsstring;
  path_join : jsstring -> jsstring -> jsstring;
  fs_existsSync : jsstring -> bool;
  fs_readFileSync : jsstring -> jsstring + jsstring;
  host_JSON_parse : jsstring -> outcome value
}.

Definition configPaths (h : host) : list jsstring :=
  [utf16 "./config.json";
   utf16 "./config/config.json";
   path_join h (process_cwd h) (utf16 "config.json");
   path_join h (dirname h) (utf16 "config.json")].

(** One turn of the loop of lines 49-61: the key of the file, nothing, or
    the message of what the block of the [try] threw. *)
Inductive attempt :=
| Found (key : value)
| Nothing
| Unreadable (message : jsstring).

Definition try_config (h : host) (configPath : jsstring) : attempt :=
  if fs_existsSync h configPath then
    match fs_readFileSync h configPath with
    | inl text =>
      match host_JSON_parse h text with
      | Ok config =>
        match get_prop config (utf16 "scopus_api_key") with
        | Ok key => if truthy key then Found key else Nothing
        | Throw error => Unreadable (message error)
        end
      | Throw error => Unreadable (message error)
      end
    | inr error_message => Unreadable error_message
    end
  else Nothing.

(** The loop over the paths: the lines on the diagnostic stream and the key
    that was returned from inside the loop, if one was. *)
Fixpoint scan_configs (h : host) (paths : list jsstring) : list event * option value :=
  match paths with
  | [] => ([], None)
  | configPath :: paths' =>
    match try_config h configPath with
    | Found key =>
      ([Stderr (utf16 "✅ Scopus API Key loaded from config file: " ++ configPath)],
       Some key)
    | Nothing => scan_configs h paths'
    | Unreadable error_message =>
      let (log, found) := scan_configs h paths' in
      (Stderr (utf16 "⚠️ Error reading config file " ++ configPath ++ utf16 ": "
               ++ error_message) :: log,
       found)
    end
  end.

(** [showApiKeySetupInstructions] (lines 71-98); the literals are written
    with apostrophes where the lines have double quotes. *)
Definition showApiKeySetupInstructions : list event :=
  map Stderr
    [utf16 "❌ Scopus API Key not found!";
     [];
     utf16 "📝 Please set your Scopus API Key using one of these methods:";
     [];
     utf16 "1. MCP Client environment variable (recommended):";
     utf16 "   {";
     json_text "     'mcpServers': {";
     json_text "       'abstract-search': {";
     json_text "         'command': 'npx',";
     json_text "         'args': ['abstract-search-mcp'],";
     json_text "         'env': {";
     json_text "           'SCOPUS_API_KEY': 'your_api_key_here'";
     utf16 "         }";
     utf16 "       }";
     utf16 "     }";
     utf16 "   }";
     [];
     utf16 "2. System environment variable:";
     json_text "   export SCOPUS_API_KEY='your_api_key_here'";
     [];
     utf16 "3. Create local config.json file (for development):";
     utf16 "   {";
     json_text "     'scopus_api_key': 'your_api_key_here'";
     utf16 "   }";
     [];
     utf16 "🔗 Get your Scopus API Key at: https://dev.elsevier.com/"].

Definition key_required : jsstring := utf16 "Scopus API Key is required".

(** [loadApiKey] (lines 31-66): the key, or the message of the [Error] it
    throws, with the lines it logs. *)
Definition loadApiKey (h : host) : list event * (value + jsstring) :=
  let from_files :=
    let (log, found) := scan_configs h (configPaths h) in
    match found with
    | Some key => (log, inl key)
    | None => (log ++ showApiKeySetupInstructions, inr key_required)
    end in
  match env_SCOPUS_API_KEY h with
  | Some key =>
    if truthy (Str key) then
      ([Stderr (utf16 "✅ Scopus API Key loaded from environment variable")],
       inl (Str key))
    else from_files
  | None => from_files
  end.

(** How [main] leaves the start-up: with a server that waits for lines, or
    through [process.exit]. *)
Inductive startup :=
| Serving (scopusApiKey : value)
| Exit (code : Z).

(** [main] up to its last line (lines 540-570, 628-640), run as the script:
    the constructor of the server calls [loadApiKey] before any handler is
    registered, and what [main] throws is caught on line 643. *)
Definition main (h : host) : list event * startup :=
  let (log, loaded) := loadApiKey h in
  match loaded with
  | inl key =>
    (Stderr (utf16 "🚀 MCP Abstract Search Tool 시작...") :: log
       ++ [Stderr (utf16 "⏳ 서버가 요청을 기다리는 중...")],
     Serving key)
  | inr error_message =>
    (Stderr (utf16 "🚀 MCP Abstract Search Tool 시작...") :: log
       ++ [Stderr (utf16 "💥 치명적 오류: " ++ error_message)],
     Exit 1)
  end.

(** A machine without the variable, with a truncated [./config.json] and a
    good [config.json] beside the script. *)
Definition good_config : jsstring := json_text "{'scopus_api_key':'abc123'}".

Definition sample_host : host :=
  mkHost None (utf16 "/srv/app") (utf16 "/srv/app/src")
         (fun a b => a ++ utf16 "/" ++ b)
         (fun p => str_eqb p (utf16 "./config.json")
                   || str_eqb p (utf16 "/srv/app/src/config.json"))
         (fun p => if str_eqb p (utf16 "./config.json")
                   then inl (json_text "{'scopus_api_key':")
                   else inl good_config)
         (fun text =>
            if str_eqb text good_config
            then Ok (Obj [(utf16 "scopus_api_key", Str (utf16 "abc123"))])
            else Throw (mkError SyntaxError (utf16 "Unexpected end of JSON input"))).

(** A machine with neither the variable nor a file. *)
Definition bare_host : host :=
  mkHost None (utf16 "/srv/app") (utf16 "/srv/app/src")
         (fun a b => a ++ utf16 "/" ++ b)
         (fun _ => false)
         (fun _ => inr (utf16 "ENOENT: no such file or directory"))
         (fun _ => Throw (mkError SyntaxError (utf16 "Unexpected end of JSON input"))).

(** * Properties *)

(** ** Strings *)

Lemma str_eqb_spec (a b : jsstring) : reflect (a = b) (str_eqb a b).
Proof.
  revert b; induction a as [|x a IH]; intros [|y b]; simpl;
    try (constructor; congruence).
  destruct (N.eqb_spec x y) as [->|Hxy]; simpl.
  - destruct (IH b) as [->|Hab]; constructor; congruence.
  - constructor; congruence.
Qed.

Lemma str_eqb_refl (a : jsstring) : str_eqb a a = true.
Proof. destruct (str_eqb_spec a a); congruence. Qed.

Example utf16_ascii : utf16 "N/A" = [78; 47; 65].
Proof. reflexivity. Qed.

Example utf16_hangul : utf16 "초록" = [52488; 47197].
Proof. reflexivity. Qed.

Example utf16_emoji : utf16 "📭" = [55357; 56557].
Proof. reflexivity. Qed.

(** ** Regular-expression replacement *)
Section Replace.
Variable m : matcher.
Variable repl : jsstring.
Hypothesis m_consumes : consuming m.

Lemma replace_fuel_enough (n k : nat) (s : jsstring) :
  (List.length s <= n)%nat -> (List.length s <= k)%nat ->
  replace_fuel n m repl s = replace_fuel k m repl s.
Proof.
  revert k s; induction n as [|n IH]; intros k s Hn Hk.
  - destruct s; simpl in Hn; [|lia]. destruct k; reflexivity.
  - destruct k as [|k].
    + destruct s; simpl in Hk; [reflexivity|lia].
    + destruct s as [|c r]; [reflexivity|]. simpl in *.
      destruct (m (c :: r)) as [rest|] eqn:Hm.
      * apply m_consumes in Hm. simpl in Hm.
        f_equal. apply IH; lia.
      * f_equal. apply IH; lia.
Qed.

(** The equation the loop of [replace] satisfies. *)
Lemma replace_all_cons (c : code_unit) (r : jsstring) :
  replace_all m repl (c :: r) =
  match m (c :: r) with
  | Some rest => repl ++ replace_all m repl rest
  | None => c :: replace_all m repl r
  end.
Proof.
  unfold replace_all. simpl.
  destruct (m (c :: r)) as [rest|] eqn:Hm.
  - apply m_consumes in Hm. simpl in Hm.
    f_equal. apply replace_fuel_enough; lia.
  - reflexivity.
Qed.

Lemma replace_all_nil : replace_all m repl [] = [].
Proof. reflexivity. Qed.

Lemma never_cons (c : code_unit) (r : jsstring) :
  never m (c :: r) -> m (c :: r) = None /\ never m r.
Proof.
  intros H; split.
  - apply (H []); reflexivity.
  - intros a u ->. apply (H (c :: a)); reflexivity.
Qed.

Lemma replace_all_never (s : jsstring) : never m s -> replace_all m repl s = s.
Proof.
  induction s as [|c r IH]; intros H; [reflexivity|].
  apply never_cons in H as [H0 Hr].
  rewrite replace_all_cons, H0, IH; auto.
Qed.
End Replace.

Lemma never_app_r (m : matcher) (a u : jsstring) : never m (a ++ u) -> never m u.
Proof. intros H b v ->. apply (H (a ++ b)). now rewrite app_assoc. Qed.

(** ** The patterns *)

Lemma span_not_gt_app (s : jsstring) :
  s = fst (span_not_gt s) ++ snd (span_not_gt s).
Proof.
  induction s as [|c r IH]; simpl; [reflexivity|].
  destruct (c =? GT); [reflexivity|].
  destruct (span_not_gt r) as [b rest]; simpl in *. now f_equal.
Qed.

Lemma match_body_gt_length (s rest : jsstring) :
  match_body_gt s = Some rest -> (List.length rest < List.length s)%nat.
Proof.
  unfold match_body_gt. intros H.
  pose proof (span_not_gt_app s) as E.
  destruct (span_not_gt s) as [[|b bs] [|g rest']]; try discriminate.
  injection H as <-. rewrite E. simpl. rewrite length_app. simpl. lia.
Qed.

Lemma match_literal_app (lit s r : jsstring) :
  match_literal lit s = Some r -> s = lit ++ r.
Proof.
  revert s; induction lit as [|x lit IH]; intros s H; simpl in *.
  - congruence.
  - destruct s as [|c s']; [discriminate|].
    destruct (N.eqb_spec c x) as [->|]; [|discriminate].
    f_equal. now apply IH.
Qed.

Lemma match_seq_consuming (lit : jsstring) : consuming (match_seq lit).
Proof.
  intros s r. unfold match_seq.
  destruct (match_literal lit s) as [r'|] eqn:Hl; [|discriminate].
  intros H. apply match_body_gt_length in H.
  apply match_literal_app in Hl. subst s. rewrite length_app. lia.
Qed.

Lemma drop_space_length (s : jsstring) :
  (List.length (drop_space s) <= List.length s)%nat.
Proof.
  induction s as [|c r IH]; simpl; [lia|].
  destruct (is_space c); simpl; lia.
Qed.

Lemma re_spaces_consuming : consuming re_spaces.
Proof.
  intros [|c r] rest; simpl; [discriminate|].
  destruct (is_space c); [|discriminate].
  intros [= <-]. pose proof (drop_space_length r). lia.
Qed.

Lemma re_tag_cons (c : code_unit) (r : jsstring) :
  re_tag (c :: r) = if c =? LT then match_body_gt r else None.
Proof. unfold re_tag, match_seq. simpl. now destruct (c =? LT). Qed.

Lemma span_no_gt (s : jsstring) : no_gt s = true -> span_not_gt s = (s, []).
Proof.
  induction s as [|c r IH]; simpl; [reflexivity|].
  destruct (c =? GT); simpl; [discriminate|].
  intros H. now rewrite IH.
Qed.

Lemma span_snd_nil (s : jsstring) : snd (span_not_gt s) = [] -> no_gt s = true.
Proof.
  induction s as [|c r IH]; simpl; [reflexivity|].
  destruct (c =? GT); simpl; [discriminate|].
  destruct (span_not_gt r) as [b rest]; simpl in *. auto.
Qed.

Lemma match_body_gt_none (r : jsstring) :
  match_body_gt r = None <-> starts_gt r = true \/ no_gt r = true.
Proof.
  unfold match_body_gt. split.
  - intros H. destruct r as [|c r']; [right; reflexivity|].
    simpl in *. destruct (c =? GT) eqn:Hc; [now left|right].
    simpl. apply (span_snd_nil r').
    destruct (span_not_gt r') as [b [|g rest]]; [reflexivity|discriminate].
  - intros [H|H].
    + destruct r as [|c r']; [discriminate|]. simpl in *. now rewrite H.
    + rewrite (span_no_gt _ H). now destruct r.
Qed.

Lemma tagfree_never (s : jsstring) : tagfree s = true <-> never re_tag s.
Proof.
  induction s as [|c r IH]; simpl.
  - split; [|reflexivity]. intros _ a u H.
    symmetry in H. apply app_eq_nil in H as [_ ->]. reflexivity.
  - rewrite andb_true_iff, IH. split.
    + intros [Hc Hr] [|x a] u H; simpl in H.
      * subst u. rewrite re_tag_cons.
        destruct (c =? LT); [|reflexivity].
        apply match_body_gt_none. simpl in Hc.
        now apply orb_true_iff in Hc.
      * injection H as _ H. now apply (Hr a).
    + intros H. apply never_cons in H as [H0 Hr]. split; [|exact Hr].
      rewrite re_tag_cons in H0. destruct (c =? LT); [|reflexivity].
      simpl. apply orb_true_iff. now apply match_body_gt_none.
Qed.

Lemma re_tag_consuming : consuming re_tag.
Proof. apply match_seq_consuming. Qed.

Lemma no_gt_tagfree (s : jsstring) : no_gt s = true -> tagfree s = true.
Proof.
  induction s as [|c r IH]; simpl; [reflexivity|].
  intros H. apply andb_true_iff in H as [_ H].
  rewrite H, (IH H). now rewrite !orb_true_r.
Qed.

Lemma tagfree_app_r (a u : jsstring) : tagfree (a ++ u) = true -> tagfree u = true.
Proof.
  induction a as [|c a IH]; simpl; [auto|].
  intros H. apply andb_true_iff in H as [_ H]. auto.
Qed.

Lemma no_gt_app (a b : jsstring) : no_gt (a ++ b) = no_gt a && no_gt b.
Proof. apply forallb_app. Qed.

(** Replacing what follows a prefix by text without angle brackets keeps a
    string free of tags. *)
Lemma tagfree_app_swap (u b d : jsstring) :
  tagfree (u ++ b) = true ->
  no_gt d = true -> forallb (fun c => negb (c =? LT)) d = true ->
  tagfree (u ++ d) = true.
Proof.
  intros H Hgt Hlt. induction u as [|c u IH]; simpl in *.
  - clear H. induction d as [|x d IHd]; simpl in *; [reflexivity|].
    apply andb_true_iff in Hgt as [_ Hgt]. apply andb_true_iff in Hlt as [Hx Hlt].
    rewrite Hx, IHd; auto.
  - apply andb_true_iff in H as [Hc H]. rewrite (IH H), andb_true_r.
    apply orb_true_iff in Hc as [Hc|Hc].
    + apply orb_true_iff in Hc as [Hc|Hc]; [now rewrite Hc|].
      destruct u as [|y u]; simpl in *.
      * rewrite Hgt. now rewrite orb_true_r.
      * rewrite Hc. now rewrite orb_true_r.
    + rewrite no_gt_app in Hc. apply andb_true_iff in Hc as [Hc _].
      rewrite no_gt_app, Hc, Hgt. now rewrite orb_true_r.
Qed.

Lemma tagfree_app_l (u b : jsstring) : tagfree (u ++ b) = true -> tagfree u = true.
Proof.
  intros H. rewrite <- (app_nil_r u). now apply (tagfree_app_swap u b []).
Qed.

Lemma strip_no_gt (r : jsstring) :
  no_gt r = true -> replace_all re_tag [] r = r.
Proof.
  intros H. apply replace_all_never; [apply re_tag_consuming|].
  now apply tagfree_never, no_gt_tagfree.
Qed.

Lemma strip_starts_gt (r : jsstring) :
  starts_gt r = true -> starts_gt (replace_all re_tag [] r) = true.
Proof.
  destruct r as [|c r]; simpl; [discriminate|]. intros H.
  rewrite (replace_all_cons _ _ re_tag_consuming), re_tag_cons.
  apply N.eqb_eq in H. subst c. reflexivity.
Qed.

(** After the first replacement of [cleanAbstract] no tag is left. *)
Lemma strip_tagfree (s : jsstring) : tagfree (replace_all re_tag [] s) = true.
Proof.
  remember (List.length s) as n eqn:Hn.
  assert (Hle : (List.length s <= n)%nat) by lia. clear Hn.
  revert s Hle; induction n as [|n IH]; intros s Hle.
  - destruct s; [reflexivity|simpl in Hle; lia].
  - destruct s as [|c r]; [reflexivity|]. simpl in Hle.
    rewrite (replace_all_cons _ _ re_tag_consuming).
    destruct (re_tag (c :: r)) as [rest|] eqn:Hm.
    + simpl. apply IH. apply re_tag_consuming in Hm. simpl in Hm. lia.
    + simpl. rewrite (IH r) by lia. rewrite andb_true_r.
      rewrite re_tag_cons in Hm. destruct (c =? LT); [|reflexivity]. simpl.
      apply match_body_gt_none in Hm as [Hm|Hm].
      * now rewrite (strip_starts_gt _ Hm).
      * rewrite (strip_no_gt _ Hm), Hm. now rewrite orb_true_r.
Qed.

Lemma match_body_gt_app (l r rest : jsstring) :
  no_gt l = true -> match_body_gt r = Some rest ->
  match_body_gt (l ++ r) = Some rest.
Proof.
  intros Hl Hr. induction l as [|x l IH]; simpl; [exact Hr|].
  simpl in Hl. apply andb_true_iff in Hl as [Hx Hl]. specialize (IH Hl).
  unfold match_body_gt in *. simpl.
  apply negb_true_iff in Hx. rewrite Hx.
  destruct (span_not_gt (l ++ r)) as [[|b bs] [|g rest']]; try discriminate.
  exact IH.
Qed.

(** Where a namespaced pattern matches, the generic one does. *)
Lemma match_seq_tag (lit u rest : jsstring) :
  no_gt lit = true -> match_seq (LT :: lit) u = Some rest -> re_tag u = Some rest.
Proof.
  intros Hlit. unfold match_seq.
  destruct (match_literal (LT :: lit) u) as [r|] eqn:Hl; [|discriminate].
  intros Hr. apply match_literal_app in Hl. subst u. simpl.
  rewrite re_tag_cons. simpl. now apply match_body_gt_app.
Qed.

Lemma never_tag_seq (lit s : jsstring) :
  no_gt lit = true -> never re_tag s -> never (match_seq (LT :: lit)) s.
Proof.
  intros Hlit H a u Hs.
  destruct (match_seq (LT :: lit) u) as [rest|] eqn:Hm; [|reflexivity].
  apply match_seq_tag in Hm; [|exact Hlit]. rewrite (H a u Hs) in Hm. discriminate.
Qed.

Lemma jats_after_strip (s : jsstring) :
  tagfree s = true ->
  replace_all re_jats_close [] (replace_all re_jats_open [] s) = s.
Proof.
  intros H. apply tagfree_never in H.
  assert (Ho : replace_all re_jats_open [] s = s).
  { apply replace_all_never; [apply match_seq_consuming|].
    now apply (never_tag_seq (utf16 "jats:")). }
  rewrite Ho. apply replace_all_never; [apply match_seq_consuming|].
  now apply (never_tag_seq (utf16 "/jats:")).
Qed.

(** ** White space *)

Lemma is_space_angle (c : code_unit) :
  is_space c = true -> (c =? LT) = false /\ (c =? GT) = false.
Proof.
  intros H. split.
  - destruct (N.eqb_spec c LT) as [->|]; [discriminate H|reflexivity].
  - destruct (N.eqb_spec c GT) as [->|]; [discriminate H|reflexivity].
Qed.

Lemma collapse_cons (c : code_unit) (r : jsstring) :
  replace_all re_spaces [SPACE] (c :: r) =
  if is_space c then SPACE :: replace_all re_spaces [SPACE] (drop_space r)
  else c :: replace_all re_spaces [SPACE] r.
Proof.
  rewrite (replace_all_cons _ _ re_spaces_consuming). simpl.
  now destruct (is_space c).
Qed.

Lemma drop_space_suffix (s : jsstring) : exists a, s = a ++ drop_space s.
Proof.
  induction s as [|c r [a IH]]; simpl.
  - now exists [].
  - destruct (is_space c).
    + exists (c :: a). simpl. now f_equal.
    + now exists [].
Qed.

Lemma no_lead_drop_space (s : jsstring) : no_lead (drop_space s) = true.
Proof.
  induction s as [|c r IH]; simpl; [reflexivity|].
  destruct (is_space c) eqn:Hc; [exact IH|]. simpl. now rewrite Hc.
Qed.

Lemma drop_space_no_lead (s : jsstring) : no_lead s = true -> drop_space s = s.
Proof.
  destruct s as [|c r]; simpl; [reflexivity|].
  intros H. apply negb_true_iff in H. now rewrite H.
Qed.

Lemma collapse_no_lead (s : jsstring) :
  no_lead s = true -> no_lead (replace_all re_spaces [SPACE] s) = true.
Proof.
  destruct s as [|c r]; [reflexivity|]. simpl. intros H.
  rewrite collapse_cons. apply negb_true_iff in H. rewrite H. simpl. now rewrite H.
Qed.

(** Induction on a string along its suffixes. *)
Lemma suffix_induction (P : jsstring -> Prop) :
  (forall s, (forall u, (List.length u < List.length s)%nat -> P u) -> P s) ->
  forall s, P s.
Proof.
  intros H s. remember (List.length s) as n eqn:Hn.
  assert (Hle : (List.length s <= n)%nat) by lia. clear Hn.
  revert s Hle. induction n as [|n IH]; intros s Hle; apply H; intros u Hu.
  - lia.
  - apply IH. lia.
Qed.

Lemma collapse_forallb (P : code_unit -> bool) (s : jsstring) :
  P SPACE = true -> forallb P s = true ->
  forallb P (replace_all re_spaces [SPACE] s) = true.
Proof.
  intros HP. induction s as [s IH] using suffix_induction. intros Hs.
  destruct s as [|c r]; [reflexivity|].
  rewrite collapse_cons. simpl in Hs. apply andb_true_iff in Hs as [Hc Hr].
  destruct (is_space c); simpl.
  - rewrite HP. simpl. apply IH.
    + simpl. pose proof (drop_space_length r). lia.
    + destruct (drop_space_suffix r) as [a Ha]. rewrite Ha in Hr.
      rewrite forallb_app in Hr. now apply andb_true_iff in Hr as [_ Hr].
  - rewrite Hc. simpl. apply IH; [simpl; lia|exact Hr].
Qed.

Lemma collapse_tagfree (s : jsstring) :
  tagfree s = true -> tagfree (replace_all re_spaces [SPACE] s) = true.
Proof.
  induction s as [s IH] using suffix_induction. intros Hs.
  destruct s as [|c r]; [reflexivity|].
  rewrite collapse_cons. simpl in Hs. apply andb_true_iff in Hs as [Hc Hr].
  destruct (is_space c) eqn:Hsp.
  - simpl. apply IH.
    + simpl. pose proof (drop_space_length r). lia.
    + destruct (drop_space_suffix r) as [a Ha]. rewrite Ha in Hr.
      now apply tagfree_app_r in Hr.
  - simpl. rewrite (IH r) by (simpl; lia || exact Hr). rewrite andb_true_r.
    apply orb_true_iff in Hc as [Hc|Hc].
    + apply orb_true_iff in Hc as [Hc|Hc]; [now rewrite Hc|].
      destruct r as [|d r']; [discriminate|]. simpl in Hc.
      rewrite collapse_cons.
      destruct (is_space d) eqn:Hd.
      * apply is_space_angle in Hd as [_ Hd]. congruence.
      * simpl. rewrite Hc. now rewrite orb_true_r.
    + assert (Hg : no_gt (replace_all re_spaces [SPACE] r) = true)
        by (apply collapse_forallb; [reflexivity|exact Hc]).
      rewrite Hg. now rewrite !orb_true_r.
Qed.

Lemma collapse_single_spaced (s : jsstring) :
  single_spaced (replace_all re_spaces [SPACE] s) = true.
Proof.
  induction s as [s IH] using suffix_induction.
  destruct s as [|c r]; [reflexivity|].
  rewrite collapse_cons. destruct (is_space c) eqn:Hsp; simpl.
  - rewrite collapse_no_lead by apply no_lead_drop_space.
    apply IH. simpl. pose proof (drop_space_length r). lia.
  - rewrite Hsp. simpl. apply IH. simpl. lia.
Qed.

Lemma single_spaced_fixed (s : jsstring) :
  single_spaced s = true -> replace_all re_spaces [SPACE] s = s.
Proof.
  induction s as [|c r IH]; [reflexivity|]. simpl. intros H.
  apply andb_true_iff in H as [Hc Hr]. rewrite collapse_cons.
  destruct (is_space c); simpl in Hc.
  - apply andb_true_iff in Hc as [Hc Hl]. apply N.eqb_eq in Hc. subst c.
    rewrite (drop_space_no_lead _ Hl), (IH Hr). reflexivity.
  - now rewrite (IH Hr).
Qed.

Lemma single_spaced_app_r (a u : jsstring) :
  single_spaced (a ++ u) = true -> single_spaced u = true.
Proof.
  induction a as [|c a IH]; simpl; [auto|].
  intros H. apply andb_true_iff in H as [_ H]. auto.
Qed.

Lemma no_lead_app (u b : jsstring) : no_lead (u ++ b) = true -> u <> [] -> no_lead u = true.
Proof. destruct u; [congruence|auto]. Qed.

(** The counterpart of [tagfree_app_swap] for white space. *)
Lemma single_spaced_app_swap (u b d : jsstring) :
  single_spaced (u ++ b) = true ->
  single_spaced d = true -> no_lead d = true ->
  single_spaced (u ++ d) = true.
Proof.
  intros H Hd Hl. induction u as [|c u IH]; simpl in *; [exact Hd|].
  apply andb_true_iff in H as [Hc H]. rewrite (IH H), andb_true_r.
  apply orb_true_iff in Hc as [Hc|Hc]; [now rewrite Hc|].
  apply andb_true_iff in Hc as [Hc Hn]. rewrite Hc. simpl.
  destruct u as [|y u]; simpl in *; [rewrite Hl|rewrite Hn]; now rewrite orb_true_r.
Qed.

Lemma single_spaced_app_l (u b : jsstring) :
  single_spaced (u ++ b) = true -> single_spaced u = true.
Proof.
  intros H. rewrite <- (app_nil_r u). now apply (single_spaced_app_swap u b []).
Qed.

Lemma trim_infix (s : jsstring) : exists a b, s = a ++ trim s ++ b.
Proof.
  unfold trim. destruct (drop_space_suffix s) as [a Ha].
  destruct (drop_space_suffix (rev (drop_space s))) as [b Hb].
  exists a, (rev b). rewrite <- rev_app_distr, <- Hb, rev_involutive. exact Ha.
Qed.

Lemma trim_no_lead (s : jsstring) : no_lead (trim s) = true.
Proof.
  unfold trim. destruct (drop_space_suffix (rev (drop_space s))) as [b Hb].
  apply (f_equal (@rev _)) in Hb. rewrite rev_involutive, rev_app_distr in Hb.
  destruct (rev (drop_space (rev (drop_space s)))) as [|c t] eqn:Ht; [reflexivity|].
  pose proof (no_lead_drop_space s) as Hl. rewrite Hb in Hl. exact Hl.
Qed.

Lemma trim_no_trail (s : jsstring) : no_lead (rev (trim s)) = true.
Proof. unfold trim. rewrite rev_involutive. apply no_lead_drop_space. Qed.

Lemma trim_fixed (s : jsstring) :
  no_lead s = true -> no_lead (rev s) = true -> trim s = s.
Proof.
  intros H1 H2. unfold trim.
  rewrite (drop_space_no_lead _ H1), (drop_space_no_lead _ H2).
  apply rev_involutive.
Qed.

(** ** The normal form of cleanAbstract *)

Lemma clean_text_normalized (s : jsstring) : clean_text s = truncate (normalized s).
Proof.
  unfold clean_text, truncate, normalized.
  now rewrite (jats_after_strip _ (strip_tagfree s)).
Qed.

Lemma normalized_normal (s : jsstring) : normal (normalized s) = true.
Proof.
  unfold normal, whitespace_stable, normalized.
  set (g := replace_all re_spaces [SPACE] (replace_all re_tag [] s)).
  destruct (trim_infix g) as [a [b Hg]].
  rewrite trim_no_lead, trim_no_trail, !andb_true_r.
  apply andb_true_iff; split.
  - apply (tagfree_app_l _ b), (tagfree_app_r a). rewrite <- Hg.
    apply collapse_tagfree, strip_tagfree.
  - apply (single_spaced_app_l _ b), (single_spaced_app_r a). rewrite <- Hg.
    apply collapse_single_spaced.
Qed.

Lemma normal_parts (t : jsstring) :
  normal t = true ->
  tagfree t = true /\ single_spaced t = true
  /\ no_lead t = true /\ no_lead (rev t) = true.
Proof.
  unfold normal, whitespace_stable. rewrite !andb_true_iff. tauto.
Qed.

Lemma normalized_fixed (t : jsstring) : normal t = true -> normalized t = t.
Proof.
  intros H. apply normal_parts in H as (Ht & Hs & Hl & Hr).
  unfold normalized.
  rewrite (replace_all_never _ _ re_tag_consuming) by now apply tagfree_never.
  rewrite (single_spaced_fixed _ Hs). now apply trim_fixed.
Qed.

Lemma truncate_normal (t : jsstring) : normal t = true -> normal (truncate t) = true.
Proof.
  intros H. unfold truncate.
  destruct (Nat.ltb_spec 500 (List.length t)) as [Hlen|]; [|exact H].
  apply normal_parts in H as (Ht & Hs & Hl & Hr).
  rewrite <- (firstn_skipn 500 t) in Ht, Hs, Hl.
  assert (Hp : firstn 500 t <> []).
  { destruct t as [|c t']; [simpl in Hlen; lia|]. discriminate. }
  unfold normal, whitespace_stable. rewrite !andb_true_iff. repeat split.
  - now apply (tagfree_app_swap _ (skipn 500 t)).
  - now apply (single_spaced_app_swap _ (skipn 500 t)).
  - destruct (firstn 500 t); [congruence|exact Hl].
  - rewrite rev_app_distr. reflexivity.
Qed.

Lemma truncate_length (t : jsstring) :
  (500 < List.length t)%nat -> List.length (truncate t) = 503%nat.
Proof.
  intros H. unfold truncate.
  destruct (Nat.ltb_spec 500 (List.length t)); [|lia].
  rewrite length_app, length_firstn.
  change (List.length ELLIPSIS) with 3%nat. lia.
Qed.

Lemma truncate_truncate (t : jsstring) : truncate (truncate t) = truncate t.
Proof.
  destruct (Nat.ltb_spec 500 (List.length t)) as [Hlen|Hlen].
  - pose proof (truncate_length t Hlen) as H503.
    assert (E : truncate t = firstn 500 t ++ ELLIPSIS).
    { unfold truncate. destruct (Nat.ltb_spec 500 (List.length t)); [reflexivity|lia]. }
    unfold truncate at 1. rewrite H503.
    replace (500 <? 503)%nat with true by reflexivity.
    rewrite E. f_equal. rewrite firstn_app, length_firstn, firstn_firstn.
    replace (500 - Nat.min 500 (List.length t))%nat with O by lia.
    rewrite Nat.min_id. apply app_nil_r.
  - unfold truncate. destruct (Nat.ltb_spec 500 (List.length t)); [lia|].
    destruct (Nat.ltb_spec 500 (List.length t)); [lia|reflexivity].
Qed.

(** The transform without the guard of its first line is idempotent. *)
Lemma clean_text_idempotent (s : jsstring) : clean_text (clean_text s) = clean_text s.
Proof.
  rewrite (clean_text_normalized s).
  rewrite (clean_text_normalized (truncate (normalized s))).
  rewrite normalized_fixed by apply truncate_normal, normalized_normal.
  apply truncate_truncate.
Qed.

(** ** The text normalizer *)

Lemma is_str_eq (v : value) (lit : jsstring) : is_str v lit = true -> v = Str lit.
Proof.
  destruct v; simpl; try discriminate.
  intros H. destruct (str_eqb_spec s lit); congruence.
Qed.

Example cleanAbstract_paragraph :
  cleanAbstract (Str (utf16 "<p>Example abstract.</p>")) = Ok (utf16 "Example abstract.").
Proof. reflexivity. Qed.

Example cleanAbstract_jats :
  cleanAbstract (Str (utf16 "<jats:p>Two   words</jats:p> "))  = Ok (utf16 "Two words").
Proof. reflexivity. Qed.

Example cleanAbstract_nested_brackets :
  cleanAbstract (Str (utf16 "<<a>b> x<>y <")) = Ok (utf16 "b> x<>y <").
Proof. reflexivity. Qed.

Example cleanAbstract_not_a_string :
  cleanAbstract (Num 5) = Throw (not_a_function (utf16 "abstract.replace")).
Proof. reflexivity. Qed.

(** C5, as stated, fails: the empty string is an output of [cleanAbstract]
    (of an input made of tags only) and [cleanAbstract] maps it to ['N/A']. *)
Lemma cleanAbstract_empty_output_not_fixed :
  cleanAbstract (Str (utf16 "<p></p>")) = Ok []
  /\ cleanAbstract (Str []) = Ok NA
  /\ NA <> [].
Proof. repeat split. discriminate. Qed.

(** C5, amended: every output of [cleanAbstract] other than the empty string
    is returned unchanged when [cleanAbstract] is applied to it. *)
Theorem cleanAbstract_idempotent_nonempty (x : value) (s : jsstring) :
  cleanAbstract x = Ok s -> s <> [] -> cleanAbstract (Str s) = Ok s.
Proof.
  intros Hx Hs.
  assert (Hfix : s = NA \/ clean_text s = s).
  { unfold cleanAbstract in Hx.
    destruct (negb (truthy x) || is_str x NA).
    - left. congruence.
    - destruct x; try discriminate. injection Hx as <-.
      right. apply clean_text_idempotent. }
  unfold cleanAbstract. destruct s as [|c s']; [congruence|].
  cbn [truthy is_empty negb orb is_str].
  destruct (str_eqb_spec (c :: s') NA) as [E|Hne].
  - now rewrite E.
  - destruct Hfix as [E|E]; [congruence|]. now rewrite E.
Qed.

Lemma cleanAbstract_idempotent_nonempty_witness :
  cleanAbstract (Str (utf16 "Example abstract.")) = Ok (utf16 "Example abstract.").
Proof.
  apply (cleanAbstract_idempotent_nonempty (Str (utf16 "<p>Example   abstract.</p> "))).
  - vm_compute. reflexivity.
  - vm_compute. discriminate.
Defined.

(** C6: an input of 10,000 code units with no tag and no white space to
    collapse or trim comes back as its first 500 units followed by the
    three-unit ellipsis, 503 units in all. *)
Theorem cleanAbstract_long_input (s : jsstring) :
  List.length s = 10000%nat ->
  tagfree s = true ->
  whitespace_stable s = true ->
  cleanAbstract (Str s) = Ok (firstn 500 s ++ ELLIPSIS)
  /\ List.length (firstn 500 s ++ ELLIPSIS) = 503%nat.
Proof.
  intros Hlen Ht Hw.
  assert (Hn : normal s = true) by (unfold normal; now rewrite Ht, Hw).
  assert (Htr : truncate s = firstn 500 s ++ ELLIPSIS).
  { unfold truncate. rewrite Hlen. reflexivity. }
  split.
  - unfold cleanAbstract.
    destruct s as [|c s']; [discriminate Hlen|].
    cbn [truthy is_empty negb orb is_str].
    destruct (str_eqb_spec (c :: s') NA) as [E|_].
    + rewrite E in Hlen. discriminate Hlen.
    + rewrite clean_text_normalized, (normalized_fixed _ Hn). now rewrite Htr.
  - rewrite <- Htr. apply truncate_length. rewrite Hlen.
    apply Nat.ltb_lt. reflexivity.
Qed.

Lemma cleanAbstract_long_input_witness :
  cleanAbstract (Str long_text) = Ok (firstn 500 long_text ++ ELLIPSIS)
  /\ List.length (firstn 500 long_text ++ ELLIPSIS) = 503%nat.
Proof.
  apply cleanAbstract_long_input.
  - reflexivity.
  - reflexivity.
  - reflexivity.
Defined.

(** ** Reasoning about computations *)

Lemma run_bind {A B} (m : M A) (f : A -> M B) (s : state) (a : A) :
  result (m s) = Ok a ->
  bind m f s = mkRun (result (f a (final (m s)))) (final (f a (final (m s))))
                     (trace (m s) ++ trace (f a (final (m s)))).
Proof. intros H. unfold bind. now rewrite H. Qed.

Lemma run_bind_throw {A B} (m : M A) (f : A -> M B) (s : state) (e : js_error) :
  result (m s) = Throw e -> bind m f s = mkRun (Throw e) (final (m s)) (trace (m s)).
Proof. intros H. unfold bind. now rewrite H. Qed.

Lemma run_bind_lift {A B} (o : outcome A) (f : A -> M B) (s : state) (a : A) :
  o = Ok a -> bind (lift o) f s = f a s.
Proof. intros ->. unfold bind, lift. simpl. now destruct (f a s). Qed.

Lemma run_bind_lift_throw {A B} (o : outcome A) (f : A -> M B) (s : state) (e : js_error) :
  o = Throw e -> bind (lift o) f s = mkRun (Throw e) s [].
Proof. intros ->. reflexivity. Qed.

Lemma run_bind_emit {B} (ev : event) (f : unit -> M B) (s : state) :
  bind (emit ev) f s = mkRun (result (f tt s)) (final (f tt s)) (ev :: trace (f tt s)).
Proof. reflexivity. Qed.

Lemma run_try_ok {A} (body : M A) (h : js_error -> M A) (s : state) (a : A) :
  result (body s) = Ok a -> try_catch body h s = body s.
Proof. intros H. unfold try_catch. now rewrite H. Qed.

Lemma run_try_throw {A} (body : M A) (h : js_error -> M A) (s : state) (e : js_error) :
  result (body s) = Throw e ->
  try_catch body h s = mkRun (result (h e (final (body s)))) (final (h e (final (body s))))
                             (trace (body s) ++ trace (h e (final (body s)))).
Proof. intros H. unfold try_catch. now rewrite H. Qed.

Lemma try_catch_total {A} (body : M A) (h : js_error -> M A) (s : state) :
  (forall e s', exists a, result (h e s') = Ok a) ->
  exists a, result (try_catch body h s) = Ok a.
Proof.
  intros Hh. unfold try_catch.
  destruct (result (body s)) as [a|e] eqn:Hb.
  - exists a. exact Hb.
  - cbn [result]. apply Hh.
Qed.

Lemma returns_ret {A} (a : A) (P : A -> Prop) : P a -> returns (ret a) P.
Proof. intros H s b [= <-]. exact H. Qed.

Lemma returns_bind {A B} (m : M A) (f : A -> M B) (P : B -> Prop) :
  (forall a, returns (f a) P) -> returns (bind m f) P.
Proof.
  intros H s b. unfold bind. destruct (result (m s)) as [a|e]; simpl; [|discriminate].
  apply H.
Qed.

Lemma returns_try {A} (body : M A) (h : js_error -> M A) (P : A -> Prop) :
  returns body P -> (forall e, returns (h e) P) -> returns (try_catch body h) P.
Proof.
  intros Hb Hh s a. unfold try_catch.
  destruct (result (body s)) as [b|e] eqn:Hr; simpl.
  - rewrite Hr. intros [= <-]. now apply (Hb s).
  - apply Hh.
Qed.

Lemma returns_if {A} (c : bool) (m1 m2 : M A) (P : A -> Prop) :
  returns m1 P -> returns m2 P -> returns (if c then m1 else m2) P.
Proof. now destruct c. Qed.

Ltac returns_step :=
  first
    [ apply returns_ret
    | apply returns_bind; intros ?
    | apply returns_try; [|intros ?]
    | apply returns_if
    | match goal with
      | |- returns (let (_, _) := ?p in _) _ => destruct p
      end ].

(** ** The providers *)

Lemma failure_scored (src src' : jsstring) (n : Z) : scored src n (failure src').
Proof. intros H. discriminate H. Qed.

Lemma crossref_scored (rt : runtime) (doi : value) :
  returns (getAbstractFromCrossref rt doi) (scored crossref 9).
Proof.
  unfold getAbstractFromCrossref.
  repeat returns_step; try apply failure_scored.
  intros _. split; reflexivity.
Qed.

Lemma pubmed_scored (rt : runtime) (doi : value) :
  returns (getAbstractFromPubMed rt doi) (scored pubmed 8).
Proof.
  unfold getAbstractFromPubMed.
  repeat returns_step; try apply failure_scored.
  intros _. split; reflexivity.
Qed.

(** ** The selector *)

Lemma ask_source_run (doi : value) (acc : list AbstractResult) (name : jsstring)
      (sourceFunc : value -> M AbstractResult) (s : state) (r : AbstractResult) :
  result (sourceFunc doi s) = Ok r ->
  ask_source doi acc (name, sourceFunc) s
  = mkRun (Ok (if success r then acc ++ [r] else acc)) (final (sourceFunc doi s))
          (trace (sourceFunc doi s) ++ [Sleep 300]).
Proof. intros H. unfold ask_source. now rewrite (run_bind _ _ _ r H). Qed.

Lemma getBestAbstract_result (rt : runtime) (doi : value) (s : state)
      (rA rB : AbstractResult) :
  result (getAbstractFromCrossref rt doi s) = Ok rA ->
  result (getAbstractFromPubMed rt doi (final (getAbstractFromCrossref rt doi s))) = Ok rB ->
  result (getBestAbstract rt doi s) =
  Ok (match (if success rA then [rA] else []) ++ (if success rB then [rB] else []) with
      | first :: others => reduce_best first others
      | [] => none_marker
      end).
Proof.
  intros HA HB. unfold getBestAbstract, sources.
  rewrite run_bind_emit. cbn [result for_of].
  rewrite (run_bind _ _ _ ((if success rA then [rA] else [])
                           ++ (if success rB then [rB] else []))).
  - cbn [result]. now destruct (_ ++ _).
  - rewrite (run_bind _ _ _ (if success rA then [rA] else []))
      by now rewrite (ask_source_run _ _ _ _ _ _ HA).
    cbn [result]. rewrite (ask_source_run _ _ _ _ _ _ HA). cbn [final].
    rewrite (run_bind _ _ _ ((if success rA then [rA] else [])
                             ++ (if success rB then [rB] else [])))
      by (rewrite (ask_source_run _ _ _ _ _ _ HB); cbn [result];
          now destruct (success rA), (success rB)).
    reflexivity.
Qed.

(** For an identifier that converts to a string, a string above all, each
    provider returns a result, a success or a failure marker: whatever is
    thrown under its [try] is caught. *)
Lemma getAbstractFromCrossref_returns (rt : runtime) (doi : value) (s : state)
      (doi_text : jsstring) :
  ToString doi = Ok doi_text ->
  exists r, result (getAbstractFromCrossref rt doi s) = Ok r.
Proof.
  intros Htext. unfold getAbstractFromCrossref.
  destruct (negb (truthy doi) || is_str doi NA); [eexists; reflexivity|].
  rewrite (run_bind_lift _ _ _ _ Htext).
  apply try_catch_total. intros e s'. eexists. reflexivity.
Qed.

Lemma getAbstractFromPubMed_returns (rt : runtime) (doi : value) (s : state)
      (doi_text : jsstring) :
  ToString doi = Ok doi_text ->
  exists r, result (getAbstractFromPubMed rt doi s) = Ok r.
Proof.
  intros Htext. unfold getAbstractFromPubMed.
  destruct (negb (truthy doi) || is_str doi NA); [eexists; reflexivity|].
  cbv zeta. rewrite (run_bind_lift _ _ _ _ Htext).
  apply try_catch_total. intros e s'. eexists. reflexivity.
Qed.

(** So does the selector: one of the providers' successes or the marker. *)
Lemma getBestAbstract_returns (rt : runtime) (doi : value) (s : state)
      (doi_text : jsstring) :
  ToString doi = Ok doi_text ->
  exists r, result (getBestAbstract rt doi s) = Ok r.
Proof.
  intros Htext.
  destruct (getAbstractFromCrossref_returns rt doi s _ Htext) as [rA HA].
  destruct (getAbstractFromPubMed_returns rt doi
              (final (getAbstractFromCrossref rt doi s)) _ Htext) as [rB HB].
  rewrite (getBestAbstract_result rt doi s rA rB HA HB). eexists. reflexivity.
Qed.

Example sample_lookup :
  result (getBestAbstract sample_runtime (Str sample_doi) start) = Ok crossref_answer.
Proof. vm_compute. reflexivity. Qed.

Example sample_lookup_trace :
  pauses (trace (getBestAbstract sample_runtime (Str sample_doi) start)) = [300%Z; 300%Z]
  /\ List.length (http_requests (trace (getBestAbstract sample_runtime (Str sample_doi) start)))
     = 3%nat.
Proof. vm_compute. split; reflexivity. Qed.

(** C3: when both providers succeed for an identifier, [getBestAbstract]
    returns the result of the first one, crossref. *)
Theorem getBestAbstract_prefers_crossref (rt : runtime) (doi : value) (s : state)
        (rA rB : AbstractResult) :
  result (getAbstractFromCrossref rt doi s) = Ok rA ->
  success rA = true ->
  result (getAbstractFromPubMed rt doi (final (getAbstractFromCrossref rt doi s))) = Ok rB ->
  success rB = true ->
  result (getBestAbstract rt doi s) = Ok rA
  /\ quality_score rA = Some 9%Z /\ quality_score rB = Some 8%Z.
Proof.
  intros HA SA HB SB.
  destruct (crossref_scored rt doi _ _ HA SA) as [_ QA].
  destruct (pubmed_scored rt doi _ _ HB SB) as [_ QB].
  rewrite (getBestAbstract_result rt doi s rA rB HA HB), SA, SB.
  repeat split; try assumption.
  unfold reduce_best, score. simpl. now rewrite QA, QB.
Qed.

Lemma getBestAbstract_prefers_crossref_witness :
  result (getBestAbstract sample_runtime (Str sample_doi) start) = Ok crossref_answer
  /\ quality_score crossref_answer = Some 9%Z
  /\ quality_score pubmed_answer = Some 8%Z.
Proof.
  apply (getBestAbstract_prefers_crossref sample_runtime (Str sample_doi) start
           crossref_answer pubmed_answer).
  - vm_compute. reflexivity.
  - reflexivity.
  - vm_compute. reflexivity.
  - reflexivity.
Defined.

(** C4: when neither provider succeeds, [getBestAbstract] returns the marker
    with source ['none'] and success false. *)
Theorem getBestAbstract_none (rt : runtime) (doi : value) (s : state)
        (rA rB : AbstractResult) :
  result (getAbstractFromCrossref rt doi s) = Ok rA ->
  success rA = false ->
  result (getAbstractFromPubMed rt doi (final (getAbstractFromCrossref rt doi s))) = Ok rB ->
  success rB = false ->
  result (getBestAbstract rt doi s) = Ok none_marker
  /\ source none_marker = utf16 "none" /\ success none_marker = false.
Proof.
  intros HA SA HB SB.
  rewrite (getBestAbstract_result rt doi s rA rB HA HB), SA, SB.
  repeat split.
Qed.

Lemma getBestAbstract_none_witness :
  result (getBestAbstract offline_runtime (Str sample_doi) start) = Ok none_marker
  /\ source none_marker = utf16 "none" /\ success none_marker = false.
Proof.
  apply (getBestAbstract_none offline_runtime (Str sample_doi) start
           (failure crossref) (failure pubmed)).
  - vm_compute. reflexivity.
  - reflexivity.
  - vm_compute. reflexivity.
  - reflexivity.
Defined.

(** ** The line handler *)

Lemma stdout_lines_app (a b : list event) :
  stdout_lines (a ++ b) = stdout_lines a ++ stdout_lines b.
Proof.
  induction a as [|ev a IH]; [reflexivity|].
  destruct ev; simpl; now rewrite IH.
Qed.

(** The [catch] block of the line handler never writes its response: naming
    [request] throws before anything is built. *)
Lemma on_line_catch_run (line : jsstring) (error : js_error) (s : state) :
  on_line_catch line error s
  = mkRun (Throw request_not_defined) s
          [Stderr (utf16 "❌ 요청 처리 오류: " ++ message error)].
Proof. reflexivity. Qed.

Lemma on_line_of_throw (rt : runtime) (line : jsstring) (s s' : state)
      (e : js_error) (tr : list event) :
  on_line_try rt line s = mkRun (Throw e) s' tr ->
  on_line rt line s
  = mkRun (Throw request_not_defined) s'
          (tr ++ [Stderr (utf16 "❌ 요청 처리 오류: " ++ message e)]).
Proof.
  intros H. unfold on_line.
  rewrite (run_try_throw _ _ _ e) by now rewrite H.
  rewrite H. cbn [final result trace]. now rewrite on_line_catch_run.
Qed.

Lemma on_line_of_ok (rt : runtime) (line : jsstring) (s s' : state) (tr : list event) :
  on_line_try rt line s = mkRun (Ok tt) s' tr ->
  on_line rt line s = mkRun (Ok tt) s' tr.
Proof.
  intros H. unfold on_line. rewrite (run_try_ok _ _ _ tt) by now rewrite H.
  exact H.
Qed.

Lemma get_prop_defined (v x : value) (key key' : jsstring) :
  get_prop v key = Ok x -> exists y, get_prop v key' = Ok y.
Proof.
  destruct v; simpl; try discriminate; intros _;
    try destruct (str_eqb key' (utf16 "length")); eauto.
Qed.

(** C1 fails on the code: a line that [JSON.parse] rejects reaches the
    [catch] block, which throws a ReferenceError of its own; the handler ends
    rejected and nothing is written on the protocol stream. *)
Theorem unparsable_line_writes_nothing (rt : runtime) (line : jsstring) (s : state)
        (e : js_error) :
  is_empty (trim line) = false ->
  JSON_parse rt (trim line) = Throw e ->
  result (on_line rt line s) = Throw request_not_defined
  /\ stdout_lines (trace (on_line rt line s)) = [].
Proof.
  intros Hne Hp.
  assert (Ht : on_line_try rt line s
               = mkRun (Throw e) s [Stderr (utf16 "📨 원시 라인 수신: " ++ trim line)]).
  { unfold on_line_try. rewrite Hne. unfold console_error.
    now rewrite run_bind_emit, (run_bind_lift_throw _ _ _ _ Hp). }
  rewrite (on_line_of_throw _ _ _ _ _ _ Ht). split; reflexivity.
Qed.

Lemma unparsable_line_writes_nothing_witness :
  result (on_line sample_runtime line_malformed start) = Throw request_not_defined
  /\ stdout_lines (trace (on_line sample_runtime line_malformed start)) = [].
Proof.
  apply (unparsable_line_writes_nothing sample_runtime line_malformed start
           (mkError SyntaxError (utf16 "Unexpected end of JSON input"))).
  - vm_compute. reflexivity.
  - vm_compute. reflexivity.
Defined.

Lemma dispatch_notification (rt : runtime) (request : value) :
  dispatch rt request (Str notifications_initialized)
  = (console_error (utf16 "✅ 초기화 완료 알림 수신") ;; ret Null).
Proof. reflexivity. Qed.

(** C7: a line whose method is [notifications/initialized] puts nothing on the
    protocol stream. *)
Theorem notification_writes_nothing (rt : runtime) (line : jsstring) (s : state)
        (request : value) :
  JSON_parse rt (trim line) = Ok request ->
  get_prop request (utf16 "method") = Ok (Str notifications_initialized) ->
  stdout_lines (trace (on_line rt line s)) = [].
Proof.
  intros Hp Hm.
  destruct (is_empty (trim line)) eqn:Hne.
  { rewrite (on_line_of_ok rt line s s [Stderr (utf16 "📭 빈 라인 무시")]); [reflexivity|].
    unfold on_line_try. now rewrite Hne. }
  destruct (get_prop_defined _ _ _ (utf16 "id") Hm) as [id Hid].
  destruct (ToString id) as [id_text|e] eqn:Hs.
  - rewrite (on_line_of_ok rt line s s
               [Stderr (utf16 "📨 원시 라인 수신: " ++ trim line);
                Stderr (utf16 "📨 요청 수신: " ++ notifications_initialized
                        ++ utf16 " (ID: " ++ id_text ++ utf16 ")");
                Stderr (utf16 "✅ 초기화 완료 알림 수신")]); [reflexivity|].
    unfold on_line_try. rewrite Hne. unfold console_error.
    rewrite run_bind_emit, (run_bind_lift _ _ _ _ Hp), (run_bind_lift _ _ _ _ Hm).
    rewrite (run_bind_lift _ _ _ notifications_initialized eq_refl).
    rewrite (run_bind_lift _ _ _ _ Hid), (run_bind_lift _ _ _ _ Hs).
    rewrite run_bind_emit, dispatch_notification. reflexivity.
  - rewrite (on_line_of_throw rt line s s e
               [Stderr (utf16 "📨 원시 라인 수신: " ++ trim line)]); [reflexivity|].
    unfold on_line_try. rewrite Hne. unfold console_error.
    rewrite run_bind_emit, (run_bind_lift _ _ _ _ Hp), (run_bind_lift _ _ _ _ Hm).
    rewrite (run_bind_lift _ _ _ notifications_initialized eq_refl).
    rewrite (run_bind_lift _ _ _ _ Hid), (run_bind_lift_throw _ _ _ _ Hs). reflexivity.
Qed.

Lemma notification_writes_nothing_witness :
  stdout_lines (trace (on_line sample_runtime line_notification start)) = [].
Proof.
  apply (notification_writes_nothing sample_runtime line_notification start
           (Obj [(utf16 "jsonrpc", Str (utf16 "2.0"));
                 (utf16 "method", Str (utf16 "notifications/initialized"))])).
  - vm_compute. reflexivity.
  - vm_compute. reflexivity.
Defined.

Example notification_run :
  result (on_line sample_runtime line_notification start) = Ok tt.
Proof. vm_compute. reflexivity. Qed.

(** C2 fails on the code: the template literal of line 450 throws on this
    tool name outside the [try] of [handleCallTool]; the error reaches the
    [catch] block of the line handler, which throws in turn, and the request
    gets no response line. *)
Theorem odd_tool_name_gets_no_response (rt : runtime) (line : jsstring) (s : state) :
  is_empty (trim line) = false ->
  JSON_parse rt (trim line) = Ok odd_name_request ->
  result (on_line rt line s) = Throw request_not_defined
  /\ stdout_lines (trace (on_line rt line s)) = [].
Proof.
  intros Hne Hp.
  rewrite (on_line_of_throw rt line s s cannot_convert
             [Stderr (utf16 "📨 원시 라인 수신: " ++ trim line);
              Stderr (utf16 "📨 요청 수신: tools/call (ID: 1)")]).
  - split; reflexivity.
  - unfold on_line_try. rewrite Hne. unfold console_error.
    rewrite run_bind_emit, (run_bind_lift _ _ _ _ Hp). reflexivity.
Qed.

Lemma odd_tool_name_gets_no_response_witness :
  result (on_line sample_runtime line_odd_name start) = Throw request_not_defined
  /\ stdout_lines (trace (on_line sample_runtime line_odd_name start)) = [].
Proof.
  apply (odd_tool_name_gets_no_response sample_runtime line_odd_name start).
  - vm_compute. reflexivity.
  - vm_compute. reflexivity.
Defined.

(** The same happens to the line [null], which [JSON.parse] accepts: reading
    [request.method] throws. *)
Lemma null_line_gets_no_response (rt : runtime) (line : jsstring) (s : state) :
  is_empty (trim line) = false ->
  JSON_parse rt (trim line) = Ok Null ->
  result (on_line rt line s) = Throw request_not_defined
  /\ stdout_lines (trace (on_line rt line s)) = [].
Proof.
  intros Hne Hp.
  rewrite (on_line_of_throw rt line s s (null_deref (utf16 "null") (utf16 "method"))
             [Stderr (utf16 "📨 원시 라인 수신: " ++ trim line)]).
  - split; reflexivity.
  - unfold on_line_try. rewrite Hne. unfold console_error.
    rewrite run_bind_emit, (run_bind_lift _ _ _ _ Hp). reflexivity.
Qed.

(** ** tools/call *)

Lemma is_str_neq (s lit : jsstring) : s <> lit -> is_str (Str s) lit = false.
Proof. intros H. simpl. destruct (str_eqb_spec s lit); congruence. Qed.

(** The last branch of [handleCallTool], for any name that converts to a
    string: an absent name is reported as [undefined]. *)
Lemma unknown_tool_run (rt : runtime) (request : value) (s : state)
      (params name id : value) (name_text : jsstring) :
  get_prop request (utf16 "params") = Ok params ->
  get_prop (or_else params (Obj [])) (utf16 "name") = Ok name ->
  ToString name = Ok name_text ->
  is_str name (utf16 "search_papers") = false ->
  is_str name (utf16 "get_abstract_by_doi") = false ->
  get_prop request (utf16 "id") = Ok id ->
  handleCallTool rt request s
  = mkRun (Ok (rpc_result id
                 (Obj [(utf16 "content", Arr [text_block (unknown_tool ++ name_text)])])))
          s [Stderr (utf16 "🛠️ 도구 호출: " ++ name_text)].
Proof.
  intros Hparams Hname Htext Hn1 Hn2 Hid.
  destruct (get_prop_defined _ _ _ (utf16 "arguments") Hname) as [args Hargs].
  unfold handleCallTool.
  rewrite (run_bind_lift _ _ _ _ Hparams), (run_bind_lift _ _ _ _ Hname).
  rewrite (run_bind_lift _ _ _ _ Hargs), (run_bind_lift _ _ _ _ Htext).
  unfold console_error. rewrite run_bind_emit. rewrite Hn1, Hn2.
  rewrite (run_bind _ _ _ (Arr [text_block (unknown_tool ++ name_text)])) by reflexivity.
  cbn [result final trace try_catch ret]. now rewrite (run_bind_lift _ _ _ _ Hid).
Qed.

(** C8, the claim as written, fails where the tool name does not convert
    to a string: the name is logged by a template literal on line 450, before
    the [try] of line 453.  For a name that is an object with an own property
    [toString], which is neither of the registered names, [handleCallTool] throws a TypeError and returns no
    response, and the line handler writes no line for the request. *)
Lemma unknown_tool_odd_name_unanswered :
  get_prop odd_name_request (utf16 "params")
  = Ok (Obj [(utf16 "name", Obj [(utf16 "toString", Num 1)])])
  /\ is_str (Obj [(utf16 "toString", Num 1)]) (utf16 "search_papers") = false
  /\ is_str (Obj [(utf16 "toString", Num 1)]) (utf16 "get_abstract_by_doi") = false
  /\ result (handleCallTool sample_runtime odd_name_request start) = Throw cannot_convert
  /\ JSON_parse sample_runtime (trim line_odd_name) = Ok odd_name_request
  /\ stdout_lines (trace (on_line sample_runtime line_odd_name start)) = [].
Proof. vm_compute. repeat split. Qed.

(** C8, as amended: a [tools/call] request whose tool name converts to a
    string (a string, a number, a missing name, ...) and is neither of the two
    registered names is answered with a result and no error: the response has
    the three properties [jsonrpc], [id] and [result], and the content of the
    result is one text block that names the tool as the template literal
    prints it. *)
Theorem unknown_tool_named (rt : runtime) (request : value) (s : state)
        (params name : value) (name_text : jsstring) :
  get_prop request (utf16 "params") = Ok params ->
  get_prop (or_else params (Obj [])) (utf16 "name") = Ok name ->
  ToString name = Ok name_text ->
  is_str name (utf16 "search_papers") = false ->
  is_str name (utf16 "get_abstract_by_doi") = false ->
  exists id,
    get_prop request (utf16 "id") = Ok id
    /\ result (handleCallTool rt request s)
       = Ok (Obj [(utf16 "jsonrpc", Str (utf16 "2.0"));
                  (utf16 "id", id);
                  (utf16 "result",
                   Obj [(utf16 "content",
                         Arr [Obj [(utf16 "type", Str (utf16 "text"));
                                   (utf16 "text",
                                    Str (utf16 "알 수 없는 도구: " ++ name_text))]])])]).
Proof.
  intros Hparams Hname Htext Hn1 Hn2.
  destruct (get_prop_defined _ _ _ (utf16 "id") Hparams) as [id Hid].
  exists id. split; [exact Hid|].
  rewrite (unknown_tool_run rt request s params name id name_text Hparams Hname
             Htext Hn1 Hn2 Hid).
  reflexivity.
Qed.

Lemma unknown_tool_named_witness :
  exists id,
    get_prop (request_of 7 "tools/call" [(utf16 "name", Str (utf16 "summarize"))])
             (utf16 "id") = Ok id
    /\ result (handleCallTool sample_runtime
                 (request_of 7 "tools/call" [(utf16 "name", Str (utf16 "summarize"))])
                 start)
       = Ok (Obj [(utf16 "jsonrpc", Str (utf16 "2.0"));
                  (utf16 "id", id);
                  (utf16 "result",
                   Obj [(utf16 "content",
                         Arr [Obj [(utf16 "type", Str (utf16 "text"));
                                   (utf16 "text",
                                    Str (utf16 "알 수 없는 도구: "
                                         ++ utf16 "summarize"))]])])]).
Proof.
  apply (unknown_tool_named sample_runtime _ start
           (Obj [(utf16 "name", Str (utf16 "summarize"))]) (Str (utf16 "summarize"))).
  - vm_compute. reflexivity.
  - vm_compute. reflexivity.
  - reflexivity.
  - vm_compute. reflexivity.
  - vm_compute. reflexivity.
Defined.

(** A request without a tool name is answered in the same way, the tool
    being named [undefined]. *)
Example unknown_tool_absent_name :
  result (handleCallTool sample_runtime (request_of 8 "tools/call" []) start)
  = Ok (Obj [(utf16 "jsonrpc", Str (utf16 "2.0"));
             (utf16 "id", Num 8);
             (utf16 "result",
              Obj [(utf16 "content",
                    Arr [Obj [(utf16 "type", Str (utf16 "text"));
                              (utf16 "text",
                               Str (utf16 "알 수 없는 도구: undefined"))]])])]).
Proof. vm_compute. reflexivity. Qed.

Example unknown_tool_line :
  stdout_lines (trace (on_line sample_runtime line_unknown_tool start))
  = [rpc_result (Num 7)
       (Obj [(utf16 "content", Arr [text_block (utf16 "알 수 없는 도구: summarize")])])].
Proof. vm_compute. reflexivity. Qed.

(** C10: [search_papers] without a query, or with the empty string, is
    answered with a result and no error (the response has the three
    properties [jsonrpc], [id] and [result]) whose content is one text block
    with the request for a keyword of line 480; the tool call neither enters
    [searchScopus] or [getBestAbstract] nor sends a request. *)
Theorem missing_query_prompts (rt : runtime) (request : value) (s : state)
        (params arguments_ query : value) :
  get_prop request (utf16 "params") = Ok params ->
  get_prop (or_else params (Obj [])) (utf16 "name") = Ok (Str (utf16 "search_papers")) ->
  get_prop (or_else params (Obj [])) (utf16 "arguments") = Ok arguments_ ->
  get_prop (or_else arguments_ (Obj [])) (utf16 "query") = Ok query ->
  query = Undefined \/ query = Str [] ->
  exists id,
    get_prop request (utf16 "id") = Ok id
    /\ result (handleCallTool rt request s)
       = Ok (Obj [(utf16 "jsonrpc", Str (utf16 "2.0"));
                  (utf16 "id", id);
                  (utf16 "result",
                   Obj [(utf16 "content",
                         Arr [Obj [(utf16 "type", Str (utf16 "text"));
                                   (utf16 "text",
                                    Str (utf16 "검색할 키워드를 입력해주세요."))]])])])
    /\ calls (trace (handleCallTool rt request s)) = []
    /\ http_requests (trace (handleCallTool rt request s)) = []
    /\ pauses (trace (handleCallTool rt request s)) = [].
Proof.
  intros Hparams Hname Hargs Hquery Hq.
  destruct (get_prop_defined _ _ _ (utf16 "id") Hparams) as [id Hid].
  destruct (get_prop_defined _ _ _ (utf16 "count") Hquery) as [count Hcount].
  exists id. split; [exact Hid|].
  assert (Hrun : handleCallTool rt request s
                 = mkRun (Ok (rpc_result id
                                (Obj [(utf16 "content", Arr [text_block ask_for_keyword])])))
                         s [Stderr (utf16 "🛠️ 도구 호출: search_papers")]).
  { unfold handleCallTool.
    rewrite (run_bind_lift _ _ _ _ Hparams), (run_bind_lift _ _ _ _ Hname).
    rewrite (run_bind_lift _ _ _ _ Hargs).
    rewrite (run_bind_lift _ _ _ (utf16 "search_papers") eq_refl).
    unfold console_error. rewrite run_bind_emit. cbn [result is_str].
    rewrite str_eqb_refl.
    assert (Htool : searchPapersTool rt (or_else arguments_ (Obj [])) s
                    = mkRun (Ok (Arr [text_block ask_for_keyword])) s []).
    { unfold searchPapersTool.
      rewrite (run_bind_lift _ _ _ _ Hquery), (run_bind_lift _ _ _ _ Hcount).
      now destruct Hq as [-> | ->]. }
    rewrite (run_bind _ _ _ (Arr [text_block ask_for_keyword]))
      by (rewrite (run_try_ok _ _ _ (Arr [text_block ask_for_keyword])); now rewrite Htool).
    rewrite (run_try_ok _ _ _ (Arr [text_block ask_for_keyword])) by now rewrite Htool.
    rewrite Htool. cbn [result final trace].
    now rewrite (run_bind_lift _ _ _ _ Hid). }
  rewrite Hrun. repeat split.
Qed.

Lemma missing_query_prompts_witness :
  exists id,
    get_prop (request_of 4 "tools/call"
                [(utf16 "name", Str (utf16 "search_papers"));
                 (utf16 "arguments", Obj [])]) (utf16 "id") = Ok id
    /\ result (handleCallTool sample_runtime
                 (request_of 4 "tools/call"
                    [(utf16 "name", Str (utf16 "search_papers"));
                     (utf16 "arguments", Obj [])]) start)
       = Ok (Obj [(utf16 "jsonrpc", Str (utf16 "2.0"));
                  (utf16 "id", id);
                  (utf16 "result",
                   Obj [(utf16 "content",
                         Arr [Obj [(utf16 "type", Str (utf16 "text"));
                                   (utf16 "text",
                                    Str (utf16 "검색할 키워드를 입력해주세요."))]])])])
    /\ calls (trace (handleCallTool sample_runtime
                       (request_of 4 "tools/call"
                          [(utf16 "name", Str (utf16 "search_papers"));
                           (utf16 "arguments", Obj [])]) start)) = []
    /\ http_requests (trace (handleCallTool sample_runtime
                       (request_of 4 "tools/call"
                          [(utf16 "name", Str (utf16 "search_papers"));
                           (utf16 "arguments", Obj [])]) start)) = []
    /\ pauses (trace (handleCallTool sample_runtime
                       (request_of 4 "tools/call"
                          [(utf16 "name", Str (utf16 "search_papers"));
                           (utf16 "arguments", Obj [])]) start)) = [].
Proof.
  apply (missing_query_prompts sample_runtime _ start
           (Obj [(utf16 "name", Str (utf16 "search_papers"));
                 (utf16 "arguments", Obj [])])
           (Obj []) Undefined).
  - vm_compute. reflexivity.
  - vm_compute. reflexivity.
  - vm_compute. reflexivity.
  - vm_compute. reflexivity.
  - left. reflexivity.
Defined.

(** ** search_papers *)

Lemma trace_bind_prefix {A B} (m : M A) (f : A -> M B) (s : state) :
  exists rest, trace (bind m f s) = trace (m s) ++ rest.
Proof.
  unfold bind. destruct (result (m s)); cbn [trace]; eauto.
  exists []. now rewrite app_nil_r.
Qed.

Lemma trace_try_prefix {A} (body : M A) (h : js_error -> M A) (s : state) :
  exists rest, trace (try_catch body h s) = trace (body s) ++ rest.
Proof.
  unfold try_catch. destruct (result (body s)); cbn [trace]; eauto.
  exists []. now rewrite app_nil_r.
Qed.

Lemma trace_axios_get (rt : runtime) (req : http_request) (s : state) :
  trace (axios_get rt req s) = [HttpGet req].
Proof. unfold axios_get. now destruct (axios_respond rt (http_calls s) req). Qed.

Lemma or_else_truthy (a b : value) : truthy a = true -> or_else a b = a.
Proof. intros H. unfold or_else. now rewrite H. Qed.

Lemma or_else_falsy (a b : value) : truthy a = false -> or_else a b = b.
Proof. intros H. unfold or_else. now rewrite H. Qed.

(** [searchScopus] starts by sending its one request. *)
Lemma searchScopus_trace (rt : runtime) (query count : value) (s : state) :
  exists rest,
    trace (searchScopus rt query count s)
    = Call "searchScopus" [query; count]
        :: HttpGet (scopus_request rt query (default_count count)) :: rest.
Proof.
  unfold searchScopus. rewrite run_bind_emit. cbn [trace].
  match goal with
  | |- context [try_catch ?b ?h s] =>
      destruct (trace_try_prefix b h s) as [r1 H1];
      destruct (trace_bind_prefix (axios_get rt (scopus_request rt query (default_count count)))
                  (fun response : Z * value =>
                     let (status, data) := response in
                     if (status =? 200)%Z then ret data else ret (Obj [])) s) as [r2 H2]
  end.
  rewrite H1, H2, trace_axios_get. simpl. eauto.
Qed.

Lemma searchPapersWithAbstracts_trace (rt : runtime) (query count : value) (s : state) :
  exists rest,
    trace (searchPapersWithAbstracts rt query count s)
    = Call "searchScopus" [query; default_count count]
        :: HttpGet (scopus_request rt query (default_count (default_count count))) :: rest.
Proof.
  unfold searchPapersWithAbstracts.
  match goal with
  | |- context [bind ?m ?f s] => destruct (trace_bind_prefix m f s) as [r1 H1]
  end.
  destruct (searchScopus_trace rt query (default_count count) s) as [r2 H2].
  rewrite H1, H2. simpl. eauto.
Qed.

(** C9: a [count] of 0, or any other falsy one, is replaced by 10 before the
    search: the request sent to the primary registry asks for 10 entries, and
    the call runs exactly as one that gives no [count]. *)
Theorem falsy_count_searches_10 (rt : runtime) (arguments_ : value) (s : state)
        (query count : value) (query_text : jsstring) :
  get_prop arguments_ (utf16 "query") = Ok query ->
  truthy query = true ->
  ToString query = Ok query_text ->
  get_prop arguments_ (utf16 "count") = Ok count ->
  truthy count = false ->
  (exists rest,
      trace (searchPapersTool rt arguments_ s)
      = Stderr (search_log query_text (utf16 "10"))
          :: Call "searchScopus" [query; Num 10]
          :: HttpGet (scopus_request rt query (Num 10)) :: rest)
  /\ searchPapersTool rt arguments_ s
     = searchPapersTool rt (Obj [(utf16 "query", query)]) s.
Proof.
  intros Hquery Hq Htext Hcount Hfalsy.
  assert (Hbody : searchPapersTool rt arguments_ s
                  = (console_error (search_log query_text (utf16 "10")) ;;
                     papers <- searchPapersWithAbstracts rt query (Num 10) ;;
                     if (List.length papers =? 0)%nat then
                       ret (Arr [text_block (utf16 "'" ++ query_text
                                             ++ utf16 "' 키워드로 검색된 논문이 없습니다.")])
                     else
                       resultText <- lift (format_papers 0 papers
                                             (utf16 "'" ++ query_text ++ utf16 "' 키워드로 "
                                              ++ Number_toString (Z.of_nat (List.length papers))
                                              ++ utf16 "개 논문을 찾았습니다:" ++ NL ++ NL)) ;;
                       ret (Arr [text_block resultText])) s).
  { unfold searchPapersTool.
    rewrite (run_bind_lift _ _ _ _ Hquery), (run_bind_lift _ _ _ _ Hcount).
    cbv zeta. rewrite (or_else_truthy _ _ Hq), (or_else_falsy _ _ Hfalsy), Hq.
    cbn [negb].
    rewrite (run_bind_lift _ _ _ _ Htext).
    rewrite (run_bind_lift _ _ _ (utf16 "10") eq_refl). reflexivity. }
  split.
  - rewrite Hbody. unfold console_error. rewrite run_bind_emit. cbn [trace].
    match goal with
    | |- context [bind ?m ?f s] => destruct (trace_bind_prefix m f s) as [r1 H1]
    end.
    destruct (searchPapersWithAbstracts_trace rt query (Num 10) s) as [r2 H2].
    rewrite H1, H2. simpl. eauto.
  - rewrite Hbody. unfold searchPapersTool.
    rewrite (run_bind_lift _ _ _ query) by reflexivity.
    rewrite (run_bind_lift _ _ _ Undefined) by reflexivity.
    cbv zeta. rewrite (or_else_truthy _ _ Hq), (or_else_falsy Undefined _ eq_refl), Hq.
    cbn [negb].
    rewrite (run_bind_lift _ _ _ _ Htext).
    rewrite (run_bind_lift _ _ _ (utf16 "10") eq_refl). reflexivity.
Qed.

Lemma falsy_count_searches_10_witness :
  (exists rest,
      trace (searchPapersTool sample_runtime (search_arguments (Num 0)) start)
      = Stderr (search_log (utf16 "graphene") (utf16 "10"))
          :: Call "searchScopus" [Str (utf16 "graphene"); Num 10]
          :: HttpGet (scopus_request sample_runtime (Str (utf16 "graphene")) (Num 10))
          :: rest)
  /\ searchPapersTool sample_runtime (search_arguments (Num 0)) start
     = searchPapersTool sample_runtime
         (Obj [(utf16 "query", Str (utf16 "graphene"))]) start.
Proof.
  apply (falsy_count_searches_10 sample_runtime (search_arguments (Num 0)) start
           (Str (utf16 "graphene")) (Num 0) (utf16 "graphene")).
  - vm_compute. reflexivity.
  - reflexivity.
  - reflexivity.
  - vm_compute. reflexivity.
  - reflexivity.
Defined.

Example search_count_0_line :
  stdout_lines (trace (on_line sample_runtime (line_search "0") start))
  = [rpc_result (Num 2)
       (Obj [(utf16 "content",
              Arr [text_block (utf16 "'graphene' 키워드로 검색된 논문이 없습니다.")])])]
  /\ calls (trace (on_line sample_runtime (line_search "0") start)) = ["searchScopus"%string].
Proof. vm_compute. split; reflexivity. Qed.

(** ** What the tools write *)

Lemma emits_ret {A} (a : A) (P : event -> Prop) : emits (ret a) P.
Proof. intros s. constructor. Qed.

Lemma emits_lift {A} (o : outcome A) (P : event -> Prop) : emits (lift o) P.
Proof. intros s. constructor. Qed.

Lemma emits_emit (ev : event) (P : event -> Prop) : P ev -> emits (emit ev) P.
Proof. intros H s. repeat constructor. exact H. Qed.

Lemma emits_bind {A B} (m : M A) (f : A -> M B) (P : event -> Prop) :
  emits m P -> (forall a, emits (f a) P) -> emits (bind m f) P.
Proof.
  intros Hm Hf s. unfold bind. specialize (Hm s).
  destruct (result (m s)) as [a|e]; cbn [trace]; [|exact Hm].
  apply Forall_app. split; [exact Hm|apply Hf].
Qed.

Lemma emits_try {A} (body : M A) (h : js_error -> M A) (P : event -> Prop) :
  emits body P -> (forall e, emits (h e) P) -> emits (try_catch body h) P.
Proof.
  intros Hb Hh s. unfold try_catch. specialize (Hb s).
  destruct (result (body s)) as [a|e]; cbn [trace]; [exact Hb|].
  apply Forall_app. split; [exact Hb|apply Hh].
Qed.

Lemma emits_if {A} (c : bool) (m1 m2 : M A) (P : event -> Prop) :
  emits m1 P -> emits m2 P -> emits (if c then m1 else m2) P.
Proof. now destruct c. Qed.

Lemma emits_axios_get (rt : runtime) (req : http_request) (P : event -> Prop) :
  P (HttpGet req) -> emits (axios_get rt req) P.
Proof.
  intros H s. rewrite trace_axios_get. repeat constructor. exact H.
Qed.

Lemma emits_for_of {A B} (xs : list A) (acc : B) (body : B -> A -> M B)
      (P : event -> Prop) :
  (forall acc x, emits (body acc x) P) -> emits (for_of xs acc body) P.
Proof.
  intros H. revert acc. induction xs as [|x xs IH]; intros acc; simpl.
  - apply emits_ret.
  - apply emits_bind; [apply H|intros acc'; apply IH].
Qed.

Ltac emits_step :=
  first
    [ apply emits_ret
    | apply emits_lift
    | apply emits_emit; exact I
    | apply emits_axios_get; exact I
    | apply emits_bind; [|intros ?]
    | apply emits_try; [|intros ?]
    | apply emits_if
    | apply emits_for_of; intros ? ?
    | match goal with
      | |- emits (let (_, _) := ?p in _) _ => destruct p
      | |- emits (match ?l with [] => _ | _ :: _ => _ end) _ => destruct l
      end ].

Lemma silent_stdout (tr : list event) : Forall silent tr -> stdout_lines tr = [].
Proof.
  induction 1 as [|ev tr Hev _ IH]; [reflexivity|].
  destruct ev; simpl; auto. destruct Hev.
Qed.

Lemma getAbstractFromCrossref_silent (rt : runtime) (doi : value) :
  emits (getAbstractFromCrossref rt doi) silent.
Proof. unfold getAbstractFromCrossref, console_error. repeat emits_step. Qed.

Lemma getAbstractFromPubMed_silent (rt : runtime) (doi : value) :
  emits (getAbstractFromPubMed rt doi) silent.
Proof. unfold getAbstractFromPubMed, console_error. repeat emits_step. Qed.

Lemma getBestAbstract_silent (rt : runtime) (doi : value) :
  emits (getBestAbstract rt doi) silent.
Proof.
  unfold getBestAbstract, sources, sleep. cbn [for_of]. unfold ask_source, sleep.
  repeat emits_step;
    first [apply getAbstractFromCrossref_silent | apply getAbstractFromPubMed_silent].
Qed.

Lemma searchPapersWithAbstracts_silent (rt : runtime) (query count : value) :
  emits (searchPapersWithAbstracts rt query count) silent.
Proof.
  unfold searchPapersWithAbstracts, searchScopus, assemble, console_error.
  repeat emits_step; apply getBestAbstract_silent.
Qed.

Lemma handleCallTool_silent (rt : runtime) (request : value) :
  emits (handleCallTool rt request) silent.
Proof.
  unfold handleCallTool, searchPapersTool, getAbstractByDoiTool, console_error.
  repeat emits_step;
    first [apply searchPapersWithAbstracts_silent | apply getBestAbstract_silent].
Qed.

(** ** Requests that are answered *)

(** Once the tool name is logged, [handleCallTool] always returns a result:
    whatever a tool throws becomes the text of the content. *)
Lemma handleCallTool_responds (rt : runtime) (request : value) (s : state)
      (params name id : value) (name_text : jsstring) :
  get_prop request (utf16 "params") = Ok params ->
  get_prop (or_else params (Obj [])) (utf16 "name") = Ok name ->
  ToString name = Ok name_text ->
  get_prop request (utf16 "id") = Ok id ->
  exists content,
    result (handleCallTool rt request s)
    = Ok (rpc_result id (Obj [(utf16 "content", content)])).
Proof.
  intros Hparams Hname Htext Hid.
  destruct (get_prop_defined _ _ _ (utf16 "arguments") Hname) as [args Hargs].
  unfold handleCallTool.
  rewrite (run_bind_lift _ _ _ _ Hparams), (run_bind_lift _ _ _ _ Hname).
  rewrite (run_bind_lift _ _ _ _ Hargs), (run_bind_lift _ _ _ _ Htext).
  unfold console_error. rewrite run_bind_emit. cbn [result].
  match goal with
  | |- context [bind (try_catch ?b ?h) ?k s] =>
      destruct (try_catch_total b h s) as [content Hc];
      [ intros e s'; eexists; reflexivity
      | exists content; rewrite (run_bind _ _ _ content Hc) ]
  end.
  cbn [result]. now rewrite (run_bind_lift _ _ _ _ Hid).
Qed.

Lemma handleInitialize_run (request id : value) (s : state) :
  get_prop request (utf16 "id") = Ok id ->
  handleInitialize request s
  = mkRun (Ok (rpc_result id
                 (Obj [(utf16 "protocolVersion", Str (utf16 "2024-11-05"));
                       (utf16 "capabilities", Obj [(utf16 "tools", Obj [])]);
                       (utf16 "serverInfo",
                        Obj [(utf16 "name", Str (utf16 "abstract-search"));
                             (utf16 "version", Str (utf16 "1.0.0"))])])))
          (mkState (http_calls s) true)
          [Stderr (utf16 "🔧 MCP 서버 초기화 중...")].
Proof.
  intros Hid. unfold handleInitialize, console_error, set_initialized, bind, emit, lift.
  cbn [result final trace]. rewrite Hid. reflexivity.
Qed.

Lemma handleListTools_run (request id : value) (s : state) :
  get_prop request (utf16 "id") = Ok id ->
  handleListTools request s
  = mkRun (Ok (rpc_result id (Obj [(utf16 "tools", tools)]))) s
          [Stderr (utf16 "📋 도구 목록 요청...")].
Proof.
  intros Hid. unfold handleListTools, console_error, bind, emit, lift.
  cbn [result final trace]. rewrite Hid. reflexivity.
Qed.

(** The last branch of the dispatch. *)
Lemma method_not_found_run (request id : value) (method : jsstring) (s : state) :
  get_prop request (utf16 "id") = Ok id ->
  (method_text <- lift (ToString (Str method)) ;;
   console_error (utf16 "❌ 알 수 없는 메서드: " ++ method_text) ;;
   id <- lift (get_prop request (utf16 "id")) ;;
   ret (rpc_error id (-32601) (utf16 "Method not found: " ++ method_text))) s
  = mkRun (Ok (rpc_error id (-32601) (utf16 "Method not found: " ++ method))) s
          [Stderr (utf16 "❌ 알 수 없는 메서드: " ++ method)].
Proof.
  intros Hid. unfold console_error, bind, emit, lift.
  cbn [result final trace ToString]. rewrite Hid. reflexivity.
Qed.

(** When the block of the [try] gets a response from the dispatch, the
    handler writes it on one line. *)
Lemma on_line_writes (rt : runtime) (line : jsstring) (s s' : state)
      (request method id response jsonrpc : value) (method_text id_text : jsstring)
      (tr : list event) :
  is_empty (trim line) = false ->
  JSON_parse rt (trim line) = Ok request ->
  get_prop request (utf16 "method") = Ok method ->
  ToString method = Ok method_text ->
  get_prop request (utf16 "id") = Ok id ->
  ToString id = Ok id_text ->
  dispatch rt request method s = mkRun (Ok response) s' tr ->
  is_null response = false ->
  get_prop response (utf16 "jsonrpc") = Ok jsonrpc ->
  result (on_line rt line s) = Ok tt
  /\ stdout_lines (trace (on_line rt line s)) = stdout_lines tr ++ [response].
Proof.
  intros Hne Hp Hm Hmt Hid Hit Hd Hnull Hj.
  assert (Ht : on_line_try rt line s
               = mkRun (Ok tt) s'
                   (Stderr (utf16 "📨 원시 라인 수신: " ++ trim line)
                    :: Stderr (utf16 "📨 요청 수신: " ++ method_text
                               ++ utf16 " (ID: " ++ id_text ++ utf16 ")")
                    :: tr
                    ++ [Stderr (utf16 "📤 응답 전송: "
                                ++ (if truthy jsonrpc then utf16 "success"
                                    else utf16 "error"));
                        Stdout response])).
  { unfold on_line_try. rewrite Hne. unfold console_error.
    rewrite run_bind_emit, (run_bind_lift _ _ _ _ Hp), (run_bind_lift _ _ _ _ Hm).
    rewrite (run_bind_lift _ _ _ _ Hmt), (run_bind_lift _ _ _ _ Hid).
    rewrite (run_bind_lift _ _ _ _ Hit), run_bind_emit.
    rewrite (run_bind _ _ _ response) by now rewrite Hd.
    rewrite Hd. cbn [result final trace]. rewrite Hnull. cbn [negb].
    rewrite (run_bind_lift _ _ _ _ Hj). reflexivity. }
  rewrite (on_line_of_ok _ _ _ _ _ Ht). cbn [result trace stdout_lines].
  split; [reflexivity|]. rewrite stdout_lines_app. reflexivity.
Qed.

(** Where every request does get its response: the request is not null, its
    method is a string other than [notifications/initialized], its id converts
    to a string, and so does the tool name of a [tools/call].  Such a request
    gets exactly one response line, carrying its id. *)
Theorem printable_request_one_response (rt : runtime) (line : jsstring) (s : state)
        (request id : value) (method id_text : jsstring) :
  is_empty (trim line) = false ->
  JSON_parse rt (trim line) = Ok request ->
  get_prop request (utf16 "method") = Ok (Str method) ->
  method <> notifications_initialized ->
  get_prop request (utf16 "id") = Ok id ->
  ToString id = Ok id_text ->
  (method = utf16 "tools/call" ->
   exists params name name_text,
     get_prop request (utf16 "params") = Ok params
     /\ get_prop (or_else params (Obj [])) (utf16 "name") = Ok name
     /\ ToString name = Ok name_text) ->
  exists response,
    result (on_line rt line s) = Ok tt
    /\ stdout_lines (trace (on_line rt line s)) = [response]
    /\ get_prop response (utf16 "id") = Ok id.
Proof.
  intros Hne Hp Hm Hnot Hid Hit Hcall.
  assert (Hd : exists response s' tr,
             dispatch rt request (Str method) s = mkRun (Ok response) s' tr
             /\ Forall silent tr
             /\ is_null response = false
             /\ get_prop response (utf16 "jsonrpc") = Ok (Str (utf16 "2.0"))
             /\ get_prop response (utf16 "id") = Ok id).
  { unfold dispatch. cbn [is_str].
    destruct (str_eqb_spec method (utf16 "initialize")) as [_|_].
    { do 3 eexists. split; [apply (handleInitialize_run _ _ _ Hid)|repeat split].
      repeat constructor. }
    destruct (str_eqb_spec method (utf16 "tools/list")) as [_|_].
    { do 3 eexists. split; [apply (handleListTools_run _ _ _ Hid)|repeat split].
      repeat constructor. }
    destruct (str_eqb_spec method (utf16 "tools/call")) as [E|_].
    { destruct (Hcall E) as (params & name & name_text & Hparams & Hname & Htext).
      destruct (handleCallTool_responds rt request s _ _ _ _ Hparams Hname Htext Hid)
        as [content Hc].
      exists (rpc_result id (Obj [(utf16 "content", content)])),
             (final (handleCallTool rt request s)),
             (trace (handleCallTool rt request s)).
      split; [|repeat split].
      - rewrite <- Hc. now destruct (handleCallTool rt request s).
      - apply handleCallTool_silent. }
    destruct (str_eqb_spec method (utf16 "notifications/initialized")) as [E|_];
      [exfalso; apply Hnot; exact E|].
    do 3 eexists. split; [apply (method_not_found_run _ _ _ _ Hid)|repeat split].
    repeat constructor. }
  destruct Hd as (response & s' & tr & Hd & Hsilent & Hnull & Hj & Hrid).
  exists response.
  destruct (on_line_writes rt line s s' request (Str method) id response _ method id_text tr
              Hne Hp Hm eq_refl Hid Hit Hd Hnull Hj) as [Hres Hout].
  split; [exact Hres|]. split; [|exact Hrid].
  now rewrite Hout, (silent_stdout _ Hsilent).
Qed.

Lemma printable_request_one_response_witness :
  exists response,
    result (on_line sample_runtime line_unknown_tool start) = Ok tt
    /\ stdout_lines (trace (on_line sample_runtime line_unknown_tool start)) = [response]
    /\ get_prop response (utf16 "id") = Ok (Num 7).
Proof.
  apply (printable_request_one_response sample_runtime line_unknown_tool start
           (request_of 7 "tools/call" [(utf16 "name", Str (utf16 "summarize"))])
           (Num 7) (utf16 "tools/call") (utf16 "7")).
  - vm_compute. reflexivity.
  - vm_compute. reflexivity.
  - vm_compute. reflexivity.
  - vm_compute. discriminate.
  - vm_compute. reflexivity.
  - vm_compute. reflexivity.
  - intros _. exists (Obj [(utf16 "name", Str (utf16 "summarize"))]),
                     (Str (utf16 "summarize")), (utf16 "summarize").
    repeat split.
Defined.

(** When only the second provider succeeds, its result is the one returned. *)
Lemma getBestAbstract_only_pubmed (rt : runtime) (doi : value) (s : state)
      (rA rB : AbstractResult) :
  result (getAbstractFromCrossref rt doi s) = Ok rA ->
  success rA = false ->
  result (getAbstractFromPubMed rt doi (final (getAbstractFromCrossref rt doi s))) = Ok rB ->
  success rB = true ->
  result (getBestAbstract rt doi s) = Ok rB /\ quality_score rB = Some 8%Z.
Proof.
  intros HA SA HB SB.
  destruct (pubmed_scored rt doi _ _ HB SB) as [_ QB].
  rewrite (getBestAbstract_result rt doi s rA rB HA HB), SA, SB.
  split; [reflexivity|exact QB].
Qed.

Lemma getBestAbstract_only_pubmed_witness :
  result (getBestAbstract crossref_down_runtime (Str sample_doi) start) = Ok pubmed_answer
  /\ quality_score pubmed_answer = Some 8%Z.
Proof.
  apply (getBestAbstract_only_pubmed crossref_down_runtime (Str sample_doi) start
           (failure crossref) pubmed_answer).
  - vm_compute. reflexivity.
  - reflexivity.
  - vm_compute. reflexivity.
  - reflexivity.
Defined.

(** A lookup by DOI against the sample network: the tags are stripped and the
    full stop stays. *)
Example get_abstract_by_doi_sample :
  result (getAbstractByDoiTool sample_runtime
            (Obj [(utf16 "doi", Str sample_doi)]) start)
  = Ok (Arr [text_block
               (utf16 "DOI: 10.1016/S0014-5793(01)03313-0" ++ NL
                ++ utf16 "제목: Example title" ++ NL
                ++ utf16 "초록 소스: crossref" ++ NL
                ++ utf16 "초록: Example abstract." ++ NL)]).
Proof. vm_compute. reflexivity. Qed.

(** * Further properties of the code *)

(** ** cleanAbstract *)

(** Whatever [cleanAbstract] returns has at most 503 code units. *)
Theorem cleanAbstract_length_bound (x : value) (s : jsstring) :
  cleanAbstract x = Ok s -> (List.length s <= 503)%nat.
Proof.
  unfold cleanAbstract.
  destruct (negb (truthy x) || is_str x NA).
  - intros [= <-]. apply Nat.leb_le. reflexivity.
  - destruct x; try discriminate. intros [= <-].
    rewrite clean_text_normalized.
    destruct (Nat.ltb_spec 500 (List.length (normalized s0))) as [H|H].
    + rewrite (truncate_length _ H). lia.
    + unfold truncate. destruct (Nat.ltb_spec 500 (List.length (normalized s0))); lia.
Qed.

Lemma cleanAbstract_length_bound_witness :
  (List.length (utf16 "Example abstract.") <= 503)%nat.
Proof.
  apply (cleanAbstract_length_bound (Str (utf16 "<p>Example abstract.</p>"))).
  reflexivity.
Defined.

(** Whatever [cleanAbstract] returns holds no tag and no white space other
    than single spaces between other characters. *)
Theorem cleanAbstract_output_normal (x : value) (s : jsstring) :
  cleanAbstract x = Ok s -> tagfree s = true /\ whitespace_stable s = true.
Proof.
  unfold cleanAbstract.
  destruct (negb (truthy x) || is_str x NA).
  - intros [= <-]. split; reflexivity.
  - destruct x; try discriminate. intros [= <-].
    rewrite clean_text_normalized.
    pose proof (truncate_normal _ (normalized_normal s0)) as H.
    unfold normal in H. now apply andb_true_iff in H.
Qed.

Lemma cleanAbstract_output_normal_witness :
  tagfree (utf16 "b> x<>y <") = true /\ whitespace_stable (utf16 "b> x<>y <") = true.
Proof.
  apply (cleanAbstract_output_normal (Str (utf16 "<<a>b>   x<>y <"))).
  reflexivity.
Defined.

(** From its second application on, [cleanAbstract] changes nothing. *)
Theorem cleanAbstract_stable_after_two (x : value) (s1 s2 : jsstring) :
  cleanAbstract x = Ok s1 ->
  cleanAbstract (Str s1) = Ok s2 ->
  cleanAbstract (Str s2) = Ok s2.
Proof.
  intros H1 H2.
  destruct s1 as [|c s1'].
  - injection H2 as <-. reflexivity.
  - assert (Hfix : c :: s1' = NA \/ clean_text (c :: s1') = c :: s1').
    { unfold cleanAbstract in H1.
      destruct (negb (truthy x) || is_str x NA).
      - left. congruence.
      - destruct x; try discriminate. injection H1 as <-.
        right. apply clean_text_idempotent. }
    unfold cleanAbstract in H2. cbn [truthy is_empty negb orb is_str] in H2.
    destruct (str_eqb_spec (c :: s1') NA) as [E|Hne].
    + injection H2 as <-. reflexivity.
    + destruct Hfix as [E|E]; [congruence|].
      rewrite E in H2. injection H2 as <-.
      unfold cleanAbstract. cbn [truthy is_empty negb orb is_str].
      destruct (str_eqb_spec (c :: s1') NA); [congruence|]. now rewrite E.
Qed.

Lemma cleanAbstract_stable_after_two_witness :
  cleanAbstract (Str NA) = Ok NA.
Proof.
  apply (cleanAbstract_stable_after_two (Str (utf16 "<p></p>")) [] NA).
  - reflexivity.
  - reflexivity.
Defined.

(** ** findElement *)

Lemma value_nested_ind (P : value -> Prop) :
  P Undefined -> P Null -> (forall b, P (Bool b)) -> (forall n, P (Num n)) ->
  (forall s, P (Str s)) ->
  (forall elems, Forall P elems -> P (Arr elems)) ->
  (forall props, Forall (fun kv => P (snd kv)) props -> P (Obj props)) ->
  forall v, P v.
Proof.
  intros HU HN HB HZ HS HA HO. fix IH 1. intros [| |b|n|s|elems|props].
  - exact HU.
  - exact HN.
  - apply HB.
  - apply HZ.
  - apply HS.
  - apply HA. induction elems as [|e elems IHe]; constructor; [apply IH|exact IHe].
  - apply HO. induction props as [|[k c] props IHp]; constructor; [apply IH|exact IHp].
Qed.

Lemma truthy_not_null (v : value) : truthy v = true -> v <> Null.
Proof. intros H ->. discriminate H. Qed.

(** What [findElement] finds is in the structure: a result other than [null]
    is a value stored under the name searched for.  In particular the search
    of a structure that does not hold the name gives [null]. *)
Theorem findElement_stored (tag : jsstring) (v : value) :
  findElement v tag <> Null -> stored tag (findElement v tag) v.
Proof.
  induction v as [| | | | |elems IH|props IH] using value_nested_ind;
    try (intros H; now contradiction H).
  - cbn [findElement].
    match goal with |- ?f O elems <> Null -> stored _ (?f O elems) _ => set (scan := f) end.
    assert (G : forall es i,
               (forall j c, nth_error es j = Some c -> nth_error elems (i + j) = Some c) ->
               Forall (fun c => findElement c tag <> Null -> stored tag (findElement c tag) c) es ->
               scan i es <> Null -> stored tag (scan i es) (Arr elems)).
    { induction es as [|c es IHes]; intros i Hnth HF Hne.
      - now contradiction Hne.
      - inversion HF as [|? ? Hc HF']; subst.
        unfold scan in Hne |- *. cbn in Hne |- *. fold scan in Hne |- *.
        destruct (str_eqb_spec (Number_toString (Z.of_nat i)) tag) as [E|_].
        + apply (stored_index tag c elems i); [|exact E].
          rewrite <- (Nat.add_0_r i). now apply Hnth.
        + assert (Hrest : forall j c', nth_error es j = Some c' ->
                                       nth_error elems (S i + j) = Some c').
          { intros j c' Hj. replace (S i + j)%nat with (i + S j)%nat by lia.
            apply Hnth. exact Hj. }
          assert (Hin : In c elems).
          { apply (nth_error_In elems (i + 0)). now apply Hnth. }
          destruct (typeof_object c); [|now apply IHes].
          destruct (truthy (findElement c tag)) eqn:Hf; [|now apply IHes].
          apply (stored_below_index tag _ elems c Hin).
          apply Hc. now apply truthy_not_null. }
    apply G; [intros j c Hj; exact Hj|exact IH].
  - cbn [findElement].
    match goal with |- ?f props <> Null -> stored _ (?f props) _ => set (scan := f) end.
    assert (G : forall ps,
               incl ps props ->
               Forall (fun kv => findElement (snd kv) tag <> Null ->
                                 stored tag (findElement (snd kv) tag) (snd kv)) ps ->
               scan ps <> Null -> stored tag (scan ps) (Obj props)).
    { induction ps as [|[k c] ps IHps]; intros Hincl HF Hne.
      - now contradiction Hne.
      - inversion HF as [|? ? Hc HF']; subst. cbn [snd] in Hc.
        assert (Hin : In (k, c) props) by (apply Hincl; now left).
        assert (Hincl' : incl ps props) by (intros x Hx; apply Hincl; now right).
        unfold scan in Hne |- *. cbn in Hne |- *. fold scan in Hne |- *.
        destruct (str_eqb_spec k tag) as [E|_].
        + subst k. now apply stored_property.
        + destruct (typeof_object c); [|now apply IHps].
          destruct (truthy (findElement c tag)) eqn:Hf; [|now apply IHps].
          apply (stored_below_property tag _ props k c Hin).
          apply Hc. now apply truthy_not_null. }
    apply G; [apply incl_refl|exact IH].
Qed.

Lemma findElement_stored_witness :
  stored (utf16 "AbstractText")
         (findElement sample_article (utf16 "AbstractText")) sample_article.
Proof.
  apply findElement_stored.
  vm_compute. discriminate.
Defined.

Example findElement_sample :
  findElement sample_article (utf16 "AbstractText")
  = Arr [Str (utf16 "Abstract of the registry.")].
Proof. reflexivity. Qed.

(** ** Runs, step by step *)

Lemma bind_runs {A B} (m : M A) (f : A -> M B) (s s1 s2 : state) (a : A)
      (o : outcome B) (tr tr1 tr2 : list event) :
  m s = mkRun (Ok a) s1 tr1 -> f a s1 = mkRun o s2 tr2 -> tr = tr1 ++ tr2 ->
  bind m f s = mkRun o s2 tr.
Proof. intros Hm Hf ->. unfold bind. rewrite Hm. cbn [result final trace]. now rewrite Hf. Qed.

Lemma bind_runs_throw {A B} (m : M A) (f : A -> M B) (s s1 : state) (e : js_error)
      (tr : list event) :
  m s = mkRun (Throw e) s1 tr -> bind m f s = mkRun (Throw e) s1 tr.
Proof. intros Hm. unfold bind. now rewrite Hm. Qed.

Lemma try_runs_ok {A} (body : M A) (h : js_error -> M A) (s s1 : state) (a : A)
      (tr : list event) :
  body s = mkRun (Ok a) s1 tr -> try_catch body h s = mkRun (Ok a) s1 tr.
Proof. intros Hb. unfold try_catch. now rewrite Hb. Qed.

Lemma try_runs_throw {A} (body : M A) (h : js_error -> M A) (s s1 s2 : state)
      (e : js_error) (o : outcome A) (tr tr1 tr2 : list event) :
  body s = mkRun (Throw e) s1 tr1 -> h e s1 = mkRun o s2 tr2 -> tr = tr1 ++ tr2 ->
  try_catch body h s = mkRun o s2 tr.
Proof.
  intros Hb Hh ->. unfold try_catch. rewrite Hb. cbn [result final trace]. now rewrite Hh.
Qed.

Lemma lift_runs {A B} (o : outcome A) (f : A -> M B) (s s2 : state) (a : A)
      (o' : outcome B) (tr : list event) :
  o = Ok a -> f a s = mkRun o' s2 tr -> bind (lift o) f s = mkRun o' s2 tr.
Proof. intros -> Hf. now rewrite (run_bind_lift _ _ _ a eq_refl). Qed.

Lemma lift_runs_throw {A B} (o : outcome A) (f : A -> M B) (s : state) (e : js_error) :
  o = Throw e -> bind (lift o) f s = mkRun (Throw e) s [].
Proof. intros ->. reflexivity. Qed.

Lemma emit_runs {B} (ev : event) (f : unit -> M B) (s s2 : state)
      (o : outcome B) (tr tr2 : list event) :
  f tt s = mkRun o s2 tr2 -> tr = ev :: tr2 -> bind (emit ev) f s = mkRun o s2 tr.
Proof. intros Hf ->. rewrite run_bind_emit. now rewrite Hf. Qed.

Lemma http_requests_stderr (log : list jsstring) : http_requests (map Stderr log) = [].
Proof. induction log; [reflexivity|exact IHlog]. Qed.

Lemma http_requests_app (a b : list event) :
  http_requests (a ++ b) = http_requests a ++ http_requests b.
Proof.
  induction a as [|ev a IH]; [reflexivity|].
  destruct ev; simpl; now rewrite IH.
Qed.

Lemma pauses_app (a b : list event) : pauses (a ++ b) = pauses a ++ pauses b.
Proof.
  induction a as [|ev a IH]; [reflexivity|].
  destruct ev; simpl; now rewrite IH.
Qed.

Lemma calls_app (a b : list event) : calls (a ++ b) = calls a ++ calls b.
Proof.
  induction a as [|ev a IH]; [reflexivity|].
  destruct ev; simpl; now rewrite IH.
Qed.

(** ** The providers *)

Lemma axios_get_error (rt : runtime) (req : http_request) (s : state) (e : js_error) :
  axios_respond rt (http_calls s) req = NetworkError e ->
  axios_get rt req s = mkRun (Throw e) (sent s) [HttpGet req].
Proof. intros H. unfold axios_get. now rewrite H. Qed.

Lemma axios_get_response (rt : runtime) (req : http_request) (s : state)
      (status : Z) (data : value) :
  axios_respond rt (http_calls s) req = Response status data ->
  axios_get rt req s = mkRun (Ok (status, data)) (sent s) [HttpGet req].
Proof. intros H. unfold axios_get. now rewrite H. Qed.

(** A provider turns every failure of its request into the failure marker:
    the first provider sends one request, and a transport error or a status
    other than 200 gives [success: false]; nothing is thrown. *)
Theorem crossref_request_failure (rt : runtime) (doi : value) (s : state)
        (doi_text : jsstring) :
  truthy doi = true ->
  is_str doi NA = false ->
  ToString doi = Ok doi_text ->
  not_ok (axios_respond rt (http_calls s) (crossref_request doi_text)) ->
  result (getAbstractFromCrossref rt doi s) = Ok (failure crossref)
  /\ http_requests (trace (getAbstractFromCrossref rt doi s)) = [crossref_request doi_text]
  /\ final (getAbstractFromCrossref rt doi s) = sent s.
Proof.
  intros Htruthy Hna Htext Hbad.
  assert (Hrun : exists log,
             getAbstractFromCrossref rt doi s
             = mkRun (Ok (failure crossref)) (sent s)
                     (HttpGet (crossref_request doi_text) :: map Stderr log)).
  { unfold getAbstractFromCrossref. rewrite Htruthy, Hna. cbn [negb orb].
    rewrite (run_bind_lift _ _ _ _ Htext). fold (crossref_request doi_text).
    destruct (axios_respond rt (http_calls s) (crossref_request doi_text))
      as [status data|e] eqn:Hr.
    - exists []. apply try_runs_ok.
      eapply bind_runs; [apply (axios_get_response _ _ _ _ _ Hr)| |reflexivity].
      simpl in Hbad. apply Z.eqb_neq in Hbad. cbv beta iota. rewrite Hbad. reflexivity.
    - exists [utf16 "Crossref API 오류: " ++ message e].
      eapply try_runs_throw;
        [apply bind_runs_throw, (axios_get_error _ _ _ _ Hr)|reflexivity|reflexivity]. }
  destruct Hrun as [log Hrun]. rewrite Hrun. cbn [result final trace http_requests].
  repeat split. now rewrite http_requests_stderr.
Qed.

Lemma crossref_request_failure_witness :
  result (getAbstractFromCrossref offline_runtime (Str sample_doi) start)
  = Ok (failure crossref)
  /\ http_requests (trace (getAbstractFromCrossref offline_runtime (Str sample_doi) start))
     = [crossref_request sample_doi]
  /\ final (getAbstractFromCrossref offline_runtime (Str sample_doi) start) = sent start.
Proof.
  apply (crossref_request_failure offline_runtime (Str sample_doi) start sample_doi).
  - reflexivity.
  - reflexivity.
  - reflexivity.
  - exact I.
Defined.

Lemma get_index_truthy (x : value) (i : nat) :
  truthy x = true -> exists x0, get_index x i = Ok x0.
Proof.
  destruct x; simpl; try discriminate; intros _; eauto.
Qed.

Lemma first_of_run {B} (x : value) (f : value -> M B) (s : state) :
  bind (if truthy x then lift (get_index x 0) else ret x) f s = f (first_of x) s.
Proof.
  unfold first_of. destruct (truthy x) eqn:Hx.
  - destruct (get_index_truthy x 0 Hx) as [x0 H0]. rewrite H0.
    apply (run_bind_lift _ _ _ _ eq_refl).
  - apply (run_bind_lift (Ok x) _ _ _ eq_refl).
Qed.

(** The first provider succeeds on a 200 whose [message.abstract] is a string
    other than the empty one and ['N/A']: the result carries the normalized
    abstract, the first title and the score 9. *)
Theorem crossref_success (rt : runtime) (doi : value) (s : state)
        (doi_text a : jsstring) (data message message_title : value) :
  truthy doi = true ->
  is_str doi NA = false ->
  ToString doi = Ok doi_text ->
  axios_respond rt (http_calls s) (crossref_request doi_text) = Response 200 data ->
  get_prop data (utf16 "message") = Ok message ->
  truthy message = true ->
  get_prop message (utf16 "abstract") = Ok (Str a) ->
  a <> [] ->
  a <> NA ->
  get_prop message (utf16 "title") = Ok message_title ->
  getAbstractFromCrossref rt doi s
  = mkRun (Ok (mkResult crossref (clean_text a) true (crossref_title message_title)
                        (Some 9%Z)))
          (sent s) [HttpGet (crossref_request doi_text)].
Proof.
  intros Htruthy Hna Htext Hr Hmessage Hm Habstract Ha1 Ha2 Htitle.
  assert (Hta : truthy (Str a) = true) by (destruct a; [congruence|reflexivity]).
  assert (Hna' : is_str (Str a) NA = false) by now apply is_str_neq.
  unfold getAbstractFromCrossref. rewrite Htruthy, Hna. cbn [negb orb].
  rewrite (run_bind_lift _ _ _ _ Htext). fold (crossref_request doi_text).
  apply try_runs_ok.
  eapply bind_runs; [apply (axios_get_response _ _ _ _ _ Hr)| |reflexivity].
  cbv beta iota. change (200 =? 200)%Z with true. cbv iota.
  eapply lift_runs; [exact Hmessage|]. rewrite Hm.
  eapply lift_runs; [exact Habstract|].
  cbv zeta. rewrite (or_else_truthy _ _ Hta), Hta, Hna'. cbn [negb andb].
  eapply lift_runs.
  { unfold cleanAbstract. rewrite Hta, Hna'. reflexivity. }
  eapply lift_runs; [exact Htitle|].
  unfold crossref_title.
  destruct (truthy message_title) eqn:Ht.
  - unfold first_of. rewrite Ht.
    destruct (get_index_truthy message_title 0 Ht) as [x0 H0]. rewrite H0.
    eapply lift_runs; reflexivity.
  - reflexivity.
Qed.

Lemma crossref_success_witness :
  getAbstractFromCrossref sample_runtime (Str sample_doi) start
  = mkRun (Ok (mkResult crossref (clean_text (utf16 "<p>Example abstract.</p>")) true
                        (crossref_title (Arr [Str (utf16 "Example title")]))
                        (Some 9%Z)))
          (sent start) [HttpGet (crossref_request sample_doi)].
Proof.
  apply (crossref_success sample_runtime (Str sample_doi) start sample_doi
           (utf16 "<p>Example abstract.</p>")
           (Obj [(utf16 "message",
                  Obj [(utf16 "title", Arr [Str (utf16 "Example title")]);
                       (utf16 "abstract", Str (utf16 "<p>Example abstract.</p>"))])])
           (Obj [(utf16 "title", Arr [Str (utf16 "Example title")]);
                 (utf16 "abstract", Str (utf16 "<p>Example abstract.</p>"))])).
  - reflexivity.
  - reflexivity.
  - reflexivity.
  - vm_compute. reflexivity.
  - reflexivity.
  - reflexivity.
  - reflexivity.
  - discriminate.
  - vm_compute. discriminate.
  - reflexivity.
Defined.

Lemma pubmed_lookup_run (rt : runtime) (doi : value) (s : state) (doi_text : jsstring)
      (data esearchresult pmid xml parsed : value) (more : list value) :
  truthy doi = true ->
  is_str doi NA = false ->
  ToString doi = Ok doi_text ->
  axios_respond rt (http_calls s) (esearch_request doi_text) = Response 200 data ->
  get_prop data (utf16 "esearchresult") = Ok esearchresult ->
  truthy esearchresult = true ->
  get_prop esearchresult (utf16 "idlist") = Ok (Arr (pmid :: more)) ->
  axios_respond rt (S (http_calls s)) (efetch_request pmid) = Response 200 xml ->
  xml2js_parse rt xml = Ok parsed ->
  getAbstractFromPubMed rt doi s = pubmed_outcome s doi_text pmid parsed.
Proof.
  intros Htruthy Hna Htext Hr1 Hes Her Hid Hr2 Hxml.
  unfold getAbstractFromPubMed. rewrite Htruthy, Hna. cbn [negb orb]. cbv zeta.
  rewrite (run_bind_lift _ _ _ _ Htext).
  fold (esearch_request doi_text).
  assert (Hbody :
            exists o tr,
              pubmed_outcome s doi_text pmid parsed
              = match o with
                | Ok r => mkRun (Ok r) (sent (sent s)) tr
                | Throw e =>
                  mkRun (Ok (failure pubmed)) (sent (sent s))
                        (tr ++ [Stderr (utf16 "PubMed API 오류: " ++ message e)])
                end
              /\ (response <- axios_get rt (esearch_request doi_text) ;;
                  let (status, data) := response in
                  if (status =? 200)%Z then
                    esearchresult <- lift (get_prop data (utf16 "esearchresult")) ;;
                    if truthy esearchresult then
                      pmidList <- lift (get_prop esearchresult (utf16 "idlist")) ;;
                      if truthy pmidList then
                        pmidList_length <- lift (get_prop pmidList (utf16 "length")) ;;
                        nonempty <- lift (gt_zero rt pmidList_length) ;;
                        if (nonempty : bool) then
                          pmid <- lift (get_index pmidList 0) ;;
                          fetchResponse <- axios_get rt (efetch_request pmid) ;;
                          let (fetchStatus, fetchData) := fetchResponse in
                          if (fetchStatus =? 200)%Z then
                            parsed <- lift (xml2js_parse rt fetchData) ;;
                            abstractElement0 <-
                              (if truthy (findElement parsed (utf16 "AbstractText"))
                               then lift (get_index (findElement parsed (utf16 "AbstractText")) 0)
                               else ret (findElement parsed (utf16 "AbstractText"))) ;;
                            if truthy abstractElement0 then
                              titleElement0 <-
                                (if truthy (findElement parsed (utf16 "ArticleTitle"))
                                 then lift (get_index (findElement parsed (utf16 "ArticleTitle")) 0)
                                 else ret (findElement parsed (utf16 "ArticleTitle"))) ;;
                              cleaned <- lift (cleanAbstract abstractElement0) ;;
                              ret (mkResult pubmed cleaned true
                                     (if truthy titleElement0 then titleElement0 else Str NA)
                                     (Some 8%Z))
                            else ret (failure pubmed)
                          else ret (failure pubmed)
                        else ret (failure pubmed)
                      else ret (failure pubmed)
                    else ret (failure pubmed)
                  else ret (failure pubmed)) s
                 = mkRun o (sent (sent s)) tr).
  { unfold pubmed_outcome. cbv zeta.
    destruct (truthy (first_of (findElement parsed (utf16 "AbstractText")))) eqn:Hfirst.
    - destruct (cleanAbstract (first_of (findElement parsed (utf16 "AbstractText"))))
        as [cleaned|e] eqn:Hclean.
      + eexists (Ok _), _. split; [reflexivity|].
        eapply bind_runs; [apply (axios_get_response _ _ _ _ _ Hr1)| |reflexivity].
        cbv beta iota. change (200 =? 200)%Z with true. cbv iota.
        eapply lift_runs; [exact Hes|]. rewrite Her.
        eapply lift_runs; [exact Hid|]. cbn [truthy].
        eapply lift_runs; [reflexivity|].
        eapply lift_runs; [reflexivity|].
        replace (0 <? Z.of_nat (List.length (pmid :: more)))%Z with true
          by (symmetry; apply Z.ltb_lt; simpl List.length; lia).
        eapply lift_runs; [reflexivity|]. cbn [nth].
        eapply bind_runs; [apply axios_get_response; exact Hr2| |reflexivity].
        cbv beta iota. change (200 =? 200)%Z with true. cbv iota.
        eapply lift_runs; [exact Hxml|].
        rewrite first_of_run, Hfirst, first_of_run.
        eapply lift_runs; [exact Hclean|]. reflexivity.
      + eexists (Throw e), _. split; [reflexivity|].
        eapply bind_runs; [apply (axios_get_response _ _ _ _ _ Hr1)| |reflexivity].
        cbv beta iota. change (200 =? 200)%Z with true. cbv iota.
        eapply lift_runs; [exact Hes|]. rewrite Her.
        eapply lift_runs; [exact Hid|]. cbn [truthy].
        eapply lift_runs; [reflexivity|].
        eapply lift_runs; [reflexivity|].
        replace (0 <? Z.of_nat (List.length (pmid :: more)))%Z with true
          by (symmetry; apply Z.ltb_lt; simpl List.length; lia).
        eapply lift_runs; [reflexivity|]. cbn [nth].
        eapply bind_runs; [apply axios_get_response; exact Hr2| |reflexivity].
        cbv beta iota. change (200 =? 200)%Z with true. cbv iota.
        eapply lift_runs; [exact Hxml|].
        rewrite first_of_run, Hfirst, first_of_run.
        apply (lift_runs_throw _ _ _ _ Hclean).
    - eexists (Ok _), _. split; [reflexivity|].
      eapply bind_runs; [apply (axios_get_response _ _ _ _ _ Hr1)| |reflexivity].
      cbv beta iota. change (200 =? 200)%Z with true. cbv iota.
      eapply lift_runs; [exact Hes|]. rewrite Her.
      eapply lift_runs; [exact Hid|]. cbn [truthy].
      eapply lift_runs; [reflexivity|].
      eapply lift_runs; [reflexivity|].
      replace (0 <? Z.of_nat (List.length (pmid :: more)))%Z with true
        by (symmetry; apply Z.ltb_lt; simpl List.length; lia).
      eapply lift_runs; [reflexivity|]. cbn [nth].
      eapply bind_runs; [apply axios_get_response; exact Hr2| |reflexivity].
      cbv beta iota. change (200 =? 200)%Z with true. cbv iota.
      eapply lift_runs; [exact Hxml|].
      rewrite first_of_run, Hfirst. reflexivity. }
  destruct Hbody as (o & tr & Hout & Hbody). rewrite Hout.
  destruct o as [r|e].
  - apply try_runs_ok. exact Hbody.
  - eapply try_runs_throw; [exact Hbody|reflexivity|reflexivity].
Qed.

(** The second provider succeeds when the search gives an accession number,
    the record is fetched and parsed and its first [AbstractText] is a string
    other than the empty one and ['N/A']: the result carries the normalized
    text, the article title and the score 8, after exactly two requests. *)
Theorem pubmed_success (rt : runtime) (doi : value) (s : state) (doi_text a : jsstring)
        (data esearchresult pmid xml parsed : value) (more others : list value) :
  truthy doi = true ->
  is_str doi NA = false ->
  ToString doi = Ok doi_text ->
  axios_respond rt (http_calls s) (esearch_request doi_text) = Response 200 data ->
  get_prop data (utf16 "esearchresult") = Ok esearchresult ->
  truthy esearchresult = true ->
  get_prop esearchresult (utf16 "idlist") = Ok (Arr (pmid :: more)) ->
  axios_respond rt (S (http_calls s)) (efetch_request pmid) = Response 200 xml ->
  xml2js_parse rt xml = Ok parsed ->
  findElement parsed (utf16 "AbstractText") = Arr (Str a :: others) ->
  a <> [] ->
  a <> NA ->
  getAbstractFromPubMed rt doi s
  = mkRun (Ok (mkResult pubmed (clean_text a) true (article_title parsed) (Some 8%Z)))
          (sent (sent s))
          [HttpGet (esearch_request doi_text); HttpGet (efetch_request pmid)].
Proof.
  intros Htruthy Hna Htext Hr1 Hes Her Hid Hr2 Hxml Hfind Ha1 Ha2.
  rewrite (pubmed_lookup_run rt doi s doi_text data esearchresult pmid xml parsed more
             Htruthy Hna Htext Hr1 Hes Her Hid Hr2 Hxml).
  assert (Hta : truthy (Str a) = true) by (destruct a; [congruence|reflexivity]).
  unfold pubmed_outcome. rewrite Hfind.
  change (first_of (Arr (Str a :: others))) with (Str a).
  unfold cleanAbstract. rewrite Hta, (is_str_neq _ _ Ha2). reflexivity.
Qed.

Lemma pubmed_success_witness :
  getAbstractFromPubMed sample_runtime (Str sample_doi) start
  = mkRun (Ok (mkResult pubmed (clean_text (utf16 "Abstract of the registry.")) true
                        (article_title sample_article) (Some 8%Z)))
          (sent (sent start))
          [HttpGet (esearch_request sample_doi);
           HttpGet (efetch_request (Str (utf16 "11741591")))].
Proof.
  apply (pubmed_success sample_runtime (Str sample_doi) start sample_doi
           (utf16 "Abstract of the registry.")
           (Obj [(utf16 "esearchresult", Obj [(utf16 "idlist", Arr [Str (utf16 "11741591")])])])
           (Obj [(utf16 "idlist", Arr [Str (utf16 "11741591")])])
           (Str (utf16 "11741591")) (Str (utf16 "<PubmedArticleSet/>")) sample_article
           [] []).
  - reflexivity.
  - reflexivity.
  - reflexivity.
  - vm_compute. reflexivity.
  - reflexivity.
  - reflexivity.
  - reflexivity.
  - vm_compute. reflexivity.
  - reflexivity.
  - reflexivity.
  - discriminate.
  - vm_compute. discriminate.
Defined.

(** An abstract element that is not a string is lost: when the first
    [AbstractText] of the record is an object (xml2js gives one for an element
    with attributes), [cleanAbstract] throws on it, the provider catches the
    error and reports a failure. *)
Theorem pubmed_labelled_abstract_fails (rt : runtime) (doi : value) (s : state)
        (doi_text : jsstring) (data esearchresult pmid xml parsed : value)
        (more others : list value) (fields : list (jsstring * value)) :
  truthy doi = true ->
  is_str doi NA = false ->
  ToString doi = Ok doi_text ->
  axios_respond rt (http_calls s) (esearch_request doi_text) = Response 200 data ->
  get_prop data (utf16 "esearchresult") = Ok esearchresult ->
  truthy esearchresult = true ->
  get_prop esearchresult (utf16 "idlist") = Ok (Arr (pmid :: more)) ->
  axios_respond rt (S (http_calls s)) (efetch_request pmid) = Response 200 xml ->
  xml2js_parse rt xml = Ok parsed ->
  findElement parsed (utf16 "AbstractText") = Arr (Obj fields :: others) ->
  getAbstractFromPubMed rt doi s
  = mkRun (Ok (failure pubmed)) (sent (sent s))
          [HttpGet (esearch_request doi_text); HttpGet (efetch_request pmid);
           Stderr (utf16 "PubMed API 오류: abstract.replace is not a function")].
Proof.
  intros Htruthy Hna Htext Hr1 Hes Her Hid Hr2 Hxml Hfind.
  rewrite (pubmed_lookup_run rt doi s doi_text data esearchresult pmid xml parsed more
             Htruthy Hna Htext Hr1 Hes Her Hid Hr2 Hxml).
  unfold pubmed_outcome. rewrite Hfind. reflexivity.
Qed.

Lemma pubmed_labelled_abstract_fails_witness :
  getAbstractFromPubMed labelled_runtime (Str sample_doi) start
  = mkRun (Ok (failure pubmed)) (sent (sent start))
          [HttpGet (esearch_request sample_doi);
           HttpGet (efetch_request (Str (utf16 "11741591")));
           Stderr (utf16 "PubMed API 오류: abstract.replace is not a function")].
Proof.
  apply (pubmed_labelled_abstract_fails labelled_runtime (Str sample_doi) start sample_doi
           (Obj [(utf16 "esearchresult", Obj [(utf16 "idlist", Arr [Str (utf16 "11741591")])])])
           (Obj [(utf16 "idlist", Arr [Str (utf16 "11741591")])])
           (Str (utf16 "11741591")) (Str (utf16 "<PubmedArticleSet/>")) labelled_article
           [] []
           [(utf16 "_", Str (utf16 "Background text."));
            (utf16 "$", Obj [(utf16 "Label", Str (utf16 "BACKGROUND"))])]).
  - reflexivity.
  - reflexivity.
  - reflexivity.
  - vm_compute. reflexivity.
  - reflexivity.
  - reflexivity.
  - reflexivity.
  - vm_compute. reflexivity.
  - reflexivity.
  - reflexivity.
Defined.

(** When the search of the second registry gives no accession number the
    provider reports a failure after that one request: it never fetches. *)
Theorem pubmed_no_match (rt : runtime) (doi : value) (s : state) (doi_text : jsstring)
        (data esearchresult : value) :
  truthy doi = true ->
  is_str doi NA = false ->
  ToString doi = Ok doi_text ->
  axios_respond rt (http_calls s) (esearch_request doi_text) = Response 200 data ->
  get_prop data (utf16 "esearchresult") = Ok esearchresult ->
  truthy esearchresult = true ->
  get_prop esearchresult (utf16 "idlist") = Ok (Arr []) ->
  getAbstractFromPubMed rt doi s
  = mkRun (Ok (failure pubmed)) (sent s) [HttpGet (esearch_request doi_text)].
Proof.
  intros Htruthy Hna Htext Hr1 Hes Her Hid.
  unfold getAbstractFromPubMed. rewrite Htruthy, Hna. cbn [negb orb]. cbv zeta.
  rewrite (run_bind_lift _ _ _ _ Htext). fold (esearch_request doi_text).
  apply try_runs_ok.
  eapply bind_runs; [apply (axios_get_response _ _ _ _ _ Hr1)| |reflexivity].
  cbv beta iota. change (200 =? 200)%Z with true. cbv iota.
  eapply lift_runs; [exact Hes|]. rewrite Her.
  eapply lift_runs; [exact Hid|]. cbn [truthy].
  eapply lift_runs; [reflexivity|].
  eapply lift_runs; [reflexivity|]. reflexivity.
Qed.

Lemma pubmed_no_match_witness :
  getAbstractFromPubMed unknown_doi_runtime (Str sample_doi) start
  = mkRun (Ok (failure pubmed)) (sent start) [HttpGet (esearch_request sample_doi)].
Proof.
  apply (pubmed_no_match unknown_doi_runtime (Str sample_doi) start sample_doi
           (Obj [(utf16 "esearchresult", Obj [(utf16 "idlist", Arr [])])])
           (Obj [(utf16 "idlist", Arr [])])).
  - reflexivity.
  - reflexivity.
  - reflexivity.
  - vm_compute. reflexivity.
  - reflexivity.
  - reflexivity.
  - reflexivity.
Defined.

(** ** The selector *)

Lemma getBestAbstract_run (rt : runtime) (doi : value) (s s1 s2 : state)
      (rA rB : AbstractResult) (trA trB : list event) :
  getAbstractFromCrossref rt doi s = mkRun (Ok rA) s1 trA ->
  getAbstractFromPubMed rt doi s1 = mkRun (Ok rB) s2 trB ->
  getBestAbstract rt doi s
  = mkRun (Ok (best_of rA rB)) s2
          (Call "getBestAbstract" [doi] :: trA ++ Sleep 300 :: trB ++ [Sleep 300]).
Proof.
  intros HA HB. unfold getBestAbstract, sources.
  eapply emit_runs; [|reflexivity]. cbn [for_of].
  eapply bind_runs.
  - eapply bind_runs.
    + rewrite (ask_source_run doi [] crossref _ s rA) by (rewrite HA; reflexivity).
      rewrite HA. reflexivity.
    + eapply bind_runs.
      * rewrite (ask_source_run doi _ pubmed _ s1 rB) by (rewrite HB; reflexivity).
        rewrite HB. reflexivity.
      * reflexivity.
      * reflexivity.
    + reflexivity.
  - unfold best_of. destruct (success rA), (success rB); reflexivity.
  - cbn [trace]. rewrite app_nil_r. rewrite <- !app_assoc. reflexivity.
Qed.

Lemma provider_guard (doi : value) :
  truthy doi = false \/ doi = Str NA -> negb (truthy doi) || is_str doi NA = true.
Proof.
  intros [H| ->]; [rewrite H; reflexivity|].
  apply orb_true_iff. right. unfold is_str. apply str_eqb_refl.
Qed.

(** Without an identifier, or with ['N/A'] for one, the selector sends no
    request: both providers decline at once and the result is the marker of
    source ['none'].  The two pauses of 300 ms are still taken. *)
Theorem getBestAbstract_no_doi (rt : runtime) (doi : value) (s : state) :
  truthy doi = false \/ doi = Str NA ->
  getBestAbstract rt doi s
  = mkRun (Ok none_marker) s
          [Call "getBestAbstract" [doi]; Sleep 300; Sleep 300].
Proof.
  intros H. apply provider_guard in H.
  apply (getBestAbstract_run rt doi s s s (failure crossref) (failure pubmed) [] []).
  - unfold getAbstractFromCrossref. rewrite H. reflexivity.
  - unfold getAbstractFromPubMed. rewrite H. reflexivity.
Qed.

Lemma getBestAbstract_no_doi_witness :
  getBestAbstract sample_runtime (Str NA) start
  = mkRun (Ok none_marker) start
          [Call "getBestAbstract" [Str NA]; Sleep 300; Sleep 300].
Proof.
  apply (getBestAbstract_no_doi sample_runtime (Str NA) start).
  right. reflexivity.
Defined.

Lemma sends_ret {A} (a : A) (n : nat) : sends (ret a) n.
Proof. intros s. apply Nat.le_0_l. Qed.

Lemma sends_lift {A} (o : outcome A) (n : nat) : sends (lift o) n.
Proof. intros s. apply Nat.le_0_l. Qed.

Lemma sends_emit (ev : event) (n : nat) : no_request ev -> sends (emit ev) n.
Proof. intros H s. destruct ev; try destruct H; apply Nat.le_0_l. Qed.

Lemma sends_axios (rt : runtime) (req : http_request) (n : nat) :
  sends (axios_get rt req) (S n).
Proof.
  intros s. unfold axios_get.
  destruct (axios_respond rt (http_calls s) req); cbn; lia.
Qed.

Lemma sends_bind {A B} (m : M A) (f : A -> M B) (a b : nat) :
  sends m a -> (forall x, sends (f x) b) -> sends (bind m f) (a + b).
Proof.
  intros Hm Hf s. unfold bind. specialize (Hm s).
  destruct (result (m s)) as [x|e]; cbn [trace].
  - rewrite http_requests_app, length_app. specialize (Hf x (final (m s))). lia.
  - lia.
Qed.

Lemma sends_bind0 {A B} (m : M A) (f : A -> M B) (n : nat) :
  sends m 0 -> (forall x, sends (f x) n) -> sends (bind m f) n.
Proof. intros Hm Hf. apply (sends_bind m f 0 n Hm Hf). Qed.

Lemma sends_bind1 {A B} (m : M A) (f : A -> M B) (n : nat) :
  sends m 1 -> (forall x, sends (f x) n) -> sends (bind m f) (S n).
Proof. intros Hm Hf. apply (sends_bind m f 1 n Hm Hf). Qed.

Lemma sends_try {A} (body : M A) (h : js_error -> M A) (n : nat) :
  sends body n -> (forall e, sends (h e) 0) -> sends (try_catch body h) n.
Proof.
  intros Hb Hh s. unfold try_catch. specialize (Hb s).
  destruct (result (body s)) as [x|e]; [exact Hb|]. cbn [trace].
  rewrite http_requests_app, length_app. specialize (Hh e (final (body s))). lia.
Qed.

Lemma sends_if {A} (c : bool) (m1 m2 : M A) (n : nat) :
  sends m1 n -> sends m2 n -> sends (if c then m1 else m2) n.
Proof. now destruct c. Qed.

Lemma sends_le {A} (m : M A) (a b : nat) : sends m a -> (a <= b)%nat -> sends m b.
Proof. intros H Hab s. specialize (H s). lia. Qed.

Ltac sends_step :=
  first
    [ apply sends_ret
    | apply sends_lift
    | apply sends_emit; exact I
    | apply sends_axios
    | apply sends_bind1; [apply sends_axios|intros ?]
    | apply sends_bind0; [|intros ?]
    | apply sends_try; [|intros ?]
    | apply sends_if
    | match goal with
      | |- sends (let (_, _) := ?p in _) _ => destruct p
      end ].

Lemma diagnostic_requests (log : list event) :
  Forall diagnostic log -> http_requests log = [].
Proof.
  induction 1 as [|ev log Hev _ IH]; [reflexivity|].
  destruct ev; try destruct Hev. exact IH.
Qed.

Lemma diagnostic_pauses (log : list event) : Forall diagnostic log -> pauses log = [].
Proof.
  induction 1 as [|ev log Hev _ IH]; [reflexivity|].
  destruct ev; try destruct Hev. exact IH.
Qed.

Lemma no_pause_pauses (tr : list event) : Forall no_pause tr -> pauses tr = [].
Proof.
  induction 1 as [|ev tr Hev _ IH]; [reflexivity|].
  destruct ev; try destruct Hev; exact IH.
Qed.

(** A request under a [try] whose handler returns: the run returns, and its
    trace is the request followed by what the continuation or the handler
    emits. *)
Lemma try_axios_run {A} (rt : runtime) (req : http_request) (k : Z * value -> M A)
      (h : js_error -> M A) (P : event -> Prop) (n : nat) (s : state) :
  (forall a, emits (k a) P) -> (forall e, emits (h e) P) ->
  (forall a, sends (k a) n) -> (forall e, sends (h e) 0) ->
  (forall e s', exists a, result (h e s') = Ok a) ->
  exists a s' rest,
    try_catch (bind (axios_get rt req) k) h s = mkRun (Ok a) s' (HttpGet req :: rest)
    /\ Forall P rest
    /\ (List.length (http_requests rest) <= n)%nat.
Proof.
  intros Hk Hh Hkn Hhn Htotal.
  destruct (axios_respond rt (http_calls s) req) as [status data|e] eqn:Hr.
  - pose proof (Hk (status, data) (sent s)) as Hk1.
    pose proof (Hkn (status, data) (sent s)) as Hk2.
    destruct (k (status, data) (sent s)) as [o s2 tr2] eqn:Hrun.
    cbn [trace] in Hk1, Hk2. destruct o as [a|e].
    + exists a, s2, tr2. split; [|split; assumption].
      apply try_runs_ok.
      eapply bind_runs; [apply (axios_get_response _ _ _ _ _ Hr)|exact Hrun|reflexivity].
    + pose proof (Hh e s2) as Hh1. pose proof (Hhn e s2) as Hh2.
      destruct (Htotal e s2) as [a Ha].
      destruct (h e s2) as [o3 s3 tr3] eqn:Hhandler.
      cbn [trace] in Hh1, Hh2. cbn [result] in Ha. subst o3.
      exists a, s3, (tr2 ++ tr3). split; [|split].
      * eapply try_runs_throw;
          [eapply bind_runs;
             [apply (axios_get_response _ _ _ _ _ Hr)|exact Hrun|reflexivity]
          |exact Hhandler|reflexivity].
      * apply Forall_app. split; assumption.
      * rewrite http_requests_app, length_app. lia.
  - pose proof (Hh e (sent s)) as Hh1. pose proof (Hhn e (sent s)) as Hh2.
    destruct (Htotal e (sent s)) as [a Ha].
    destruct (h e (sent s)) as [o3 s3 tr3] eqn:Hhandler.
    cbn [trace] in Hh1, Hh2. cbn [result] in Ha. subst o3.
    exists a, s3, tr3. split; [|split].
    + eapply try_runs_throw;
        [apply bind_runs_throw; apply (axios_get_error _ _ _ _ Hr)
        |exact Hhandler|reflexivity].
    + assumption.
    + lia.
Qed.

Lemma crossref_shape (rt : runtime) (doi : value) (s : state) (doi_text : jsstring) :
  truthy doi = true ->
  is_str doi NA = false ->
  ToString doi = Ok doi_text ->
  exists r s1 log,
    getAbstractFromCrossref rt doi s
    = mkRun (Ok r) s1 (HttpGet (crossref_request doi_text) :: log)
    /\ Forall diagnostic log
    /\ (List.length (http_requests log) <= 0)%nat.
Proof.
  intros Htruthy Hna Htext.
  unfold getAbstractFromCrossref. rewrite Htruthy, Hna. cbn [negb orb].
  rewrite (run_bind_lift _ _ _ _ Htext). fold (crossref_request doi_text).
  apply (try_axios_run rt (crossref_request doi_text)).
  - intros a. unfold console_error. repeat emits_step.
  - intros e. unfold console_error. repeat emits_step.
  - intros a. repeat sends_step.
  - intros e. unfold console_error. repeat sends_step.
  - intros e s'. eexists. reflexivity.
Qed.

Lemma pubmed_shape (rt : runtime) (doi : value) (s : state) (doi_text : jsstring) :
  truthy doi = true ->
  is_str doi NA = false ->
  ToString doi = Ok doi_text ->
  exists r s2 rest,
    getAbstractFromPubMed rt doi s
    = mkRun (Ok r) s2 (HttpGet (esearch_request doi_text) :: rest)
    /\ Forall no_pause rest
    /\ (List.length (http_requests rest) <= 1)%nat.
Proof.
  intros Htruthy Hna Htext.
  unfold getAbstractFromPubMed. rewrite Htruthy, Hna. cbn [negb orb]. cbv zeta.
  rewrite (run_bind_lift _ _ _ _ Htext). fold (esearch_request doi_text).
  apply (try_axios_run rt (esearch_request doi_text)).
  - intros a. unfold console_error. repeat emits_step.
  - intros e. unfold console_error. repeat emits_step.
  - intros a. repeat sends_step.
  - intros e. unfold console_error. repeat sends_step.
  - intros e s'. eexists. reflexivity.
Qed.

(** For an identifier that converts to a string the selector always asks
    both providers, the first one first, whatever the first one answers: its
    requests are the lookup at the first registry, the search at the second
    and at most one more, and it pauses twice for 300 ms. *)
Theorem getBestAbstract_requests (rt : runtime) (doi : value) (s : state)
        (doi_text : jsstring) :
  truthy doi = true ->
  is_str doi NA = false ->
  ToString doi = Ok doi_text ->
  exists more,
    http_requests (trace (getBestAbstract rt doi s))
    = crossref_request doi_text :: esearch_request doi_text :: more
    /\ (List.length more <= 1)%nat
    /\ pauses (trace (getBestAbstract rt doi s)) = [300%Z; 300%Z].
Proof.
  intros Htruthy Hna Htext.
  destruct (crossref_shape rt doi s doi_text Htruthy Hna Htext)
    as (rA & s1 & log & HA & Hlog & _).
  destruct (pubmed_shape rt doi s1 doi_text Htruthy Hna Htext)
    as (rB & s2 & rest & HB & Hrest & Hcount).
  rewrite (getBestAbstract_run rt doi s s1 s2 rA rB _ _ HA HB). cbn [trace].
  exists (http_requests rest). split; [|split].
  - cbn [http_requests app]. rewrite http_requests_app. cbn [http_requests].
    rewrite (diagnostic_requests log Hlog), http_requests_app. cbn [http_requests app].
    now rewrite app_nil_r.
  - exact Hcount.
  - cbn [pauses app]. rewrite pauses_app. cbn [pauses].
    rewrite (diagnostic_pauses log Hlog), pauses_app, (no_pause_pauses rest Hrest).
    reflexivity.
Qed.

Lemma getBestAbstract_requests_witness :
  exists more,
    http_requests (trace (getBestAbstract sample_runtime (Str sample_doi) start))
    = crossref_request sample_doi :: esearch_request sample_doi :: more
    /\ (List.length more <= 1)%nat
    /\ pauses (trace (getBestAbstract sample_runtime (Str sample_doi) start))
       = [300%Z; 300%Z].
Proof.
  apply (getBestAbstract_requests sample_runtime (Str sample_doi) start sample_doi).
  - reflexivity.
  - reflexivity.
  - reflexivity.
Defined.

(** A success of the first provider is the selector's answer whatever the
    second provider does: the second one is still asked, and its result is
    dropped. *)
Theorem getBestAbstract_crossref_wins (rt : runtime) (doi : value) (s : state)
        (doi_text : jsstring) (rA : AbstractResult) :
  ToString doi = Ok doi_text ->
  result (getAbstractFromCrossref rt doi s) = Ok rA ->
  success rA = true ->
  result (getBestAbstract rt doi s) = Ok rA.
Proof.
  intros Htext HA Hs.
  destruct (getAbstractFromPubMed_returns rt doi
              (final (getAbstractFromCrossref rt doi s)) _ Htext) as [rB HB].
  rewrite (getBestAbstract_result rt doi s rA rB HA HB), Hs.
  destruct (crossref_scored rt doi s rA HA Hs) as [_ HqA].
  destruct (success rB) eqn:HsB; [|reflexivity].
  destruct (pubmed_scored rt doi _ rB HB HsB) as [_ HqB].
  cbn [app]. unfold reduce_best, score. cbn [fold_left]. rewrite HqA, HqB. reflexivity.
Qed.

Lemma getBestAbstract_crossref_wins_witness :
  result (getBestAbstract labelled_runtime (Str sample_doi) start) = Ok crossref_answer.
Proof.
  apply (getBestAbstract_crossref_wins labelled_runtime (Str sample_doi) start sample_doi).
  - reflexivity.
  - vm_compute. reflexivity.
  - reflexivity.
Defined.

(** ** The primary registry *)

Lemma searchScopus_failure_run (rt : runtime) (query count : value) (s : state) :
  not_ok (axios_respond rt (http_calls s) (scopus_request rt query (default_count count))) ->
  exists log,
    searchScopus rt query count s
    = mkRun (Ok (Obj [])) (sent s)
            (Call "searchScopus" [query; count]
               :: HttpGet (scopus_request rt query (default_count count))
               :: map Stderr log).
Proof.
  intros Hbad. unfold searchScopus. cbv zeta.
  destruct (axios_respond rt (http_calls s) (scopus_request rt query (default_count count)))
    as [status data|e] eqn:Hr.
  - exists []. eapply emit_runs; [|reflexivity]. apply try_runs_ok.
    eapply bind_runs; [apply (axios_get_response _ _ _ _ _ Hr)| |reflexivity].
    simpl in Hbad. apply Z.eqb_neq in Hbad. cbv beta iota. rewrite Hbad. reflexivity.
  - exists [utf16 "Scopus API 오류: " ++ message e].
    eapply emit_runs; [|reflexivity].
    eapply try_runs_throw;
      [apply bind_runs_throw, (axios_get_error _ _ _ _ Hr)|reflexivity|reflexivity].
Qed.

(** [searchScopus] turns every failure of its request into the empty
    object: a transport error or a status other than 200 is not thrown and
    not retried; one request is sent. *)
Theorem searchScopus_failure (rt : runtime) (query count : value) (s : state) :
  not_ok (axios_respond rt (http_calls s) (scopus_request rt query (default_count count))) ->
  result (searchScopus rt query count s) = Ok (Obj [])
  /\ http_requests (trace (searchScopus rt query count s))
     = [scopus_request rt query (default_count count)]
  /\ final (searchScopus rt query count s) = sent s.
Proof.
  intros Hbad. destruct (searchScopus_failure_run rt query count s Hbad) as [log Hrun].
  rewrite Hrun. cbn [result final trace http_requests].
  repeat split. now rewrite http_requests_stderr.
Qed.

Lemma searchScopus_failure_witness :
  result (searchScopus offline_runtime (Str (utf16 "graphene")) Undefined start)
  = Ok (Obj [])
  /\ http_requests (trace (searchScopus offline_runtime (Str (utf16 "graphene"))
                             Undefined start))
     = [scopus_request offline_runtime (Str (utf16 "graphene")) (Num 10)]
  /\ final (searchScopus offline_runtime (Str (utf16 "graphene")) Undefined start)
     = sent start.
Proof.
  apply (searchScopus_failure offline_runtime (Str (utf16 "graphene")) Undefined start).
  simpl. exact I.
Defined.

Lemma default_count_twice (count : value) :
  default_count (default_count count) = default_count count.
Proof. now destruct count. Qed.

Lemma searchPapersWithAbstracts_failure_run (rt : runtime) (query count : value)
      (s : state) :
  not_ok (axios_respond rt (http_calls s) (scopus_request rt query (default_count count))) ->
  exists tr,
    searchPapersWithAbstracts rt query count s = mkRun (Ok []) (sent s) tr
    /\ http_requests tr = [scopus_request rt query (default_count count)].
Proof.
  intros Hbad.
  rewrite <- (default_count_twice count) in Hbad.
  destruct (searchScopus_failure_run rt query (default_count count) s Hbad) as [log Hrun].
  eexists. split.
  - unfold searchPapersWithAbstracts. cbv zeta.
    eapply bind_runs; [exact Hrun| |reflexivity].
    cbn [truthy]. eapply lift_runs; [reflexivity|]. reflexivity.
  - cbn [http_requests app]. rewrite app_nil_r, http_requests_stderr.
    now rewrite default_count_twice.
Qed.

(** A search whose request to the primary registry fails is answered like a
    search that found nothing: the tool's text says that no paper was found
    for the keyword, and no provider is asked. *)
Theorem failed_search_reads_as_empty (rt : runtime) (arguments_ : value) (s : state)
        (query count : value) (query_text count_text : jsstring) :
  get_prop arguments_ (utf16 "query") = Ok query ->
  truthy query = true ->
  ToString query = Ok query_text ->
  get_prop arguments_ (utf16 "count") = Ok count ->
  ToString (or_else count (Num 10)) = Ok count_text ->
  not_ok (axios_respond rt (http_calls s)
            (scopus_request rt query (or_else count (Num 10)))) ->
  result (searchPapersTool rt arguments_ s)
  = Ok (Arr [text_block (utf16 "'" ++ query_text
                         ++ utf16 "' 키워드로 검색된 논문이 없습니다.")])
  /\ http_requests (trace (searchPapersTool rt arguments_ s))
     = [scopus_request rt query (or_else count (Num 10))].
Proof.
  intros Hq Htq Hqt Hc Hct Hbad.
  assert (Hdc : default_count (or_else count (Num 10)) = or_else count (Num 10)).
  { unfold or_else. destruct count; try reflexivity; cbn [truthy];
    match goal with |- context [if ?c then _ else _] => destruct c end; reflexivity. }
  rewrite <- Hdc in Hbad.
  destruct (searchPapersWithAbstracts_failure_run rt query (or_else count (Num 10)) s Hbad)
    as (tr & Hrun & Hreq).
  rewrite Hdc in Hreq.
  assert (Htool : searchPapersTool rt arguments_ s
                  = mkRun (Ok (Arr [text_block (utf16 "'" ++ query_text
                                      ++ utf16 "' 키워드로 검색된 논문이 없습니다.")]))
                          (sent s)
                          (Stderr (utf16 "🔍 논문 검색: " ++ QUOTE ++ query_text ++ QUOTE
                                   ++ utf16 " (" ++ count_text ++ utf16 "개)") :: tr)).
  { unfold searchPapersTool.
    eapply lift_runs; [exact Hq|]. cbv zeta.
    eapply lift_runs; [exact Hc|].
    rewrite (or_else_truthy _ _ Htq), Htq. cbn [negb].
    eapply lift_runs; [exact Hqt|].
    eapply lift_runs; [exact Hct|].
    eapply emit_runs; [|reflexivity].
    eapply bind_runs; [exact Hrun| |now rewrite app_nil_r].
    reflexivity. }
  rewrite Htool. cbn [result trace http_requests]. split; [reflexivity|exact Hreq].
Qed.

Lemma failed_search_reads_as_empty_witness :
  result (searchPapersTool offline_runtime (search_arguments (Num 5)) start)
  = Ok (Arr [text_block (utf16 "'" ++ utf16 "graphene"
                         ++ utf16 "' 키워드로 검색된 논문이 없습니다.")])
  /\ http_requests (trace (searchPapersTool offline_runtime (search_arguments (Num 5)) start))
     = [scopus_request offline_runtime (Str (utf16 "graphene")) (or_else (Num 5) (Num 10))].
Proof.
  apply (failed_search_reads_as_empty offline_runtime (search_arguments (Num 5)) start
           (Str (utf16 "graphene")) (Num 5) (utf16 "graphene") (utf16 "5")).
  - reflexivity.
  - reflexivity.
  - reflexivity.
  - reflexivity.
  - vm_compute. reflexivity.
  - simpl. exact I.
Defined.

Lemma searchScopus_ok_run (rt : runtime) (query count : value) (s : state) (data : value) :
  axios_respond rt (http_calls s) (scopus_request rt query (default_count count))
  = Response 200 data ->
  searchScopus rt query count s
  = mkRun (Ok data) (sent s)
          [Call "searchScopus" [query; count];
           HttpGet (scopus_request rt query (default_count count))].
Proof.
  intros Hr. unfold searchScopus. cbv zeta.
  eapply emit_runs; [|reflexivity]. apply try_runs_ok.
  eapply bind_runs; [apply (axios_get_response _ _ _ _ _ Hr)| |reflexivity].
  reflexivity.
Qed.

Lemma get_prop_truthy (v x : value) (key : jsstring) :
  get_prop v key = Ok x -> truthy x = true -> truthy v = true.
Proof.
  destruct v as [| |b|n|t|elems|props]; simpl; intros H Hx;
    try discriminate; try reflexivity;
    try (injection H as <-; discriminate).
  destruct t; [|reflexivity].
  destruct (str_eqb key (utf16 "length")); injection H as <-; discriminate.
Qed.

Lemma sends_bind_lift {A B} (o : outcome A) (f : A -> M B) (n : nat) :
  (forall a, o = Ok a -> sends (f a) n) -> sends (bind (lift o) f) n.
Proof.
  intros H s. destruct o as [a|e].
  - rewrite (run_bind_lift _ _ _ _ eq_refl). apply (H a eq_refl).
  - rewrite (run_bind_lift_throw _ _ _ _ eq_refl). apply Nat.le_0_l.
Qed.

Lemma getAbstractFromCrossref_sends (rt : runtime) (doi : value) :
  sends (getAbstractFromCrossref rt doi) 1.
Proof. unfold getAbstractFromCrossref, console_error. repeat sends_step. Qed.

Lemma getAbstractFromPubMed_sends (rt : runtime) (doi : value) :
  sends (getAbstractFromPubMed rt doi) 2.
Proof. unfold getAbstractFromPubMed, console_error. cbv zeta. repeat sends_step. Qed.

Lemma getBestAbstract_sends (rt : runtime) (doi : value) :
  sends (getBestAbstract rt doi) 3.
Proof.
  unfold getBestAbstract, sources. cbn [for_of]. unfold ask_source, sleep.
  apply sends_bind0; [apply sends_emit; exact I|intros _].
  apply sends_le with (a := (3 + 0)%nat); [|lia]. apply sends_bind.
  - apply (sends_bind _ _ 1 2).
    + apply (sends_bind _ _ 1 0); [apply getAbstractFromCrossref_sends|intros r].
      repeat sends_step.
    + intros acc. apply (sends_bind _ _ 2 0); [|intros ?; apply sends_ret].
      apply (sends_bind _ _ 2 0); [apply getAbstractFromPubMed_sends|intros r].
      repeat sends_step.
  - intros results. destruct results; apply sends_ret.
Qed.

Lemma plain_doi_text (d : value) :
  string_or_absent d = true -> exists t, ToString (or_else d (Str NA)) = Ok t.
Proof.
  destruct d; try discriminate; intros _; unfold or_else;
    match goal with |- context [if ?c then _ else _] => destruct c end;
    eexists; reflexivity.
Qed.

Lemma plain_text (v : value) :
  string_or_absent v = true -> exists t, or_else v (Str []) = Str t.
Proof.
  destruct v; try discriminate; intros _; unfold or_else; cbn [truthy];
    try match goal with |- context [if ?c then _ else _] => destruct c end;
    eexists; reflexivity.
Qed.

Lemma printable_or_else (v d : value) :
  printable v = true -> printable d = true -> printable (or_else v d) = true.
Proof. intros Hv Hd. unfold or_else. now destruct (truthy v). Qed.

Lemma printable_entry_paper (props : list (jsstring * value)) (a b c d : jsstring) :
  printable_entry (Obj props) = true ->
  printable_paper
    (mkPaper (or_else (assoc (utf16 "dc:title") props) (Str NA))
             (or_else (assoc (utf16 "dc:creator") props) (Str NA))
             (or_else (assoc (utf16 "prism:publicationName") props) (Str NA))
             (or_else (assoc (utf16 "prism:coverDate") props) (Str NA))
             (or_else (assoc (utf16 "prism:doi") props) (Str NA))
             (or_else (assoc (utf16 "citedby-count") props) (Num 0))
             a b c d) = true.
Proof.
  unfold printable_entry, printable_paper. cbn [get_prop forallb read_keys].
  intros H. repeat (apply andb_true_iff in H; destruct H as [? H]).
  cbn [paper_title authors publication_name publication_date paper_doi cited_by_count].
  repeat (apply andb_true_iff; split); try reflexivity;
    apply printable_or_else; try reflexivity; assumption.
Qed.

(** The loop body on a plain entry: one paper is added, with the DOI of the
    entry; a DOI costs at most three requests, and an entry without one costs
    none and has no abstract. *)
Lemma assemble_plain_run (rt : runtime) (papers : list Paper) (entry : value) (s : state) :
  plain_entry entry = true ->
  exists p s' tr,
    assemble rt papers entry s = mkRun (Ok (papers ++ [p])) s' tr
    /\ paper_doi p = entry_doi entry
    /\ (List.length (http_requests tr) <= if has_doi entry then 3 else 0)%nat
    /\ (has_doi entry = false ->
        s' = s /\ tr = [] /\ paper_abstract p = NA /\ abstract_source p = NA)
    /\ (printable_entry entry = true -> printable_paper p = true).
Proof.
  destruct entry as [| | | | | |props]; try discriminate.
  unfold plain_entry. intros H.
  apply andb_true_iff in H. destruct H as [H Heid].
  apply andb_true_iff in H. destruct H as [Hdoi Hid].
  destruct (plain_doi_text _ Hdoi) as [doi_text Htext].
  destruct (plain_text _ Hid) as [id_text Hidt].
  destruct (plain_text _ Heid) as [eid_text Heidt].
  unfold has_doi, entry_doi. cbn [get_prop].
  destruct (is_str (or_else (assoc (utf16 "prism:doi") props) (Str NA)) NA) eqn:Hna;
    cbn [negb].
  - eexists. exists s, []. split.
    { unfold assemble.
      eapply lift_runs; [reflexivity|]. cbv zeta. rewrite Hna. cbn [negb].
      eapply bind_runs; [reflexivity| |reflexivity]. cbv beta iota.
      do 6 (eapply lift_runs; [reflexivity|]).
      rewrite Hidt. eapply lift_runs; [reflexivity|].
      eapply lift_runs; [reflexivity|].
      rewrite Heidt. eapply lift_runs; [reflexivity|].
      reflexivity. }
    split; [reflexivity|]. split; [apply Nat.le_0_l|].
    split; [intros _; repeat split|apply printable_entry_paper].
  - destruct (getBestAbstract_returns rt _ s _ Htext) as [r Hr].
    pose proof (getBestAbstract_sends rt
                  (or_else (assoc (utf16 "prism:doi") props) (Str NA)) s) as Hcount.
    destruct (getBestAbstract rt (or_else (assoc (utf16 "prism:doi") props) (Str NA)) s)
      as [o s1 tr1] eqn:Hrun.
    cbn [result] in Hr. cbn [trace] in Hcount. subst o.
    eexists. exists s1, tr1. split.
    { unfold assemble.
      eapply lift_runs; [reflexivity|]. cbv zeta. rewrite Hna. cbn [negb].
      eapply bind_runs; [eapply bind_runs; [exact Hrun|reflexivity|reflexivity]| |].
      - cbv beta iota.
        do 6 (eapply lift_runs; [reflexivity|]).
        rewrite Hidt. eapply lift_runs; [reflexivity|].
        eapply lift_runs; [reflexivity|].
        rewrite Heidt. eapply lift_runs; [reflexivity|].
        reflexivity.
      - now rewrite !app_nil_r. }
    split; [reflexivity|]. split; [exact Hcount|].
    split; [discriminate|apply printable_entry_paper].
Qed.

Lemma for_of_assemble_run (rt : runtime) (entries : list value) :
  forallb plain_entry entries = true ->
  forall (acc : list Paper) (s : state),
  exists papers s' tr,
    for_of entries acc (assemble rt) s = mkRun (Ok (acc ++ papers)) s' tr
    /\ map paper_doi papers = map entry_doi entries
    /\ (List.length (http_requests tr) <= 3 * List.length (filter has_doi entries))%nat
    /\ (forallb printable_entry entries = true -> forallb printable_paper papers = true).
Proof.
  induction entries as [|entry entries IH]; intros Hplain acc s.
  - exists [], s, []. rewrite app_nil_r. repeat split. apply Nat.le_0_l.
  - cbn [forallb] in Hplain. apply andb_true_iff in Hplain. destruct Hplain as [He Hes].
    destruct (assemble_plain_run rt acc entry s He)
      as (p & s1 & tr1 & Hrun & Hdoi & Hn & _ & Hp).
    destruct (IH Hes (acc ++ [p]) s1) as (papers & s2 & tr2 & Hrest & Hdois & Hm & Hps).
    exists (p :: papers), s2, (tr1 ++ tr2). split; [|split; [|split]].
    + cbn [for_of]. eapply bind_runs; [exact Hrun| |reflexivity].
      rewrite Hrest. now rewrite <- app_assoc.
    + cbn [map]. now rewrite Hdoi, Hdois.
    + rewrite http_requests_app, length_app. cbn [filter].
      destruct (has_doi entry); cbn [List.length]; lia.
    + cbn [forallb]. intros H. apply andb_true_iff in H. destruct H as [H1 H2].
      now rewrite (Hp H1), (Hps H2).
Qed.

Lemma search_papers_run (rt : runtime) (query count : value) (s : state)
      (data search_results : value) (entries : list value) :
  axios_respond rt (http_calls s) (scopus_request rt query (default_count count))
  = Response 200 data ->
  get_prop data (utf16 "search-results") = Ok search_results ->
  truthy search_results = true ->
  get_prop search_results (utf16 "entry") = Ok (Arr entries) ->
  forallb plain_entry entries = true ->
  exists papers s' tr,
    searchPapersWithAbstracts rt query count s
    = mkRun (Ok papers) s'
            (Call "searchScopus" [query; default_count count]
               :: HttpGet (scopus_request rt query (default_count count)) :: tr)
    /\ map paper_doi papers = map entry_doi entries
    /\ (List.length (http_requests tr) <= 3 * List.length (filter has_doi entries))%nat
    /\ (forallb printable_entry entries = true -> forallb printable_paper papers = true).
Proof.
  intros Hr Hsr Ht Hentry Hplain.
  rewrite <- (default_count_twice count) in Hr.
  pose proof (searchScopus_ok_run rt query (default_count count) s data Hr) as Hscopus.
  rewrite default_count_twice in Hscopus.
  destruct (for_of_assemble_run rt entries Hplain [] (sent s))
    as (papers & s' & tr & Hloop & Hdois & Hn & Hps).
  exists papers, s', tr. split; [|repeat split; assumption].
  unfold searchPapersWithAbstracts. cbv zeta.
  eapply bind_runs; [exact Hscopus| |reflexivity].
  rewrite (get_prop_truthy _ _ _ Hsr Ht).
  eapply lift_runs; [exact Hsr|]. rewrite Ht.
  eapply lift_runs; [exact Hentry|].
  eapply lift_runs; [reflexivity|]. exact Hloop.
Qed.

(** On an answer of the primary registry whose entries are plain, the search
    returns one paper for each entry, in the order of the entries, with the
    DOI of the entry or ['N/A'] for an entry without one. *)
Theorem search_one_paper_per_entry (rt : runtime) (query count : value) (s : state)
        (data search_results : value) (entries : list value) :
  axios_respond rt (http_calls s) (scopus_request rt query (default_count count))
  = Response 200 data ->
  get_prop data (utf16 "search-results") = Ok search_results ->
  truthy search_results = true ->
  get_prop search_results (utf16 "entry") = Ok (Arr entries) ->
  forallb plain_entry entries = true ->
  exists papers,
    result (searchPapersWithAbstracts rt query count s) = Ok papers
    /\ map paper_doi papers = map entry_doi entries.
Proof.
  intros Hr Hsr Ht Hentry Hplain.
  destruct (search_papers_run rt query count s data search_results entries
              Hr Hsr Ht Hentry Hplain) as (papers & s' & tr & Hrun & Hdois & _ & _).
  exists papers. rewrite Hrun. split; [reflexivity|exact Hdois].
Qed.

Lemma search_one_paper_per_entry_witness :
  exists papers,
    result (searchPapersWithAbstracts library_runtime (Str (utf16 "graphene")) Undefined
              start) = Ok papers
    /\ map paper_doi papers = map entry_doi [first_entry; second_entry].
Proof.
  apply (search_one_paper_per_entry library_runtime (Str (utf16 "graphene")) Undefined
           start library_answer
           (Obj [(utf16 "opensearch:totalResults", Str (utf16 "2"));
                 (utf16 "entry", Arr [first_entry; second_entry])])
           [first_entry; second_entry]).
  - vm_compute. reflexivity.
  - reflexivity.
  - reflexivity.
  - reflexivity.
  - vm_compute. reflexivity.
Defined.

(** The cost of a search in requests: one to the primary registry and at
    most three for each entry that has a DOI; an entry without a DOI costs
    none. *)
Theorem search_request_budget (rt : runtime) (query count : value) (s : state)
        (data search_results : value) (entries : list value) :
  axios_respond rt (http_calls s) (scopus_request rt query (default_count count))
  = Response 200 data ->
  get_prop data (utf16 "search-results") = Ok search_results ->
  truthy search_results = true ->
  get_prop search_results (utf16 "entry") = Ok (Arr entries) ->
  forallb plain_entry entries = true ->
  (List.length (http_requests (trace (searchPapersWithAbstracts rt query count s)))
   <= 1 + 3 * List.length (filter has_doi entries))%nat.
Proof.
  intros Hr Hsr Ht Hentry Hplain.
  destruct (search_papers_run rt query count s data search_results entries
              Hr Hsr Ht Hentry Hplain) as (papers & s' & tr & Hrun & _ & Hn & _).
  rewrite Hrun. cbn [trace http_requests List.length]. lia.
Qed.

Lemma search_request_budget_witness :
  (List.length
     (http_requests
        (trace (searchPapersWithAbstracts library_runtime (Str (utf16 "graphene"))
                  Undefined start)))
   <= 1 + 3 * List.length (filter has_doi [first_entry; second_entry]))%nat.
Proof.
  apply (search_request_budget library_runtime (Str (utf16 "graphene")) Undefined
           start library_answer
           (Obj [(utf16 "opensearch:totalResults", Str (utf16 "2"));
                 (utf16 "entry", Arr [first_entry; second_entry])])
           [first_entry; second_entry]).
  - vm_compute. reflexivity.
  - reflexivity.
  - reflexivity.
  - reflexivity.
  - vm_compute. reflexivity.
Defined.

(** An entry without a DOI is not looked up: the loop body adds its paper
    with the DOI ['N/A'], no abstract and the abstract source ['N/A'], and
    emits nothing. *)
Theorem assemble_without_doi (rt : runtime) (papers : list Paper) (entry : value)
        (s : state) :
  plain_entry entry = true ->
  has_doi entry = false ->
  exists p,
    assemble rt papers entry s = mkRun (Ok (papers ++ [p])) s []
    /\ paper_doi p = Str NA
    /\ paper_abstract p = NA
    /\ abstract_source p = NA.
Proof.
  intros Hplain Hno.
  destruct (assemble_plain_run rt papers entry s Hplain)
    as (p & s' & tr & Hrun & Hdoi & _ & Hnone & _).
  destruct (Hnone Hno) as (-> & -> & Ha & Hs).
  exists p. repeat split; try assumption.
  rewrite Hdoi. apply is_str_eq. unfold has_doi in Hno.
  now apply negb_false_iff in Hno.
Qed.

Lemma assemble_without_doi_witness :
  exists p,
    assemble sample_runtime [] second_entry start = mkRun (Ok ([] ++ [p])) start []
    /\ paper_doi p = Str NA
    /\ paper_abstract p = NA
    /\ abstract_source p = NA.
Proof.
  apply (assemble_without_doi sample_runtime [] second_entry start).
  - vm_compute. reflexivity.
  - vm_compute. reflexivity.
Defined.

(** ** The tools *)

(** The text of a DOI lookup follows the selector: title, source and
    abstract of the better success of the two providers, or the sentence that
    no abstract was found when both fail. *)
Theorem doi_lookup_text (rt : runtime) (arguments_ doi : value) (s : state)
        (doi_text title_text : jsstring) (rA rB : AbstractResult) :
  get_prop arguments_ (utf16 "doi") = Ok doi ->
  truthy doi = true ->
  ToString doi = Ok doi_text ->
  result (getAbstractFromCrossref rt doi s) = Ok rA ->
  result (getAbstractFromPubMed rt doi (final (getAbstractFromCrossref rt doi s))) = Ok rB ->
  ToString (or_else (title (best_of rA rB)) (Str NA)) = Ok title_text ->
  result (getAbstractByDoiTool rt arguments_ s)
  = Ok (Arr [text_block (if success (best_of rA rB)
                         then found_text doi_text title_text (best_of rA rB)
                         else not_found_text doi_text)]).
Proof.
  intros Hdoi Ht Htext HA HB Htitle.
  pose proof (getBestAbstract_result rt doi s rA rB HA HB) as Hbest.
  fold (best_of rA rB) in Hbest.
  unfold getAbstractByDoiTool.
  rewrite (run_bind_lift _ _ _ _ Hdoi). cbv zeta.
  rewrite (or_else_truthy _ _ Ht), Ht. cbn [negb].
  rewrite (run_bind_lift _ _ _ _ Htext).
  unfold console_error. rewrite run_bind_emit. cbn [result].
  rewrite (run_bind _ _ _ _ Hbest). cbn [result].
  destruct (success (best_of rA rB)).
  - rewrite (run_bind_lift _ _ _ _ Htitle). reflexivity.
  - reflexivity.
Qed.

Lemma doi_lookup_text_witness :
  result (getAbstractByDoiTool sample_runtime (Obj [(utf16 "doi", Str sample_doi)]) start)
  = Ok (Arr [text_block (if success (best_of crossref_answer pubmed_answer)
                         then found_text sample_doi (utf16 "Example title")
                                (best_of crossref_answer pubmed_answer)
                         else not_found_text sample_doi)]).
Proof.
  apply (doi_lookup_text sample_runtime (Obj [(utf16 "doi", Str sample_doi)])
           (Str sample_doi) start sample_doi (utf16 "Example title")
           crossref_answer pubmed_answer).
  - reflexivity.
  - reflexivity.
  - reflexivity.
  - vm_compute. reflexivity.
  - vm_compute. reflexivity.
  - vm_compute. reflexivity.
Defined.

Example doi_lookup_sample :
  result (getAbstractByDoiTool sample_runtime (Obj [(utf16 "doi", Str sample_doi)]) start)
  = Ok (Arr [text_block
               (utf16 "DOI: 10.1016/S0014-5793(01)03313-0" ++ NL
                ++ utf16 "제목: Example title" ++ NL
                ++ utf16 "초록 소스: crossref" ++ NL
                ++ utf16 "초록: Example abstract." ++ NL)]).
Proof. vm_compute. reflexivity. Qed.

(** What [handleCallTool] makes of the run of the tool it chose: the result
    of the tool, or the text of what the tool threw, is the content of a
    result. *)
Lemma handleCallTool_run (rt : runtime) (request : value) (s s' : state)
      (params name args id : value) (name_text : jsstring) (o : outcome value)
      (tr : list event) :
  get_prop request (utf16 "params") = Ok params ->
  get_prop (or_else params (Obj [])) (utf16 "name") = Ok name ->
  get_prop (or_else params (Obj [])) (utf16 "arguments") = Ok args ->
  ToString name = Ok name_text ->
  get_prop request (utf16 "id") = Ok id ->
  chosen_tool rt name (or_else args (Obj [])) name_text s = mkRun o s' tr ->
  handleCallTool rt request s
  = mkRun (Ok (rpc_result id
                 (Obj [(utf16 "content",
                        match o with
                        | Ok content => content
                        | Throw e =>
                          Arr [text_block (utf16 "도구 실행 중 오류가 발생했습니다: "
                                           ++ message e)]
                        end)])))
          s'
          (Stderr (utf16 "🛠️ 도구 호출: " ++ name_text)
             :: tr ++ match o with
                      | Ok _ => []
                      | Throw e => [Stderr (utf16 "❌ 도구 실행 오류: " ++ message e)]
                      end).
Proof.
  intros Hparams Hname Hargs Htext Hid Htool.
  unfold handleCallTool.
  eapply lift_runs; [exact Hparams|]. cbv zeta.
  eapply lift_runs; [exact Hname|].
  eapply lift_runs; [exact Hargs|].
  eapply lift_runs; [exact Htext|].
  eapply emit_runs; [|reflexivity].
  fold (chosen_tool rt name (or_else args (Obj [])) name_text).
  destruct o as [content|e].
  - eapply bind_runs; [apply try_runs_ok; exact Htool| |reflexivity].
    eapply lift_runs; [exact Hid|]. reflexivity.
  - eapply bind_runs;
      [eapply try_runs_throw; [exact Htool|reflexivity|reflexivity]| |].
    + eapply lift_runs; [exact Hid|]. reflexivity.
    + now rewrite app_nil_r.
Qed.

(** What a tool throws never leaves [handleCallTool]: the request is
    answered with a result, not with an error object, whose content is one
    text block with the message of the error. *)
Theorem tool_error_in_band (rt : runtime) (request : value) (s : state)
        (params name args id : value) (name_text : jsstring) (e : js_error) :
  get_prop request (utf16 "params") = Ok params ->
  get_prop (or_else params (Obj [])) (utf16 "name") = Ok name ->
  get_prop (or_else params (Obj [])) (utf16 "arguments") = Ok args ->
  ToString name = Ok name_text ->
  get_prop request (utf16 "id") = Ok id ->
  result (chosen_tool rt name (or_else args (Obj [])) name_text s) = Throw e ->
  result (handleCallTool rt request s)
  = Ok (rpc_result id
          (Obj [(utf16 "content",
                 Arr [text_block (utf16 "도구 실행 중 오류가 발생했습니다: "
                                  ++ message e)])])).
Proof.
  intros Hparams Hname Hargs Htext Hid Hthrow.
  destruct (chosen_tool rt name (or_else args (Obj [])) name_text s) as [o s' tr] eqn:Htool.
  cbn [result] in Hthrow. subst o.
  now rewrite (handleCallTool_run rt request s s' params name args id name_text _ tr
                 Hparams Hname Hargs Htext Hid Htool).
Qed.

Lemma tool_error_in_band_witness :
  result (handleCallTool odd_answer_runtime
            (request_of 2 "tools/call"
               [(utf16 "name", Str (utf16 "search_papers"));
                (utf16 "arguments", search_arguments (Num 5))]) start)
  = Ok (rpc_result (Num 2)
          (Obj [(utf16 "content",
                 Arr [text_block (utf16 "도구 실행 중 오류가 발생했습니다: "
                                  ++ message (mkError TypeError
                                                (utf16 "entries is not iterable")))])])).
Proof.
  apply (tool_error_in_band odd_answer_runtime
           (request_of 2 "tools/call"
              [(utf16 "name", Str (utf16 "search_papers"));
               (utf16 "arguments", search_arguments (Num 5))]) start
           (Obj [(utf16 "name", Str (utf16 "search_papers"));
                 (utf16 "arguments", search_arguments (Num 5))])
           (Str (utf16 "search_papers")) (search_arguments (Num 5)) (Num 2)
           (utf16 "search_papers")
           (mkError TypeError (utf16 "entries is not iterable"))).
  - reflexivity.
  - reflexivity.
  - reflexivity.
  - reflexivity.
  - reflexivity.
  - vm_compute. reflexivity.
Defined.

(** [get_abstract_by_doi] without a DOI, or with an empty one, is answered
    with the request for a DOI at once: the call logs the tool name and does
    nothing else. *)
Theorem missing_doi_prompts (rt : runtime) (request : value) (s : state)
        (params args doi id : value) :
  get_prop request (utf16 "params") = Ok params ->
  get_prop (or_else params (Obj [])) (utf16 "name")
  = Ok (Str (utf16 "get_abstract_by_doi")) ->
  get_prop (or_else params (Obj [])) (utf16 "arguments") = Ok args ->
  get_prop (or_else args (Obj [])) (utf16 "doi") = Ok doi ->
  truthy doi = false ->
  get_prop request (utf16 "id") = Ok id ->
  handleCallTool rt request s
  = mkRun (Ok (rpc_result id
                 (Obj [(utf16 "content",
                        Arr [text_block (utf16 "DOI를 입력해주세요.")])])))
          s [Stderr (utf16 "🛠️ 도구 호출: " ++ utf16 "get_abstract_by_doi")].
Proof.
  intros Hparams Hname Hargs Hdoi Ht Hid.
  apply (handleCallTool_run rt request s s params (Str (utf16 "get_abstract_by_doi")) args id
           (utf16 "get_abstract_by_doi")
           (Ok (Arr [text_block (utf16 "DOI를 입력해주세요.")])) []
           Hparams Hname Hargs eq_refl Hid).
  unfold chosen_tool.
  change (is_str (Str (utf16 "get_abstract_by_doi")) (utf16 "search_papers")) with false.
  change (is_str (Str (utf16 "get_abstract_by_doi")) (utf16 "get_abstract_by_doi"))
    with true.
  cbv iota. unfold getAbstractByDoiTool.
  eapply lift_runs; [exact Hdoi|]. cbv zeta.
  rewrite (or_else_falsy _ _ Ht). reflexivity.
Qed.

Lemma missing_doi_prompts_witness :
  handleCallTool sample_runtime
    (request_of 5 "tools/call" [(utf16 "name", Str (utf16 "get_abstract_by_doi"))]) start
  = mkRun (Ok (rpc_result (Num 5)
                 (Obj [(utf16 "content",
                        Arr [text_block (utf16 "DOI를 입력해주세요.")])])))
          start [Stderr (utf16 "🛠️ 도구 호출: " ++ utf16 "get_abstract_by_doi")].
Proof.
  apply (missing_doi_prompts sample_runtime
           (request_of 5 "tools/call" [(utf16 "name", Str (utf16 "get_abstract_by_doi"))])
           start
           (Obj [(utf16 "name", Str (utf16 "get_abstract_by_doi"))])
           Undefined Undefined (Num 5)).
  - reflexivity.
  - reflexivity.
  - reflexivity.
  - reflexivity.
  - reflexivity.
  - reflexivity.
Defined.

Lemma printable_text (v : value) : printable v = true -> exists t, ToString v = Ok t.
Proof.
  unfold printable. destruct (ToString v) as [t|e]; [eauto|discriminate].
Qed.

Lemma format_papers_extends (papers : list Paper) :
  forallb printable_paper papers = true ->
  forall (i : nat) (resultText : jsstring),
  exists rest, format_papers i papers resultText = Ok (resultText ++ rest).
Proof.
  induction papers as [|paper papers IH]; intros Hp i resultText.
  - exists []. now rewrite app_nil_r.
  - cbn [forallb] in Hp. apply andb_true_iff in Hp. destruct Hp as [Hpaper Hrest].
    unfold printable_paper in Hpaper.
    repeat match goal with
           | H : _ && _ = true |- _ => apply andb_true_iff in H; destruct H
           end.
    repeat match goal with
           | H : printable _ = true |- _ => apply printable_text in H; destruct H as [? H]
           end.
    cbn [format_papers].
    repeat match goal with
           | H : ToString _ = Ok _ |- _ => rewrite H; clear H
           end.
    cbn [obind].
    match goal with
    | |- exists rest, format_papers _ _ (resultText ++ ?block) = _ =>
      destruct (IH Hrest (S i) (resultText ++ block)) as [rest Hrec];
        exists (block ++ rest); rewrite Hrec; now rewrite <- app_assoc
    end.
Qed.

(** A search that finds papers tells how many: on an answer of the primary
    registry with printable entries, at least one, the tool returns one text
    block that begins with the keyword and the number of the entries. *)
Theorem search_reports_count (rt : runtime) (arguments_ : value) (s : state)
        (query count data search_results : value) (query_text count_text : jsstring)
        (entries : list value) :
  get_prop arguments_ (utf16 "query") = Ok query ->
  truthy query = true ->
  ToString query = Ok query_text ->
  get_prop arguments_ (utf16 "count") = Ok count ->
  ToString (or_else count (Num 10)) = Ok count_text ->
  axios_respond rt (http_calls s) (scopus_request rt query (or_else count (Num 10)))
  = Response 200 data ->
  get_prop data (utf16 "search-results") = Ok search_results ->
  truthy search_results = true ->
  get_prop search_results (utf16 "entry") = Ok (Arr entries) ->
  entries <> [] ->
  forallb plain_entry entries = true ->
  forallb printable_entry entries = true ->
  exists rest,
    result (searchPapersTool rt arguments_ s)
    = Ok (Arr [text_block
                 (utf16 "'" ++ query_text ++ utf16 "' 키워드로 "
                  ++ Number_toString (Z.of_nat (List.length entries))
                  ++ utf16 "개 논문을 찾았습니다:" ++ NL ++ NL ++ rest)]).
Proof.
  intros Hq Htq Hqt Hc Hct Hr Hsr Ht Hentry Hsome Hplain Hprintable.
  assert (Hdc : default_count (or_else count (Num 10)) = or_else count (Num 10)).
  { unfold or_else. destruct count; try reflexivity; cbn [truthy];
      match goal with |- context [if ?c then _ else _] => destruct c end; reflexivity. }
  rewrite <- Hdc in Hr.
  destruct (search_papers_run rt query (or_else count (Num 10)) s data search_results entries
              Hr Hsr Ht Hentry Hplain) as (papers & s' & tr & Hrun & Hdois & _ & Hps).
  assert (Hlen : List.length papers = List.length entries).
  { rewrite <- (length_map paper_doi papers), Hdois. apply length_map. }
  destruct (format_papers_extends papers (Hps Hprintable) 0
              (utf16 "'" ++ query_text ++ utf16 "' 키워드로 "
               ++ Number_toString (Z.of_nat (List.length papers))
               ++ utf16 "개 논문을 찾았습니다:" ++ NL ++ NL)) as [rest Hformat].
  exists rest.
  unfold searchPapersTool.
  rewrite (run_bind_lift _ _ _ _ Hq). cbv zeta.
  rewrite (run_bind_lift _ _ _ _ Hc).
  rewrite (or_else_truthy _ _ Htq), Htq. cbn [negb].
  rewrite (run_bind_lift _ _ _ _ Hqt), (run_bind_lift _ _ _ _ Hct).
  unfold console_error. rewrite run_bind_emit. cbn [result].
  rewrite (run_bind _ _ _ papers) by (rewrite Hrun; reflexivity).
  cbn [result].
  assert (Hpos : (List.length papers =? 0)%nat = false).
  { apply Nat.eqb_neq. rewrite Hlen. destruct entries; [congruence|discriminate]. }
  rewrite Hpos. rewrite (run_bind_lift _ _ _ _ Hformat). cbn [result ret].
  rewrite Hlen. rewrite <- !app_assoc. reflexivity.
Qed.

Lemma search_reports_count_witness :
  exists rest,
    result (searchPapersTool library_runtime (search_arguments (Num 5)) start)
    = Ok (Arr [text_block
                 (utf16 "'" ++ utf16 "graphene" ++ utf16 "' 키워드로 "
                  ++ Number_toString (Z.of_nat (List.length [first_entry; second_entry]))
                  ++ utf16 "개 논문을 찾았습니다:" ++ NL ++ NL ++ rest)]).
Proof.
  apply (search_reports_count library_runtime (search_arguments (Num 5)) start
           (Str (utf16 "graphene")) (Num 5) library_answer
           (Obj [(utf16 "opensearch:totalResults", Str (utf16 "2"));
                 (utf16 "entry", Arr [first_entry; second_entry])])
           (utf16 "graphene") (utf16 "5") [first_entry; second_entry]).
  - reflexivity.
  - reflexivity.
  - reflexivity.
  - reflexivity.
  - vm_compute. reflexivity.
  - vm_compute. reflexivity.
  - reflexivity.
  - reflexivity.
  - reflexivity.
  - discriminate.
  - vm_compute. reflexivity.
  - vm_compute. reflexivity.
Defined.

(** ** The line handler *)

Lemma emits_set_initialized (P : event -> Prop) : emits set_initialized P.
Proof. intros s. constructor. Qed.

Lemma dispatch_silent (rt : runtime) (request method : value) :
  emits (dispatch rt request method) silent.
Proof.
  unfold dispatch, handleInitialize, handleListTools, console_error.
  repeat first [apply handleCallTool_silent | apply emits_set_initialized | emits_step].
Qed.

Lemma writes_silent {A} (m : M A) (n : nat) : emits m silent -> writes m n.
Proof. intros H s. rewrite (silent_stdout _ (H s)). apply Nat.le_0_l. Qed.

Lemma writes_bind {A B} (m : M A) (f : A -> M B) (n : nat) :
  emits m silent -> (forall a, writes (f a) n) -> writes (bind m f) n.
Proof.
  intros Hm Hf s. unfold bind. pose proof (silent_stdout _ (Hm s)) as Hs.
  destruct (result (m s)) as [a|e]; cbn [trace].
  - rewrite stdout_lines_app, Hs. apply Hf.
  - rewrite Hs. apply Nat.le_0_l.
Qed.

Lemma writes_if {A} (c : bool) (m1 m2 : M A) (n : nat) :
  writes m1 n -> writes m2 n -> writes (if c then m1 else m2) n.
Proof. now destruct c. Qed.

Lemma on_line_try_writes (rt : runtime) (line : jsstring) : writes (on_line_try rt line) 1.
Proof.
  unfold on_line_try, console_error, console_log_json.
  apply writes_if; [apply writes_silent; repeat emits_step|].
  do 7 (apply writes_bind; [repeat emits_step|intros ?]).
  apply writes_bind; [apply dispatch_silent|intros response].
  apply writes_if; [|apply writes_silent; repeat emits_step].
  do 2 (apply writes_bind; [repeat emits_step|intros ?]).
  intros s. apply Nat.le_refl.
Qed.

(** Whatever the line and whatever the world answers, the handler writes at
    most one line on the protocol stream: no request is answered twice. *)
Theorem on_line_at_most_one_line (rt : runtime) (line : jsstring) (s : state) :
  (List.length (stdout_lines (trace (on_line rt line s))) <= 1)%nat.
Proof.
  pose proof (on_line_try_writes rt line s) as Htry.
  destruct (on_line_try rt line s) as [o s' tr] eqn:Hrun. cbn [trace] in Htry.
  destruct o as [[]|e].
  - now rewrite (on_line_of_ok _ _ _ _ _ Hrun).
  - rewrite (on_line_of_throw _ _ _ _ _ _ Hrun). cbn [trace].
    rewrite stdout_lines_app. cbn [stdout_lines]. now rewrite app_nil_r.
Qed.

Lemma blind_ret {A} (a : A) : blind (ret a).
Proof. intros n b b'. repeat split. Qed.

Lemma blind_lift {A} (o : outcome A) : blind (lift o).
Proof. intros n b b'. repeat split. Qed.

Lemma blind_emit (ev : event) : blind (emit ev).
Proof. intros n b b'. repeat split. Qed.

Lemma blind_set_initialized : blind set_initialized.
Proof. intros n b b'. repeat split. Qed.

Lemma blind_axios_get (rt : runtime) (req : http_request) : blind (axios_get rt req).
Proof.
  intros n b b'. unfold axios_get. cbn [http_calls].
  destruct (axios_respond rt n req); repeat split.
Qed.

Lemma blind_bind {A B} (m : M A) (f : A -> M B) :
  blind m -> (forall a, blind (f a)) -> blind (bind m f).
Proof.
  intros Hm Hf n b b'. destruct (Hm n b b') as (Hr & Ht & Hc). unfold bind.
  rewrite <- Hr, <- Ht.
  destruct (result (m (mkState n b))) as [a|e]; cbn [result trace final].
  - destruct (final (m (mkState n b))) as [n1 b1].
    destruct (final (m (mkState n b'))) as [n2 b2]. cbn [http_calls] in Hc. subst n2.
    destruct (Hf a n1 b1 b2) as (Hr' & Ht' & Hc'). now rewrite Hr', Ht', Hc'.
  - repeat split. exact Hc.
Qed.

Lemma blind_try {A} (body : M A) (h : js_error -> M A) :
  blind body -> (forall e, blind (h e)) -> blind (try_catch body h).
Proof.
  intros Hb Hh n b b'. destruct (Hb n b b') as (Hr & Ht & Hc). unfold try_catch.
  rewrite <- Hr.
  destruct (result (body (mkState n b))) as [a|e] eqn:Hres.
  - rewrite Hres. repeat split; assumption.
  - cbn [result trace final]. rewrite <- Ht.
    destruct (final (body (mkState n b))) as [n1 b1].
    destruct (final (body (mkState n b'))) as [n2 b2]. cbn [http_calls] in Hc. subst n2.
    destruct (Hh e n1 b1 b2) as (Hr' & Ht' & Hc'). now rewrite Hr', Ht', Hc'.
Qed.

Lemma blind_if {A} (c : bool) (m1 m2 : M A) :
  blind m1 -> blind m2 -> blind (if c then m1 else m2).
Proof. now destruct c. Qed.

Lemma blind_for_of {A B} (xs : list A) (acc : B) (body : B -> A -> M B) :
  (forall acc x, blind (body acc x)) -> blind (for_of xs acc body).
Proof.
  intros H. revert acc. induction xs as [|x xs IH]; intros acc; cbn [for_of].
  - apply blind_ret.
  - apply blind_bind; [apply H|intros acc'; apply IH].
Qed.

Ltac blind_step :=
  first
    [ apply blind_ret
    | apply blind_lift
    | apply blind_emit
    | apply blind_set_initialized
    | apply blind_axios_get
    | apply blind_bind; [|intros ?]
    | apply blind_try; [|intros ?]
    | apply blind_if
    | apply blind_for_of; intros ? ?
    | match goal with
      | |- blind (let (_, _) := ?p in _) => destruct p
      | |- blind (match ?l with [] => _ | _ :: _ => _ end) => destruct l
      end ].

Lemma getBestAbstract_blind (rt : runtime) (doi : value) : blind (getBestAbstract rt doi).
Proof.
  unfold getBestAbstract, sources. cbn [for_of].
  unfold ask_source, sleep, getAbstractFromCrossref, getAbstractFromPubMed, console_error.
  repeat blind_step.
Qed.

Lemma searchPapersWithAbstracts_blind (rt : runtime) (query count : value) :
  blind (searchPapersWithAbstracts rt query count).
Proof.
  unfold searchPapersWithAbstracts, searchScopus, assemble, console_error.
  repeat first [apply getBestAbstract_blind | blind_step].
Qed.

Lemma handleCallTool_blind (rt : runtime) (request : value) :
  blind (handleCallTool rt request).
Proof.
  unfold handleCallTool, searchPapersTool, getAbstractByDoiTool, console_error.
  repeat first [apply searchPapersWithAbstracts_blind | apply getBestAbstract_blind
               | blind_step].
Qed.

Lemma on_line_blind (rt : runtime) (line : jsstring) : blind (on_line rt line).
Proof.
  unfold on_line, on_line_try, on_line_catch, dispatch, handleInitialize, handleListTools,
    console_error, console_log_json.
  repeat first [apply handleCallTool_blind | blind_step].
Qed.

(** The handler never reads the flag that [initialize] sets: a line is
    answered in the same way, with the same requests and the same lines on
    both streams, before the client has sent [initialize] and after. *)
Theorem on_line_ignores_initialized (rt : runtime) (line : jsstring) (n : nat) :
  result (on_line rt line (mkState n false)) = result (on_line rt line (mkState n true))
  /\ trace (on_line rt line (mkState n false)) = trace (on_line rt line (mkState n true)).
Proof.
  destruct (on_line_blind rt line n false true) as (Hr & Ht & _). split; assumption.
Qed.

(** A request whose method is none of the four the server knows, a missing
    method among them, is answered with the error -32601 that names the
    method as a template literal prints it. *)
Theorem unknown_method_answered (rt : runtime) (line : jsstring) (s : state)
        (request method id : value) (method_text id_text : jsstring) :
  is_empty (trim line) = false ->
  JSON_parse rt (trim line) = Ok request ->
  get_prop request (utf16 "method") = Ok method ->
  ToString method = Ok method_text ->
  is_str method (utf16 "initialize") = false ->
  is_str method (utf16 "tools/list") = false ->
  is_str method (utf16 "tools/call") = false ->
  is_str method (utf16 "notifications/initialized") = false ->
  get_prop request (utf16 "id") = Ok id ->
  ToString id = Ok id_text ->
  result (on_line rt line s) = Ok tt
  /\ stdout_lines (trace (on_line rt line s))
     = [rpc_error id (-32601) (utf16 "Method not found: " ++ method_text)].
Proof.
  intros Hne Hp Hm Hmt H1 H2 H3 H4 Hid Hit.
  assert (Hd : dispatch rt request method s
               = mkRun (Ok (rpc_error id (-32601)
                              (utf16 "Method not found: " ++ method_text))) s
                       [Stderr (utf16 "❌ 알 수 없는 메서드: " ++ method_text)]).
  { unfold dispatch. rewrite H1, H2, H3, H4.
    eapply lift_runs; [exact Hmt|].
    eapply emit_runs; [|reflexivity].
    eapply lift_runs; [exact Hid|]. reflexivity. }
  apply (on_line_writes rt line s s request method id _ (Str (utf16 "2.0"))
           method_text id_text _ Hne Hp Hm Hmt Hid Hit Hd); reflexivity.
Qed.

Lemma unknown_method_answered_witness :
  result (on_line ping_runtime line_ping start) = Ok tt
  /\ stdout_lines (trace (on_line ping_runtime line_ping start))
     = [rpc_error (Num 9) (-32601) (utf16 "Method not found: " ++ utf16 "ping")].
Proof.
  apply (unknown_method_answered ping_runtime line_ping start ping_request
           (Str (utf16 "ping")) (Num 9) (utf16 "ping") (utf16 "9")).
  - vm_compute. reflexivity.
  - vm_compute. reflexivity.
  - reflexivity.
  - reflexivity.
  - reflexivity.
  - reflexivity.
  - reflexivity.
  - reflexivity.
  - reflexivity.
  - vm_compute. reflexivity.
Defined.

(** ** Start-up *)

Lemma try_config_truthy (h : host) (configPath : jsstring) (key : value) :
  try_config h configPath = Found key -> truthy key = true.
Proof.
  unfold try_config.
  destruct (fs_existsSync h configPath); [|discriminate].
  destruct (fs_readFileSync h configPath) as [text|msg]; [|discriminate].
  destruct (host_JSON_parse h text) as [config|e]; [|discriminate].
  destruct (get_prop config (utf16 "scopus_api_key")) as [k|e]; [|discriminate].
  destruct (truthy k) eqn:Hk; [|discriminate].
  now intros [= <-].
Qed.

Lemma scan_configs_found (h : host) (paths : list jsstring) (key : value) :
  snd (scan_configs h paths) = Some key ->
  exists configPath, In configPath paths /\ try_config h configPath = Found key.
Proof.
  induction paths as [|p paths IH]; cbn [scan_configs]; [discriminate|].
  destruct (try_config h p) as [k| |msg] eqn:Hp.
  - cbn [snd]. intros [= <-]. exists p. split; [now left|exact Hp].
  - intros H. destruct (IH H) as (q & Hq & Hfound). exists q. split; [now right|exact Hfound].
  - destruct (scan_configs h paths) as [log found]. cbn [snd] in *.
    intros H. destruct (IH H) as (q & Hq & Hfound). exists q. split; [now right|exact Hfound].
Qed.

Lemma loadApiKey_from_files (h : host) :
  truthy (Str (match env_SCOPUS_API_KEY h with Some key => key | None => [] end)) = false ->
  loadApiKey h
  = (fst (scan_configs h (configPaths h))
       ++ match snd (scan_configs h (configPaths h)) with
          | Some _ => []
          | None => showApiKeySetupInstructions
          end,
     match snd (scan_configs h (configPaths h)) with
     | Some key => inl key
     | None => inr key_required
     end).
Proof.
  intros Henv. unfold loadApiKey.
  assert (Hfiles : (let (log, found) := scan_configs h (configPaths h) in
                    match found with
                    | Some key => (log, inl key)
                    | None => (log ++ showApiKeySetupInstructions, inr key_required)
                    end)
                   = (fst (scan_configs h (configPaths h))
                        ++ match snd (scan_configs h (configPaths h)) with
                           | Some _ => []
                           | None => showApiKeySetupInstructions
                           end,
                      match snd (scan_configs h (configPaths h)) with
                      | Some key => inl key
                      | None => inr key_required
                      end)).
  { destruct (scan_configs h (configPaths h)) as [log [key|]]; cbn [fst snd];
      [now rewrite app_nil_r|reflexivity]. }
  cbv zeta. destruct (env_SCOPUS_API_KEY h) as [key|]; [|exact Hfiles].
  rewrite Henv. exact Hfiles.
Qed.

(** The key the program starts with is never empty: [loadApiKey] returns
    the variable of the environment when it is a non-empty string, or else a
    truthy [scopus_api_key] of one of the four configuration files. *)
Theorem loadApiKey_key_truthy (h : host) (log : list event) (key : value) :
  loadApiKey h = (log, inl key) ->
  truthy key = true
  /\ (env_SCOPUS_API_KEY h <> None /\ env_SCOPUS_API_KEY h <> Some []
      /\ Some key = option_map Str (env_SCOPUS_API_KEY h)
      \/ exists configPath,
           In configPath (configPaths h) /\ try_config h configPath = Found key).
Proof.
  intros Hload.
  destruct (truthy (Str (match env_SCOPUS_API_KEY h with Some k => k | None => [] end)))
    eqn:Henv.
  - unfold loadApiKey in Hload. destruct (env_SCOPUS_API_KEY h) as [k|]; [|discriminate Henv].
    rewrite Henv in Hload. injection Hload as _ <-. split; [exact Henv|].
    left. repeat split; try discriminate.
    intros [= ->]. discriminate Henv.
  - rewrite (loadApiKey_from_files h Henv) in Hload.
    destruct (snd (scan_configs h (configPaths h))) as [k|] eqn:Hscan; [|discriminate].
    injection Hload as _ <-.
    destruct (scan_configs_found h _ k Hscan) as (p & Hin & Hp).
    split; [exact (try_config_truthy h p k Hp)|]. right. exists p. split; assumption.
Qed.

Lemma loadApiKey_key_truthy_witness :
  truthy (Str (utf16 "abc123")) = true
  /\ (env_SCOPUS_API_KEY sample_host <> None /\ env_SCOPUS_API_KEY sample_host <> Some []
      /\ Some (Str (utf16 "abc123")) = option_map Str (env_SCOPUS_API_KEY sample_host)
      \/ exists configPath,
           In configPath (configPaths sample_host)
           /\ try_config sample_host configPath = Found (Str (utf16 "abc123"))).
Proof.
  apply (loadApiKey_key_truthy sample_host
           [Stderr (utf16 "⚠️ Error reading config file " ++ utf16 "./config.json"
                    ++ utf16 ": " ++ utf16 "Unexpected end of JSON input");
            Stderr (utf16 "✅ Scopus API Key loaded from config file: "
                    ++ utf16 "/srv/app/src/config.json")]
           (Str (utf16 "abc123"))).
  vm_compute. reflexivity.
Defined.

Lemma scan_configs_first (h : host) (before after : list jsstring) (p : jsstring)
      (key : value) :
  (forall q, In q before -> forall k, try_config h q <> Found k) ->
  try_config h p = Found key ->
  snd (scan_configs h (before ++ p :: after)) = Some key.
Proof.
  intros Hbefore Hp. induction before as [|q before IH]; cbn [app scan_configs].
  - now rewrite Hp.
  - destruct (try_config h q) as [k| |msg] eqn:Hq.
    + exfalso. apply (Hbefore q (or_introl eq_refl) k Hq).
    + apply IH. intros q' Hin. apply Hbefore. now right.
    + destruct (scan_configs h (before ++ p :: after)) as [log found]. cbn [snd] in *.
      apply IH. intros q' Hin. apply Hbefore. now right.
Qed.

(** Without the variable the key is that of the first configuration file,
    in the order of the four paths, that exists, parses and has a truthy
    [scopus_api_key]: a file before it that is missing, unreadable or
    ill-formed does not stop the start-up. *)
Theorem loadApiKey_first_usable_config (h : host) (before after : list jsstring)
        (p : jsstring) (key : value) :
  env_SCOPUS_API_KEY h = None \/ env_SCOPUS_API_KEY h = Some [] ->
  configPaths h = before ++ p :: after ->
  (forall q, In q before -> forall k, try_config h q <> Found k) ->
  try_config h p = Found key ->
  snd (loadApiKey h) = inl key.
Proof.
  intros Henv Hpaths Hbefore Hp.
  rewrite loadApiKey_from_files by (destruct Henv as [-> | ->]; reflexivity).
  cbn [snd]. rewrite Hpaths. now rewrite (scan_configs_first h before after p key Hbefore Hp).
Qed.

Lemma loadApiKey_first_usable_config_witness :
  snd (loadApiKey sample_host) = inl (Str (utf16 "abc123")).
Proof.
  apply (loadApiKey_first_usable_config sample_host
           [utf16 "./config.json"; utf16 "./config/config.json";
            utf16 "/srv/app" ++ utf16 "/" ++ utf16 "config.json"]
           [] (utf16 "/srv/app/src" ++ utf16 "/" ++ utf16 "config.json")
           (Str (utf16 "abc123"))).
  - left. reflexivity.
  - reflexivity.
  - intros q Hin k.
    destruct Hin as [<- | [<- | [<- | []]]]; vm_compute; discriminate.
  - vm_compute. reflexivity.
Defined.

Lemma scan_configs_diagnostic (h : host) (paths : list jsstring) :
  Forall diagnostic (fst (scan_configs h paths)).
Proof.
  induction paths as [|p paths IH]; cbn [scan_configs]; [constructor|].
  destruct (try_config h p) as [k| |msg].
  - repeat constructor.
  - exact IH.
  - destruct (scan_configs h paths) as [log found]. cbn [fst] in *.
    constructor; [exact I|exact IH].
Qed.

Lemma scan_configs_none (h : host) (paths : list jsstring) :
  (forall q, In q paths -> forall k, try_config h q <> Found k) ->
  snd (scan_configs h paths) = None.
Proof.
  intros Hnone. destruct (snd (scan_configs h paths)) as [key|] eqn:Hscan; [|reflexivity].
  destruct (scan_configs_found h paths key Hscan) as (q & Hin & Hq).
  exfalso. apply (Hnone q Hin key Hq).
Qed.

Lemma diagnostic_stdout (log : list event) : Forall diagnostic log -> stdout_lines log = [].
Proof.
  induction 1 as [|ev log Hev _ IH]; [reflexivity|].
  destruct ev; try destruct Hev. exact IH.
Qed.

(** Without a key the program does not serve: with the variable unset or
    empty and no configuration file that gives a key, [main] prints the
    instructions and the fatal error on the diagnostic stream, writes nothing
    on the protocol stream and exits with the code 1. *)
Theorem main_without_key_exits (h : host) :
  env_SCOPUS_API_KEY h = None \/ env_SCOPUS_API_KEY h = Some [] ->
  (forall q, In q (configPaths h) -> forall k, try_config h q <> Found k) ->
  snd (main h) = Exit 1
  /\ stdout_lines (fst (main h)) = []
  /\ (exists log,
         fst (main h)
         = Stderr (utf16 "🚀 MCP Abstract Search Tool 시작...") :: log
             ++ showApiKeySetupInstructions
             ++ [Stderr (utf16 "💥 치명적 오류: " ++ key_required)]).
Proof.
  intros Henv Hnone. unfold main.
  rewrite loadApiKey_from_files by (destruct Henv as [-> | ->]; reflexivity).
  rewrite (scan_configs_none h _ Hnone).
  pose proof (scan_configs_diagnostic h (configPaths h)) as Hlog.
  split; [reflexivity|]. split.
  - cbn [fst stdout_lines]. rewrite !stdout_lines_app.
    rewrite (diagnostic_stdout _ Hlog). reflexivity.
  - exists (fst (scan_configs h (configPaths h))). cbn [fst].
    now rewrite <- app_assoc.
Qed.

Lemma main_without_key_exits_witness :
  snd (main bare_host) = Exit 1
  /\ stdout_lines (fst (main bare_host)) = []
  /\ (exists log,
         fst (main bare_host)
         = Stderr (utf16 "🚀 MCP Abstract Search Tool 시작...") :: log
             ++ showApiKeySetupInstructions
             ++ [Stderr (utf16 "💥 치명적 오류: " ++ key_required)]).
Proof.
  apply (main_without_key_exits bare_host).
  - left. reflexivity.
  - intros q _ k. vm_compute. discriminate.
Defined.
